(** * Certificate lifecycle manager (eca-poc): a shallow embedding

    The development follows the Python sources file by file:

    - [config]              src/poc/eca-poc/src/config.py
    - [crl_manager]         src/poc/eca-poc/src/crl_manager.py
    - [certificate_monitor] src/poc/eca-poc/src/certificate_monitor.py
    - [est_client]          src/poc/eca-poc/src/est_client.py
    - [step_ca_client]      src/poc/eca-poc/src/step_ca_client.py
    - [renewal_service]     src/poc/eca-poc/src/renewal_service.py

    Instants ([datetime]) are integers counting microseconds since the
    epoch, durations ([timedelta]) are integers counting microseconds.
    All effects (files, clock, network, the step CLI) act on an explicit
    [World]; Python exceptions are the [Raise] results of the monad [M]. *)

From Stdlib Require Import ZArith.
From Stdlib Require QArith.
From stdpp Require Import gmap strings list fin_maps.

Open Scope Z_scope.

Abbreviation bytes := (list Byte.byte).

(** ** Python values and exceptions *)

(** An attribute of a duck-typed Python object: reading an [Absent]
    attribute raises [AttributeError]. *)
Inductive attr (A : Type) : Type :=
| Absent
| Present (a : A).
Arguments Absent {A}.
Arguments Present {A} a.

(** [TypeError] is the one [str.join] raises on a command line whose
    first item is [None]. *)
Inductive exn : Type :=
| AttributeError (attribute : string)
| OSError (path : string)
| ValueError
| TypeError
| RequestException.

(** [str(e)] as it ends up in log lines and error messages. *)
Definition str_exn (e : exn) : string :=
  match e with
  | AttributeError a => "object has no attribute " +:+ a
  | OSError p => "cannot open " +:+ p
  | ValueError => "value error"
  | TypeError => "sequence item 0: expected str instance, NoneType found"
  | RequestException => "request failed"
  end.

Inductive result (A : Type) : Type :=
| Ok (a : A)
| Raise (e : exn).
Arguments Ok {A} a.
Arguments Raise {A} e.

(** Truth value of a [str]. *)
Definition str_truthy (s : string) : bool :=
  match s with EmptyString => false | _ => true end.

(** Truth value of an [Optional[str]]. *)
Definition opt_str_truthy (o : option string) : bool :=
  match o with Some s => str_truthy s | None => false end.

Definition us_per_second : Z := 1000000.
Definition us_per_day : Z := 86400 * us_per_second.

(** [timedelta.days]: a timedelta is normalised so that its [days] part
    is the floor of the duration over one day. *)
Definition timedelta_days (delta : Z) : Z := Z.div delta us_per_day.

(** A [str] is the string of its UTF-8 bytes. *)

Definition ascii_upper (c : Ascii.ascii) : Ascii.ascii :=
  let n := Ascii.nat_of_ascii c in
  if ((97 <=? n) && (n <=? 122))%nat then Ascii.ascii_of_nat (n - 32) else c.

Definition letter_S : Ascii.ascii := Ascii.ascii_of_nat 83.
Definition letter_T : Ascii.ascii := Ascii.ascii_of_nat 84.

(** [str.upper()], for the comparison [protocol.upper() == "EST"]: on the
    ASCII letters and on the three other characters whose upper case is
    made of the letters E, S and T, which are U+017F (long s, bytes C5 BF,
    upper case S) and the ligatures U+FB05 and U+FB06 (bytes EF AC 85 and
    EF AC 86, upper case ST).  The other characters are left as they are:
    their upper case has a letter that is not in "EST", so the comparison
    is the same. *)
Fixpoint upper (s : string) : string :=
  match s with
  | EmptyString => EmptyString
  | String c s' =>
      let n := Ascii.nat_of_ascii c in
      match s' with
      | String c2 s2 =>
          let n2 := Ascii.nat_of_ascii c2 in
          if ((n =? 197) && (n2 =? 191))%nat then String letter_S (upper s2)
          else
            match s2 with
            | String c3 s3 =>
                let n3 := Ascii.nat_of_ascii c3 in
                if ((n =? 239) && (n2 =? 172) &&
                    ((n3 =? 133) || (n3 =? 134)))%nat
                then String letter_S (String letter_T (upper s3))
                else String (ascii_upper c) (upper s')
            | EmptyString => String (ascii_upper c) (upper s')
            end
      | EmptyString => String (ascii_upper c) EmptyString
      end
  end.

Definition is_slash (c : Ascii.ascii) : bool :=
  (Ascii.nat_of_ascii c =? 47)%nat.

(** [s.rstrip('/')] *)
Fixpoint rstrip_slash (s : string) : string :=
  match s with
  | EmptyString => EmptyString
  | String c s' =>
      match rstrip_slash s' with
      | EmptyString => if is_slash c then EmptyString
                       else String c EmptyString
      | r => String c r
      end
  end.

(** [p[:p.rfind('/') + 1]] *)
Fixpoint up_to_last_slash (p : string) : string :=
  match p with
  | EmptyString => EmptyString
  | String c p' =>
      match up_to_last_slash p' with
      | EmptyString => if is_slash c then String c EmptyString
                       else EmptyString
      | h => String c h
      end
  end.

(** [os.path.dirname(p)] of posixpath: the part up to the last slash,
    without its trailing slashes unless it is made of slashes only. *)
Definition dirname (p : string) : string :=
  let head := up_to_last_slash p in
  match rstrip_slash head with
  | EmptyString => head
  | stripped => stripped
  end.

(** [sub in s] *)
Fixpoint contains (sub s : string) : bool :=
  String.prefix sub s ||
  match s with
  | EmptyString => false
  | String _ s' => contains sub s'
  end.

(** [s.replace(':9000', ':8443/.well-known/est')] *)
Fixpoint replace_step_port (s : string) : string :=
  match s with
  | EmptyString => EmptyString
  | String c s' =>
      if String.prefix ":9000" s then
        match s' with
        | String _ (String _ (String _ (String _ rest))) =>
            ":8443/.well-known/est" +:+ replace_step_port rest
        | _ => s
        end
      else String c (replace_step_port s')
  end.

(** ** config.py *)

Module config.

(** [CertificateConfig].  The first six fields are the ones config.py
    declares.  certificate_monitor.py reads a seventh attribute,
    [renewal_threshold_days], which the pydantic model does not declare:
    it is [Absent] on every object built by [CertificateConfig] below and
    can only be [Present] on another object passed in its place. *)
Record CertificateConfig : Type := {
  name : string;
  cert_path : string;
  key_path : string;
  renewal_threshold_percent : option QArith_base.Q;
  subject : string;
  sans : list string;
  renewal_threshold_days : attr (option Z)
}.

(** The constructor of the pydantic model (unknown keys are ignored). *)
Definition mkCertificateConfig (n c k : string)
    (pct : option QArith_base.Q) (subj : string) (alt : list string)
  : CertificateConfig :=
  {| name := n; cert_path := c; key_path := k;
     renewal_threshold_percent := pct; subject := subj; sans := alt;
     renewal_threshold_days := Absent |}.

Record StepCAConfig : Type := {
  ca_url : string;
  ca_fingerprint : string;
  provisioner_name : string;
  provisioner_password : option string;
  root_cert_path : option string;
  protocol : string;
  est_ca_bundle : option string;
  crl_enabled : bool;
  crl_urls : option (list string);
  crl_cache_dir : string;
  crl_refresh_hours : Z;
  crl_timeout_seconds : Z
}.

(** [ServiceConfig] allows extra keys; the monitor looks three of them
    up by name, each [None] when the configuration does not carry it. *)
Record ServiceConfig : Type := {
  check_interval_minutes : Z;
  log_file : string;
  cert_storage_path : string;
  service_renewal_threshold_percent : QArith_base.Q;
  step_ca : StepCAConfig;
  certificates : list CertificateConfig;
  emergency_renewal_threshold_days : option Z;
  warning_threshold_days : option Z;
  default_renewal_threshold_days : option Z
}.

End config.

(** ** The world the service runs in *)

(** What [requests] verifies a server certificate against: the [verify]
    of a session, and of a request as it is sent. *)
Inductive Verify : Type :=
| VerifyDisabled
| VerifyBundle (path : string)
| VerifySystemDefault.

Inductive Method : Type := GET | POST.

Record HttpRequest : Type := {
  req_method : Method;
  req_url : string;
  req_verify : Verify
}.

Record Response : Type := {
  status_code : Z;
  content : bytes
}.

(** What one run of the step CLI produced; the output streams are kept
    as [_run_step_command] hands them on, stripped of surrounding white
    space. *)
Record Completed : Type := {
  returncode : Z;
  stdout : string;
  stderr : string
}.

Record World : Type := {
  (** the file system: path to content *)
  files : gmap string bytes;
  (** paths that cannot be opened for writing *)
  unwritable : list string;
  (** successive readings of [datetime.now(timezone.utc)] *)
  clock : nat → Z;
  ticks : nat;
  (** the network: the answer to the n-th request *)
  http_server : nat → HttpRequest → result Response;
  http_log : list HttpRequest;
  (** the n-th key pair and signing request: (request body, key PEM) *)
  csr_source : nat → result (bytes * bytes);
  csr_drawn : nat;
  (** the step CLI: outcome of the n-th run and the files it leaves *)
  step_cli : nat → list string → gmap string bytes →
             Completed * gmap string bytes;
  cli_log : list (list string)
}.

Definition set_files (f : gmap string bytes) (w : World) : World :=
  {| files := f; unwritable := unwritable w; clock := clock w;
     ticks := ticks w; http_server := http_server w;
     http_log := http_log w; csr_source := csr_source w;
     csr_drawn := csr_drawn w; step_cli := step_cli w;
     cli_log := cli_log w |}.

Definition set_ticks (n : nat) (w : World) : World :=
  {| files := files w; unwritable := unwritable w; clock := clock w;
     ticks := n; http_server := http_server w;
     http_log := http_log w; csr_source := csr_source w;
     csr_drawn := csr_drawn w; step_cli := step_cli w;
     cli_log := cli_log w |}.

Definition set_http_log (l : list HttpRequest) (w : World) : World :=
  {| files := files w; unwritable := unwritable w; clock := clock w;
     ticks := ticks w; http_server := http_server w;
     http_log := l; csr_source := csr_source w;
     csr_drawn := csr_drawn w; step_cli := step_cli w;
     cli_log := cli_log w |}.

Definition set_csr_drawn (n : nat) (w : World) : World :=
  {| files := files w; unwritable := unwritable w; clock := clock w;
     ticks := ticks w; http_server := http_server w;
     http_log := http_log w; csr_source := csr_source w;
     csr_drawn := n; step_cli := step_cli w;
     cli_log := cli_log w |}.

Definition set_cli (f : gmap string bytes) (l : list (list string))
    (w : World) : World :=
  {| files := f; unwritable := unwritable w; clock := clock w;
     ticks := ticks w; http_server := http_server w;
     http_log := http_log w; csr_source := csr_source w;
     csr_drawn := csr_drawn w; step_cli := step_cli w;
     cli_log := l |}.

(** ** The monad of effectful code: world passing with exceptions.
    A raised exception keeps the effects performed before it. *)

Definition M (A : Type) : Type := World → result A * World.

Global Instance M_ret : MRet M := λ A a w, (Ok a, w).

Global Instance M_bind : MBind M := λ A B f m w,
  match m w with
  | (Ok a, w') => f a w'
  | (Raise e, w') => (Raise e, w')
  end.

Definition raise {A : Type} (e : exn) : M A := λ w, (Raise e, w).

(** [try: body except Exception as e: handler e] *)
Definition try_except {A : Type} (body : M A) (handler : exn → M A) : M A :=
  λ w, match body w with
       | (Ok a, w') => (Ok a, w')
       | (Raise e, w') => handler e w'
       end.

(** [try: body except: pass] *)
Definition try_pass (body : M unit) : M unit :=
  try_except body (λ _, mret tt).

(** *** Primitive operations *)

Definition datetime_now : M Z :=
  λ w, (Ok (clock w (ticks w)), set_ticks (S (ticks w)) w).

Definition os_path_exists (p : string) : M bool :=
  λ w, (Ok (bool_decide (is_Some (files w !! p))), w).

(** [open(p, 'rb').read()] *)
Definition read_file (p : string) : M bytes :=
  λ w, match files w !! p with
       | Some b => (Ok b, w)
       | None => (Raise (OSError p), w)
       end.

(** [open(p, 'wb').write(b)] *)
Definition write_file (p : string) (b : bytes) : M unit :=
  λ w, if bool_decide (p ∈ unwritable w) then (Raise (OSError p), w)
       else (Ok tt, set_files (<[p := b]> (files w)) w).

(** [shutil.copy2(src, dst)] *)
Definition copy2 (src dst : string) : M unit :=
  b ← read_file src; write_file dst b.

(** [os.remove(p)] *)
Definition os_remove (p : string) : M unit :=
  λ w, match files w !! p with
       | Some _ => (Ok tt, set_files (delete p (files w)) w)
       | None => (Raise (OSError p), w)
       end.

(** [os.chmod(p, mode)]: permission bits are not part of the model, the
    call only fails on a missing file. *)
Definition os_chmod (p : string) (mode : Z) : M unit :=
  λ w, match files w !! p with
       | Some _ => (Ok tt, w)
       | None => (Raise (OSError p), w)
       end.

(** [os.makedirs(d, exist_ok=True)]: it raises [FileNotFoundError] on
    the empty path, which is what [os.path.dirname] gives for a bare
    file name; the directories themselves are not part of the model. *)
Definition os_makedirs (d : string) : M unit :=
  if str_truthy d then mret tt else raise (OSError d).

(** [response.raise_for_status()] *)
Definition raise_for_status (r : Response) : M unit :=
  if (400 <=? status_code r) && (status_code r <? 600)
  then raise RequestException else mret tt.

(** [subprocess.run(cmd, ...)] for the step CLI. *)
Definition subprocess_run (cmd : list string) : M Completed :=
  λ w, let '(c, f) := step_cli w (length (cli_log w)) cmd (files w) in
       (Ok c, set_cli f (cli_log w ++ [cmd]) w).

(** ** cryptography.x509 *)

Module x509.

Record Certificate : Type := {
  not_valid_before : Z;
  not_valid_after : Z;
  serial_number : Z;
  (** the [uniformResourceIdentifier] names of the CRL distribution
      points extension, in order; empty when the extension is absent *)
  crl_distribution_points : list string
}.

Record RevokedCertificate : Type := {
  revoked_serial_number : Z;
  revocation_date_utc : Z;
  (** the extensions of the entry: the name of its CRL reason, when it
      has that extension *)
  crl_reason : option string
}.

(** [x509.ExtensionOID.CRL_REASON]: the class [ExtensionOID] has no such
    attribute (the object identifier of the reason code is an attribute
    of [CRLEntryExtensionOID]). *)
Definition ExtensionOID_CRL_REASON : result unit :=
  Raise (AttributeError "CRL_REASON").

Record CertificateRevocationList : Type := {
  issuer : string;
  last_update_utc : Z;
  next_update_utc : option Z;
  revoked : list RevokedCertificate
}.

(** Truth value of a CRL object: the class defines [__len__] (the number
    of revoked certificates) and no [__bool__]. *)
Definition crl_truthy (crl : CertificateRevocationList) : bool :=
  match revoked crl with [] => false | _ => true end.

End x509.

(** What the service gets from its libraries and from the process it
    runs in: the PEM and DER parsers ([None] stands for [ValueError]),
    the cache file name derived from a URL, the iteration order of a
    [set] of strings built from the given insertions, and the CA bundle
    that [requests] reads from the environment of the process on every
    request, which is [REQUESTS_CA_BUNDLE] or else [CURL_CA_BUNDLE] when
    one of them is set and not empty (the service never changes its
    environment). *)
Class Lib : Type := {
  load_pem_x509_certificate : bytes → option x509.Certificate;
  load_der_x509_certificate : bytes → option x509.Certificate;
  load_pem_x509_crl : bytes → option x509.CertificateRevocationList;
  load_der_x509_crl : bytes → option x509.CertificateRevocationList;
  crl_file_name : string → string;
  set_iter : list string → list string;
  requests_ca_bundle : option string
}.

(** ** requests *)

Section requests.
Context `{Lib}.

(** [Session.merge_environment_settings] for a call that passes no
    [verify] of its own, as all calls of the service do: the bundle of
    the environment, when there is one, takes the place of the [verify]
    of the session, whatever that is. *)
Definition merge_environment_settings (session_verify : Verify) : Verify :=
  match requests_ca_bundle with
  | Some bundle => VerifyBundle bundle
  | None => session_verify
  end.

(** One request through a [requests.Session] whose [verify] is [v]. *)
Definition session_request (v : Verify) (m : Method) (u : string)
  : M Response :=
  λ w, let rq := {| req_method := m; req_url := u;
                    req_verify := merge_environment_settings v |} in
       match http_server w (length (http_log w)) rq with
       | Ok r => (Ok r, set_http_log (http_log w ++ [rq]) w)
       | Raise e => (Raise e, set_http_log (http_log w ++ [rq]) w)
       end.

End requests.

(** ** crl_manager.py *)

Module crl_manager.

Record CRLInfo : Type := {
  url : string;
  file_path : string;
  info_issuer : string;
  last_update : Z;
  next_update : option Z;
  revoked_count : nat;
  is_valid : bool;
  error_message : option string
}.

Record RevocationStatus : Type := {
  is_revoked : bool;
  revocation_date : option Z;
  revocation_reason : option string;
  crl_source : option string;
  check_time : Z
}.

(** The fields of a [CRLManager] object.  [session_verify] is
    [self.session.verify]; the three dictionaries are the caches. *)
Record CRLManager : Type := {
  config : config.StepCAConfig;
  session_verify : Verify;
  _crl_cache : gmap string x509.CertificateRevocationList;
  _crl_info_cache : gmap string CRLInfo;
  _last_download_time : gmap string Z
}.

Definition set_crl_cache (c : gmap string x509.CertificateRevocationList)
    (self : CRLManager) : CRLManager :=
  {| config := config self; session_verify := session_verify self;
     _crl_cache := c; _crl_info_cache := _crl_info_cache self;
     _last_download_time := _last_download_time self |}.

Definition set_crl_info_cache (c : gmap string CRLInfo)
    (self : CRLManager) : CRLManager :=
  {| config := config self; session_verify := session_verify self;
     _crl_cache := _crl_cache self; _crl_info_cache := c;
     _last_download_time := _last_download_time self |}.

Definition set_last_download_time (c : gmap string Z)
    (self : CRLManager) : CRLManager :=
  {| config := config self; session_verify := session_verify self;
     _crl_cache := _crl_cache self;
     _crl_info_cache := _crl_info_cache self;
     _last_download_time := c |}.

(** [RevocationStatus(...)]: [__post_init__] stamps [check_time]. *)
Definition mkRevocationStatus (revoked : bool) (date : option Z)
    (reason source : option string) : M RevocationStatus :=
  now ← datetime_now;
  mret {| is_revoked := revoked; revocation_date := date;
          revocation_reason := reason; crl_source := source;
          check_time := now |}.

Section with_lib.
Context `{Lib}.

(** [CRLManager.__init__]: the TLS verification of the session is
    decided here, once. *)
Definition __init__ (step_config : config.StepCAConfig) : M CRLManager :=
  pinned ← match config.root_cert_path step_config with
           | Some p =>
               if str_truthy p then
                 e ← os_path_exists p;
                 mret (if e : bool then Some p else None)
               else mret None
           | None => mret None
           end;
  os_makedirs (config.crl_cache_dir step_config);;
  mret {| config := step_config;
          session_verify := match pinned with
                            | Some p => VerifyBundle p
                            | None => VerifyDisabled
                            end;
          _crl_cache := ∅; _crl_info_cache := ∅;
          _last_download_time := ∅ |}.

(** [os.path.join(self.config.crl_cache_dir, filename)] for the cache
    directories the constructor accepts: it raises on the empty one, and
    a directory written with a trailing slash names the same file. *)
Definition _get_crl_file_path (self : CRLManager) (crl_url : string)
  : string :=
  config.crl_cache_dir (config self) +:+ "/" +:+ crl_file_name crl_url.

Definition download_crl (self : CRLManager) (crl_url : string)
  : M (option bytes) :=
  try_except
    (response ← session_request (session_verify self) GET crl_url;
     raise_for_status response;;
     mret (match content response with
           | [] => None
           | _ => Some (content response)
           end))
    (λ _, mret None).

(** PEM first, then DER; [None] when both raise [ValueError]. *)
Definition parse_crl (crl_data : bytes)
  : option x509.CertificateRevocationList :=
  match load_pem_x509_crl crl_data with
  | Some crl => Some crl
  | None => load_der_x509_crl crl_data
  end.

Definition load_crl_from_file (file_path : string)
  : M (option x509.CertificateRevocationList) :=
  try_except
    (e ← os_path_exists file_path;
     if e : bool then
       crl_data ← read_file file_path;
       mret (parse_crl crl_data)
     else mret None)
    (λ _, mret None).

Definition save_crl_to_file (crl_data : bytes) (file_path : string)
  : M bool :=
  try_except
    (os_makedirs (dirname file_path);;
     write_file file_path crl_data;;
     os_chmod file_path 420;;
     mret true)
    (λ _, mret false).

Definition get_crl_info (self : CRLManager)
    (crl : x509.CertificateRevocationList) (crl_url : string) : M CRLInfo :=
  now ← datetime_now;
  mret {| url := crl_url;
          file_path := _get_crl_file_path self crl_url;
          info_issuer := x509.issuer crl;
          last_update := x509.last_update_utc crl;
          next_update := x509.next_update_utc crl;
          revoked_count := length (x509.revoked crl);
          is_valid := (x509.last_update_utc crl <=? now) &&
                      match x509.next_update_utc crl with
                      | None => true
                      | Some n => now <=? n
                      end;
          error_message := None |}.

(** The guard at the head of [refresh_crl]: the in-memory CRL of a URL
    downloaded less than 60 seconds before [now]. *)
Definition recently_downloaded (self : CRLManager) (now : Z)
    (crl_url : string) : option x509.CertificateRevocationList :=
  match _last_download_time self !! crl_url with
  | Some t =>
      if now - t <? 60 * us_per_second
      then _crl_cache self !! crl_url
      else None
  | None => None
  end.

(** [crl = self.load_crl_from_file(file_path); if crl: cache and return
    it; return None] *)
Definition fallback_to_file (self : CRLManager) (crl_url : string)
  : M (option x509.CertificateRevocationList * CRLManager) :=
  crl ← load_crl_from_file (_get_crl_file_path self crl_url);
  match crl with
  | Some c =>
      if x509.crl_truthy c
      then mret (Some c, set_crl_cache (<[crl_url := c]> (_crl_cache self)) self)
      else mret (None, self)
  | None => mret (None, self)
  end.

(** [refresh_crl] returns the CRL together with the manager as the call
    leaves it. *)
Definition refresh_crl (self : CRLManager) (crl_url : string)
  : M (option x509.CertificateRevocationList * CRLManager) :=
  let file_path := _get_crl_file_path self crl_url in
  now ← datetime_now;
  match recently_downloaded self now crl_url with
  | Some crl => mret (Some crl, self)
  | None =>
      crl_data ← download_crl self crl_url;
      match crl_data with
      | None =>
          match _crl_cache self !! crl_url with
          | Some crl => mret (Some crl, self)
          | None => fallback_to_file self crl_url
          end
      | Some data =>
          let self :=
            set_last_download_time
              (<[crl_url := now]> (_last_download_time self)) self in
          save_crl_to_file data file_path;;
          match parse_crl data with
          | Some crl =>
              let self :=
                set_crl_cache (<[crl_url := crl]> (_crl_cache self)) self in
              info ← get_crl_info self crl crl_url;
              mret (Some crl,
                    set_crl_info_cache
                      (<[crl_url := info]> (_crl_info_cache self)) self)
          | None => fallback_to_file self crl_url
          end
      end
  end.

Definition get_certificate_distribution_points
    (certificate : x509.Certificate) : list string :=
  x509.crl_distribution_points certificate.

(** The body of [for revoked_cert in crl]: the first entry with the
    certificate's serial number. *)
Definition find_revoked (crl : x509.CertificateRevocationList)
    (cert_serial : Z) : option x509.RevokedCertificate :=
  List.find (λ rc, x509.revoked_serial_number rc =? cert_serial)
            (x509.revoked crl).

(** [revocation_reason = "Unspecified"; try: if revoked_cert.extensions:
    (look the reason up) except (ExtensionNotFound, AttributeError):
    pass]: the look-up starts by reading [x509.ExtensionOID.CRL_REASON]. *)
Definition reason_name (rc : x509.RevokedCertificate) : string :=
  let looked_up : result string :=
    match x509.crl_reason rc with
    | Some r =>
        match x509.ExtensionOID_CRL_REASON with
        | Ok _ => Ok r
        | Raise e => Raise e
        end
    | None => Ok "Unspecified"
    end in
  match looked_up with
  | Ok r => r
  | Raise _ => "Unspecified"
  end.

(** One turn of the loop over the CRL URLs, without its [try]:
    [Some status] is the early [return], [None] falls through to the
    next URL. *)
Definition check_one_crl (self : CRLManager)
    (certificate : x509.Certificate) (crl_url : string)
  : M (option RevocationStatus * CRLManager) :=
  r ← refresh_crl self crl_url;
  match r with
  | (Some crl, self') =>
      if x509.crl_truthy crl then
        match find_revoked crl (x509.serial_number certificate) with
        | Some rc =>
            st ← mkRevocationStatus true
                   (Some (x509.revocation_date_utc rc))
                   (Some (reason_name rc)) (Some crl_url);
            mret (Some st, self')
        | None => mret (None, self')
        end
      else mret (None, self')
  | (None, self') => mret (None, self')
  end.

(** [for crl_url in crl_urls: try: ... except Exception: continue],
    followed by the final "not found in any CRL" status. *)
Fixpoint check_crls (self : CRLManager) (certificate : x509.Certificate)
    (crl_urls : list string) : M (RevocationStatus * CRLManager) :=
  match crl_urls with
  | [] =>
      st ← mkRevocationStatus false None None None;
      mret (st, self)
  | crl_url :: rest =>
      r ← try_except (check_one_crl self certificate crl_url)
                     (λ _, mret (None, self));
      match r with
      | (Some st, self') => mret (st, self')
      | (None, self') => check_crls self' certificate rest
      end
  end.

(** The insertions into the [set] of CRL URLs: the configured URLs, then
    the distribution points of the certificate. *)
Definition crl_url_insertions (self : CRLManager)
    (certificate : x509.Certificate) : list string :=
  match config.crl_urls (config self) with
  | Some (u :: us) => u :: us
  | _ => []
  end ++ get_certificate_distribution_points certificate.

Definition check_certificate_revocation (self : CRLManager)
    (certificate : x509.Certificate) : M (RevocationStatus * CRLManager) :=
  if negb (config.crl_enabled (config self)) then
    st ← mkRevocationStatus false None None None;
    mret (st, self)
  else
    let crl_urls := set_iter (crl_url_insertions self certificate) in
    match crl_urls with
    | [] =>
        st ← mkRevocationStatus false None None None;
        mret (st, self)
    | _ => check_crls self certificate crl_urls
    end.

(** One entry of the list under "crls" in the status report: the cached
    information of a URL, or the URL marked "not_loaded". *)
Inductive CRLReportEntry : Type :=
| Loaded (info : CRLInfo)
| NotLoaded (crl_url : string).

Record CRLStatusReport : Type := {
  report_crl_enabled : bool;
  report_crl_urls : option (list string);
  cache_directory : string;
  refresh_interval_hours : Z;
  crls : list CRLReportEntry
}.

(** [get_crl_status_report]: the entries follow the iteration over
    [set(self.config.crl_urls or [])]. *)
Definition get_crl_status_report (self : CRLManager) : CRLStatusReport :=
  let all_crl_urls :=
    set_iter (default [] (config.crl_urls (config self))) in
  {| report_crl_enabled := config.crl_enabled (config self);
     report_crl_urls := config.crl_urls (config self);
     cache_directory := config.crl_cache_dir (config self);
     refresh_interval_hours := config.crl_refresh_hours (config self);
     crls := (λ crl_url,
                match _crl_info_cache self !! crl_url with
                | Some crl_info => Loaded crl_info
                | None => NotLoaded crl_url
                end) <$> all_crl_urls |}.

End with_lib.

End crl_manager.

(** A pure computation that may raise, run inside [M]. *)
Definition liftR {A : Type} (r : result A) : M A := λ w, (r, w).

(** ** certificate_monitor.py *)

Module certificate_monitor.

Record CertificateStatus : Type := {
  name : string;
  cert_path : string;
  is_valid : bool;
  expires_at : option Z;
  days_until_expiry : option Z;
  needs_renewal : bool;
  renewal_threshold_days : Z;
  renewal_reason : string;
  is_revoked : bool;
  revocation_info : option crl_manager.RevocationStatus;
  error_message : option string
}.

Record CertificateMonitor : Type := {
  service_config : option config.ServiceConfig;
  monitor_crl_manager : option crl_manager.CRLManager
}.

Section with_lib.
Context `{Lib}.

Definition __init__ (step_config : option config.StepCAConfig)
    (service_config : option config.ServiceConfig) : M CertificateMonitor :=
  match step_config with
  | Some sc =>
      if config.crl_enabled sc then
        m ← crl_manager.__init__ sc;
        mret {| service_config := service_config;
                monitor_crl_manager := Some m |}
      else mret {| service_config := service_config;
                   monitor_crl_manager := None |}
  | None => mret {| service_config := service_config;
                    monitor_crl_manager := None |}
  end.

(** PEM first, then DER. *)
Definition parse_certificate (cert_data : bytes) : option x509.Certificate :=
  match load_pem_x509_certificate cert_data with
  | Some c => Some c
  | None => load_der_x509_certificate cert_data
  end.

Definition load_certificate (cert_path : string)
  : M (option x509.Certificate) :=
  try_except
    (e ← os_path_exists cert_path;
     if e : bool then
       cert_data ← read_file cert_path;
       mret (parse_certificate cert_data)
     else mret None)
    (λ _, mret None).

(** The urgency ladder of [check_certificate_expiry]; [needs_renewal]
    is the time-based flag computed just before it. *)
Definition urgency (service_config : option config.ServiceConfig)
    (days_until_expiry : Z) (needs_renewal : bool) : string :=
  match service_config with
  | Some sc =>
      let emergency_threshold :=
        default 7 (config.emergency_renewal_threshold_days sc) in
      let warning_threshold :=
        default 14 (config.warning_threshold_days sc) in
      if days_until_expiry <=? emergency_threshold then "emergency"
      else if days_until_expiry <=? warning_threshold then
        (if needs_renewal then "warning" else "approaching")
      else (if needs_renewal then "normal" else "valid")
  | None => if needs_renewal then "normal" else "valid"
  end.

Definition check_certificate_expiry (self : CertificateMonitor)
    (certificate : x509.Certificate) (renewal_threshold_days : Z)
  : M (Z * Z * bool * string) :=
  let expires_at := x509.not_valid_after certificate in
  now ← datetime_now;
  let days_until_expiry := timedelta_days (expires_at - now) in
  let needs_renewal := days_until_expiry <=? renewal_threshold_days in
  mret (expires_at, days_until_expiry, needs_renewal,
        urgency (service_config self) days_until_expiry needs_renewal).

Definition get_effective_renewal_threshold (self : CertificateMonitor)
    (cert_config : config.CertificateConfig) : result Z :=
  match config.renewal_threshold_days cert_config with
  | Absent => Raise (AttributeError "renewal_threshold_days")
  | Present (Some d) => Ok d
  | Present None =>
      match service_config self with
      | Some sc =>
          match config.default_renewal_threshold_days sc with
          | Some d => Ok d
          | None => Ok 30
          end
      | None => Ok 30
      end
  end.

(** The status both error paths of [check_certificate_status] build. *)
Definition error_status (self : CertificateMonitor)
    (cert_config : config.CertificateConfig) (msg : string)
  : M CertificateStatus :=
  threshold ← liftR (get_effective_renewal_threshold self cert_config);
  mret {| name := config.name cert_config;
          cert_path := config.cert_path cert_config;
          is_valid := false;
          expires_at := None;
          days_until_expiry := None;
          needs_renewal := true;
          renewal_threshold_days := threshold;
          renewal_reason := "error";
          is_revoked := false;
          revocation_info := None;
          error_message := Some msg |}.

(** The [try] block of [check_certificate_status]. *)
Definition evaluate_loaded (self : CertificateMonitor)
    (cert_config : config.CertificateConfig)
    (certificate : x509.Certificate)
  : M (CertificateStatus * CertificateMonitor) :=
  renewal_threshold ←
    liftR (get_effective_renewal_threshold self cert_config);
  '(expires_at, days_until_expiry, needs_renewal, renewal_reason) ←
    check_certificate_expiry self certificate renewal_threshold;
  now ← datetime_now;
  let not_before := x509.not_valid_before certificate in
  let not_after := x509.not_valid_after certificate in
  let is_time_valid := (not_before <=? now) && (now <=? not_after) in
  '(is_revoked, revocation_info, needs_renewal, self') ←
    match monitor_crl_manager self with
    | Some mgr =>
        if is_time_valid then
          '(info, mgr') ←
            crl_manager.check_certificate_revocation mgr certificate;
          let is_revoked := crl_manager.is_revoked info in
          mret (is_revoked, Some info,
                if is_revoked then true else needs_renewal,
                {| service_config := service_config self;
                   monitor_crl_manager := Some mgr' |})
        else mret (false, None, needs_renewal, self)
    | None => mret (false, None, needs_renewal, self)
    end;
  let is_valid := is_time_valid && negb is_revoked in
  mret ({| name := config.name cert_config;
           cert_path := config.cert_path cert_config;
           is_valid := is_valid;
           expires_at := Some expires_at;
           days_until_expiry := Some days_until_expiry;
           needs_renewal := needs_renewal;
           renewal_threshold_days := renewal_threshold;
           renewal_reason := renewal_reason;
           is_revoked := is_revoked;
           revocation_info := revocation_info;
           error_message := None |}, self').

Definition check_certificate_status (self : CertificateMonitor)
    (cert_config : config.CertificateConfig)
  : M (CertificateStatus * CertificateMonitor) :=
  certificate ← load_certificate (config.cert_path cert_config);
  match certificate with
  | None =>
      st ← error_status self cert_config "Failed to load certificate";
      mret (st, self)
  | Some certificate =>
      try_except
        (evaluate_loaded self cert_config certificate)
        (λ e,
           st ← error_status self cert_config
                  ("Error checking certificate: " +:+ str_exn e);
           mret (st, self))
  end.

Fixpoint check_all_certificates (self : CertificateMonitor)
    (cert_configs : list config.CertificateConfig)
  : M (list CertificateStatus * CertificateMonitor) :=
  match cert_configs with
  | [] => mret ([], self)
  | cert_config :: rest =>
      '(status, self') ← check_certificate_status self cert_config;
      '(statuses, self'') ← check_all_certificates self' rest;
      mret (status :: statuses, self'')
  end.

End with_lib.

End certificate_monitor.

(** [rsa.generate_private_key] and the signing of the request: the next
    pair of the world's source, or the exception it raises. *)
Definition generate_csr : M (bytes * bytes) :=
  λ w, (csr_source w (csr_drawn w), set_csr_drawn (S (csr_drawn w)) w).

Definition backup_path (p : string) : string := p +:+ ".backup".

(** ** est_client.py *)

Module est_client.

Record ESTClient : Type := {
  config : config.StepCAConfig;
  session_verify : Verify
}.

Section with_lib.
Context `{Lib}.

Definition __init__ (step_config : config.StepCAConfig) : ESTClient :=
  {| config := step_config;
     session_verify :=
       if opt_str_truthy (config.est_ca_bundle step_config)
       then VerifyBundle (default EmptyString (config.est_ca_bundle step_config))
       else if opt_str_truthy (config.root_cert_path step_config)
       then VerifyBundle (default EmptyString (config.root_cert_path step_config))
       else VerifySystemDefault |}.

Definition _get_est_url (self : ESTClient) (operation : string) : string :=
  let base_url := rstrip_slash (config.ca_url (config self)) in
  let est_url :=
    if contains ":9000" base_url then replace_step_port base_url
    else if negb (contains ".well-known/est" base_url)
    then base_url +:+ "/.well-known/est"
    else base_url in
  est_url +:+ "/" +:+ operation.

Definition _generate_csr (self : ESTClient)
    (cert_config : config.CertificateConfig) : M (bytes * bytes) :=
  generate_csr.

Definition enroll_certificate (self : ESTClient)
    (cert_config : config.CertificateConfig)
    (output_cert_path output_key_path : string) : M bool :=
  try_except
    ('(csr, key_pem) ← _generate_csr self cert_config;
     response ← session_request (session_verify self) POST
                  (_get_est_url self "simpleenroll");
     if status_code response =? 200 then
       os_makedirs (dirname output_cert_path);;
       os_makedirs (dirname output_key_path);;
       write_file output_cert_path (content response);;
       write_file output_key_path key_pem;;
       os_chmod output_cert_path 420;;
       os_chmod output_key_path 384;;
       mret true
     else mret false)
    (λ _, mret false).

Definition renew_certificate (self : ESTClient)
    (cert_config : config.CertificateConfig) : M bool :=
  let cert_path := config.cert_path cert_config in
  let key_path := config.key_path cert_config in
  try_except
    (e ← os_path_exists cert_path;
     if negb e then
       enroll_certificate self cert_config cert_path key_path
     else
       current_cert_data ← read_file cert_path;
       '(csr, key_pem) ← _generate_csr self cert_config;
       response ← session_request (session_verify self) POST
                    (_get_est_url self "simplereenroll");
       if status_code response =? 200 then
         write_file (backup_path cert_path) current_cert_data;;
         write_file cert_path (content response);;
         write_file key_path key_pem;;
         os_chmod cert_path 420;;
         os_chmod key_path 384;;
         mret true
       else mret false)
    (λ _, mret false).

Definition get_ca_certs (self : ESTClient) : M (option bytes) :=
  try_except
    (response ← session_request (session_verify self) GET
                  (_get_est_url self "cacerts");
     if status_code response =? 200 then mret (Some (content response))
     else mret None)
    (λ _, mret None).

Definition verify_connectivity (self : ESTClient) : M bool :=
  try_except
    (ca_certs ← get_ca_certs self;
     mret (match ca_certs with Some _ => true | None => false end))
    (λ _, mret false).

End with_lib.

End est_client.

(** ** step_ca_client.py *)

Module step_ca_client.

(** The dictionary [_run_step_command] returns. *)
Record StepResult : Type := {
  success : bool;
  result_stdout : string;
  result_stderr : string;
  result_returncode : Z
}.

Record StepCAClient : Type := {
  config : config.StepCAConfig;
  est_client : option est_client.ESTClient;
  _step_cli_path : option string
}.

Definition is_EST (self : StepCAClient) : bool :=
  bool_decide (upper (config.protocol (config self)) = "EST").

(** Without a CLI path (the EST set-up) building the command line
    raises inside the [try], which yields the failure dictionary. *)
Definition _run_step_command (self : StepCAClient) (args : list string)
  : M StepResult :=
  match _step_cli_path self with
  | Some p =>
      c ← subprocess_run (p :: args);
      mret {| success := returncode c =? 0;
              result_stdout := stdout c;
              result_stderr := stderr c;
              result_returncode := returncode c |}
  | None =>
      mret {| success := false;
              result_stdout := EmptyString;
              result_stderr := str_exn TypeError;
              result_returncode := -1 |}
  end.

(** The temporary password file lives only for the duration of the
    call; only its name reaches the command line. *)
Definition get_provisioner_token (self : StepCAClient) (subject : string)
    (sans : list string) : M (option string) :=
  let args :=
    ["ca"; "token"; subject; "--provisioner";
     config.provisioner_name (config self)]
    ++ flat_map (λ san, ["--san"; san]) sans
    ++ (if opt_str_truthy (config.provisioner_password (config self))
        then ["--password-file"; "tmp.pwd"] else []) in
  r ← _run_step_command self args;
  mret (if success r then Some (result_stdout r) else None).

Definition _request_certificate_jwk (self : StepCAClient)
    (cert_config : config.CertificateConfig)
    (output_cert_path output_key_path : string) : M bool :=
  token ← get_provisioner_token self (config.subject cert_config)
            (config.sans cert_config);
  if opt_str_truthy token then
    r ← _run_step_command self
          ["ca"; "certificate"; config.subject cert_config;
           output_cert_path; output_key_path;
           "--token"; default EmptyString token; "--force"];
    mret (success r)
  else mret false.

Section with_lib.
Context `{Lib}.

Definition request_certificate (self : StepCAClient)
    (cert_config : config.CertificateConfig)
    (output_cert_path output_key_path : string) : M bool :=
  if is_EST self then
    match est_client self with
    | Some c =>
        est_client.enroll_certificate c cert_config
          output_cert_path output_key_path
    | None => raise (AttributeError "enroll_certificate")
    end
  else _request_certificate_jwk self cert_config
         output_cert_path output_key_path.

Definition _renew_certificate_jwk (self : StepCAClient)
    (cert_config : config.CertificateConfig) : M bool :=
  let cert_path := config.cert_path cert_config in
  let key_path := config.key_path cert_config in
  ec ← os_path_exists cert_path;
  if negb ec then mret false else
  ek ← os_path_exists key_path;
  if negb ek then mret false else
  let backup_cert_path := backup_path cert_path in
  let backup_key_path := backup_path key_path in
  try_pass (copy2 cert_path backup_cert_path;;
            copy2 key_path backup_key_path);;
  r ← _run_step_command self
        ["ca"; "renew"; cert_path; key_path; "--force"];
  if success r then
    try_pass (os_remove backup_cert_path;;
              os_remove backup_key_path);;
    mret true
  else
    try_pass (copy2 backup_cert_path cert_path;;
              copy2 backup_key_path key_path);;
    request_certificate self cert_config cert_path key_path.

Definition renew_certificate (self : StepCAClient)
    (cert_config : config.CertificateConfig) : M bool :=
  if is_EST self then
    match est_client self with
    | Some c => est_client.renew_certificate c cert_config
    | None => raise (AttributeError "renew_certificate")
    end
  else _renew_certificate_jwk self cert_config.

End with_lib.

Definition verify_certificate (self : StepCAClient) (cert_path : string)
  : M bool :=
  e ← os_path_exists cert_path;
  if negb e then mret false else
  match config.root_cert_path (config self) with
  | Some roots =>
      r ← _run_step_command self
            ["certificate"; "verify"; cert_path; "--roots"; roots];
      mret (success r)
  | None => mret false
  end.

(** The candidates of [_find_step_cli], in order. *)
Definition possible_paths : list string :=
  ["step"; "/usr/local/bin/step"; "/usr/bin/step";
   "C:\Program Files\step\bin\step.exe"; "step.exe"].

(** The loop of [_find_step_cli] over the candidates left: the first
    whose "version" run exits with 0.  A candidate that cannot be run
    at all is skipped like one that exits with another code.  [None]
    stands for the [RuntimeError] raised after the last candidate. *)
Fixpoint find_step_cli_in (paths : list string) : M (option string) :=
  match paths with
  | [] => mret None
  | path :: rest =>
      c ← subprocess_run [path; "version"];
      if returncode c =? 0 then mret (Some path)
      else find_step_cli_in rest
  end.

Definition _find_step_cli : M (option string) :=
  find_step_cli_in possible_paths.

Definition _bootstrap_ca_jwk (self : StepCAClient) : M bool :=
  r ← _run_step_command self
        ["ca"; "bootstrap"; "--ca-url"; config.ca_url (config self);
         "--fingerprint"; config.ca_fingerprint (config self); "--force"];
  mret (success r).

(** What [get_ca_info] returns: the object parsed from the output of
    "ca health" with the protocol added, or a status with its protocol
    and message. *)
Inductive CaInfo : Type :=
| InfoJson (text : string)
| InfoMessage (status protocol message : string).

Definition _get_ca_info_jwk (json_ok : string → bool) (self : StepCAClient)
  : M (option CaInfo) :=
  r ← _run_step_command self ["ca"; "health"];
  if success r then
    if String.prefix "{" (result_stdout r) then
      if json_ok (result_stdout r)
      then mret (Some (InfoJson (result_stdout r)))
      else mret (Some (InfoMessage "unknown" "JWK" (result_stdout r)))
    else mret (Some (InfoMessage "healthy" "JWK" (result_stdout r)))
  else mret None.

Section construction.
Context `{Lib}.

(** [StepCAClient.__init__]; [None] stands for the [RuntimeError] of
    [_find_step_cli]. *)
Definition __init__ (step_config : config.StepCAConfig)
  : M (option StepCAClient) :=
  if bool_decide (upper (config.protocol step_config) = "EST") then
    mret (Some {| config := step_config;
                  est_client := Some (est_client.__init__ step_config);
                  _step_cli_path := None |})
  else
    found ← _find_step_cli;
    mret (match found with
          | Some path => Some {| config := step_config;
                                 est_client := None;
                                 _step_cli_path := Some path |}
          | None => None
          end).

Definition bootstrap_ca (self : StepCAClient) : M bool :=
  if is_EST self then
    match est_client self with
    | Some c => est_client.verify_connectivity c
    | None => raise (AttributeError "verify_connectivity")
    end
  else _bootstrap_ca_jwk self.

(** [json_ok] tells whether [json.loads] accepts a text. *)
Definition get_ca_info (json_ok : string → bool) (self : StepCAClient)
  : M (option CaInfo) :=
  if is_EST self then
    match est_client self with
    | Some c =>
        ok ← est_client.verify_connectivity c;
        mret (Some (if ok : bool
                    then InfoMessage "healthy" "EST" "EST server is accessible"
                    else InfoMessage "unhealthy" "EST"
                           "EST server not accessible"))
    | None => raise (AttributeError "verify_connectivity")
    end
  else _get_ca_info_jwk json_ok self.

End construction.

End step_ca_client.

(** ** renewal_service.py *)

Module renewal_service.

Import certificate_monitor.

Record CertificateRenewalService : Type := {
  config : config.ServiceConfig;
  monitor : CertificateMonitor;
  step_client : step_ca_client.StepCAClient
}.

Definition set_needs_renewal (b : bool) (s : CertificateStatus)
  : CertificateStatus :=
  {| name := name s; cert_path := cert_path s; is_valid := is_valid s;
     expires_at := expires_at s;
     days_until_expiry := days_until_expiry s;
     needs_renewal := b;
     renewal_threshold_days := renewal_threshold_days s;
     renewal_reason := renewal_reason s; is_revoked := is_revoked s;
     revocation_info := revocation_info s;
     error_message := error_message s |}.

Definition set_error_message (m : option string) (s : CertificateStatus)
  : CertificateStatus :=
  {| name := name s; cert_path := cert_path s; is_valid := is_valid s;
     expires_at := expires_at s;
     days_until_expiry := days_until_expiry s;
     needs_renewal := needs_renewal s;
     renewal_threshold_days := renewal_threshold_days s;
     renewal_reason := renewal_reason s; is_revoked := is_revoked s;
     revocation_info := revocation_info s;
     error_message := m |}.

Section with_lib.
Context `{Lib}.

(** The body of the loop over the statuses in
    [check_and_renew_certificates]: the status as the loop leaves it. *)
Definition renew_if_needed (self : CertificateRenewalService)
    (status : CertificateStatus) : M CertificateStatus :=
  if needs_renewal status then
    match List.find
            (λ cert, bool_decide (config.name cert = name status))
            (config.certificates (config self)) with
    | Some cert_config =>
        try_except
          (renewed ← step_ca_client.renew_certificate
                       (step_client self) cert_config;
           if renewed : bool then
             verified ← step_ca_client.verify_certificate
                          (step_client self)
                          (config.cert_path cert_config);
             if verified : bool then
               mret (set_error_message None
                       (set_needs_renewal false status))
             else
               mret (set_error_message
                       (Some "Certificate verification failed after renewal")
                       status)
           else
             mret (set_error_message
                     (Some "Certificate renewal failed") status))
          (λ e,
             mret (set_error_message
                     (Some ("Exception during certificate renewal: "
                            +:+ str_exn e)) status))
    | None => mret status
    end
  else mret status.

Fixpoint renew_all (self : CertificateRenewalService)
    (statuses : list CertificateStatus) : M (list CertificateStatus) :=
  match statuses with
  | [] => mret []
  | status :: rest =>
      status' ← renew_if_needed self status;
      rest' ← renew_all self rest;
      mret (status' :: rest')
  end.

Definition check_and_renew_certificates (self : CertificateRenewalService)
  : M (list CertificateStatus * CertificateRenewalService) :=
  '(statuses, monitor') ←
    check_all_certificates (monitor self)
      (config.certificates (config self));
  statuses' ← renew_all self statuses;
  mret (statuses',
        {| config := config self; monitor := monitor';
           step_client := step_client self |}).

(** [run_once]: whether the pass went through; the statuses are
    dropped. *)
Definition run_once (self : CertificateRenewalService) : M bool :=
  try_except
    (check_and_renew_certificates self;; mret true)
    (λ _, mret false).

(** One dictionary of the list under "certificates" of the status
    report. *)
Record CertInfo : Type := {
  info_name : string;
  info_cert_path : string;
  info_is_valid : bool;
  info_needs_renewal : bool;
  info_days_until_expiry : option Z;
  info_expires_at : option Z;
  info_renewal_threshold_percent : QArith_base.Q;
  info_remaining_lifetime_percent : QArith_base.Q;
  info_renewal_reason : string;
  info_is_revoked : bool;
  info_revocation_info : option crl_manager.RevocationStatus;
  info_error_message : option string
}.

(** Building that dictionary reads [status.renewal_threshold_percent],
    an attribute the [CertificateStatus] dataclass does not have. *)
Definition cert_info (status : CertificateStatus) : M CertInfo :=
  raise (AttributeError "renewal_threshold_percent").

Fixpoint report_certificates (statuses : list CertificateStatus)
  : M (list CertInfo) :=
  match statuses with
  | [] => mret []
  | status :: rest =>
      info ← cert_info status;
      infos ← report_certificates rest;
      mret (info :: infos)
  end.

Record Summary : Type := {
  valid_certificates : nat;
  certificates_needing_renewal : nat;
  certificates_with_errors : nat;
  revoked_certificates : nat
}.

Record StatusReport : Type := {
  timestamp : Z;
  total_certificates : nat;
  report_certificates_list : list CertInfo;
  summary : Summary;
  crl_status : option crl_manager.CRLStatusReport
}.

Definition count (f : CertificateStatus → bool)
    (statuses : list CertificateStatus) : nat :=
  length (List.filter f statuses).

Definition status_report (self : CertificateRenewalService)
  : M (StatusReport * CertificateRenewalService) :=
  '(statuses, monitor') ←
    check_all_certificates (monitor self)
      (config.certificates (config self));
  now ← datetime_now;
  certs ← report_certificates statuses;
  mret ({| timestamp := now;
           total_certificates := length statuses;
           report_certificates_list := certs;
           summary :=
             {| valid_certificates := count is_valid statuses;
                certificates_needing_renewal := count needs_renewal statuses;
                certificates_with_errors :=
                  count (λ s, opt_str_truthy (error_message s)) statuses;
                revoked_certificates := count is_revoked statuses |};
           crl_status :=
             crl_manager.get_crl_status_report
               <$> monitor_crl_manager monitor' |},
        {| config := config self; monitor := monitor';
           step_client := step_client self |}).

(** The loop at the end of [initialize]: the directories of the
    certificate and of the key of every configured certificate. *)
Fixpoint ensure_certificate_directories
    (cert_configs : list config.CertificateConfig) : M unit :=
  match cert_configs with
  | [] => mret tt
  | cert_config :: rest =>
      os_makedirs (dirname (config.cert_path cert_config));;
      os_makedirs (dirname (config.key_path cert_config));;
      ensure_certificate_directories rest
  end.

(** [initialize]: the directories of the service, the bootstrap, the
    health probe, then the directories of the certificates; nothing is
    caught.  [json_ok] tells whether [json.loads] accepts a text. *)
Definition initialize (json_ok : string → bool)
    (self : CertificateRenewalService) : M bool :=
  os_makedirs (config.cert_storage_path (config self));;
  os_makedirs (dirname (config.log_file (config self)));;
  bootstrapped ← step_ca_client.bootstrap_ca (step_client self);
  if negb bootstrapped then mret false else
  ca_info ← step_ca_client.get_ca_info json_ok (step_client self);
  match ca_info with
  | None => mret false
  | Some _ =>
      ensure_certificate_directories (config.certificates (config self));;
      mret true
  end.

End with_lib.

End renewal_service.

(** * The vocabulary of the properties *)

Section vocabulary.
Context `{Lib}.
Import crl_manager.

(** What a download makes of the server's answer. *)
Definition download_result (r : result Response) : option bytes :=
  match r with
  | Ok resp =>
      if (400 <=? status_code resp) && (status_code resp <? 600) then None
      else match content resp with
           | [] => None
           | _ => Some (content resp)
           end
  | Raise _ => None
  end.

(** The request of a download, as it is sent. *)
Definition crl_request (self : CRLManager) (u : string) : HttpRequest :=
  {| req_method := GET; req_url := u;
     req_verify := merge_environment_settings (session_verify self) |}.

(** What is cached on disk for a path. *)
Definition file_crl (w : World) (p : string)
  : option x509.CertificateRevocationList :=
  match files w !! p with
  | Some b => parse_crl b
  | None => None
  end.

(** The world after [save_crl_to_file]. *)
Definition saved (data : bytes) (p : string) (w : World) : World :=
  if bool_decide (p ∈ unwritable w) then w
  else set_files (<[p := data]> (files w)) w.

(** The requests a piece of code sent: the log only grows, by requests
    that satisfy [P]; the clock is the same and only moves on. *)
Definition sent (P : HttpRequest → Prop) (w w' : World) : Prop :=
  clock w' = clock w ∧ (ticks w ≤ ticks w')%nat ∧
  ∃ new, http_log w' = http_log w ++ new ∧ Forall P new.

(** What a call on [u] may change in the manager: nothing of the
    configuration or the session, and no cache entry of another URL. *)
Definition same_but (u : string) (self self' : CRLManager) : Prop :=
  config self' = config self ∧
  session_verify self' = session_verify self ∧
  ∀ v, v ≠ u →
    _crl_cache self' !! v = _crl_cache self !! v ∧
    _last_download_time self' !! v = _last_download_time self !! v.


(** The entry of a refreshed CRL that lists the serial number, if any. *)
Definition listed (oc : option x509.CertificateRevocationList)
    (serial : Z) : option x509.RevokedCertificate :=
  match oc with
  | Some c => find_revoked c serial
  | None => None
  end.

(** The status of the early return. *)
Definition revoked_status (rc : x509.RevokedCertificate) (u : string)
    (now : Z) : RevocationStatus :=
  {| is_revoked := true;
     revocation_date := Some (x509.revocation_date_utc rc);
     revocation_reason := Some (reason_name rc);
     crl_source := Some u; check_time := now |}.

(** The status of the fall-through. *)
Definition clean_status (now : Z) : RevocationStatus :=
  {| is_revoked := false; revocation_date := None;
     revocation_reason := None; crl_source := None; check_time := now |}.

(** The URLs of a run that were looked up without finding the serial
    number, and the manager and world the run is left in. *)
Inductive tried_without_match (cert : x509.Certificate)
  : list string → CRLManager * World → CRLManager * World → Prop :=
| tried_nil s : tried_without_match cert [] s s
| tried_cons u us self w oc self1 w1 s' :
    refresh_crl self u w = (Ok (oc, self1), w1) →
    listed oc (x509.serial_number cert) = None →
    tried_without_match cert us (self1, w1) s' →
    tried_without_match cert (u :: us) (self, w) s'.



(** The managers a manager can become: by any number of calls of
    [refresh_crl] and [check_certificate_revocation], in any worlds. *)
Inductive reachable (m : CRLManager) : CRLManager → Prop :=
| reach_here : reachable m m
| reach_refresh m1 u w oc m2 w' :
    reachable m m1 →
    refresh_crl m1 u w = (Ok (oc, m2), w') →
    reachable m m2
| reach_check m1 cert w st m2 w' :
    reachable m m1 →
    check_certificate_revocation m1 cert w = (Ok (st, m2), w') →
    reachable m m2.


Definition est_request (est : est_client.ESTClient) (operation : string)
  : HttpRequest :=
  {| req_method := POST;
     req_url := est_client._get_est_url est operation;
     req_verify :=
       merge_environment_settings (est_client.session_verify est) |}.

(** The server does not answer the next request with a 200. *)
Definition not_accepted (w : World) (rq : HttpRequest) : Prop :=
  ∀ resp, http_server w (length (http_log w)) rq = Ok resp →
          status_code resp ≠ 200.

(** The caches of [self'] hold an entry for every URL the caches of
    [self] hold one for. *)
Definition grows (self self' : CRLManager) : Prop :=
  ∀ v, (is_Some (_crl_cache self !! v) → is_Some (_crl_cache self' !! v)) ∧
       (is_Some (_crl_info_cache self !! v) →
        is_Some (_crl_info_cache self' !! v)) ∧
       (is_Some (_last_download_time self !! v) →
        is_Some (_last_download_time self' !! v)).

(** Every cached information is filed under its own URL. *)
Definition info_filed (self : CRLManager) : Prop :=
  ∀ v i, _crl_info_cache self !! v = Some i → url i = v.

(** The URL a report entry is about. *)
Definition entry_url (e : CRLReportEntry) : string :=
  match e with
  | Loaded i => url i
  | NotLoaded u => u
  end.

(** The path of the cache file of a URL. *)
Definition cache_file (self : CRLManager) (u : string) : string :=
  _get_crl_file_path self u.

End vocabulary.

Section status_vocabulary.
Import certificate_monitor renewal_service.

(** The ways the renewal step of a check pass leaves a status. *)
Inductive renewal_outcome (st : CertificateStatus)
  : CertificateStatus → Prop :=
| outcome_untouched : renewal_outcome st st
| outcome_renewed :
    renewal_outcome st
      (set_error_message None (set_needs_renewal false st))
| outcome_failed msg :
    str_truthy msg = true →
    renewal_outcome st (set_error_message (Some msg) st).

End status_vocabulary.

Section monitor_vocabulary.
Context `{Lib}.
Import certificate_monitor.

(** The certificate a path holds, if it holds one. *)
Definition file_cert (w : World) (p : string) : option x509.Certificate :=
  match files w !! p with
  | Some b => parse_certificate b
  | None => None
  end.

(** The validity period of the certificate includes [now]. *)
Definition time_valid (cert : x509.Certificate) (now : Z) : Prop :=
  x509.not_valid_before cert ≤ now ≤ x509.not_valid_after cert.

(** The configuration object has the attribute the monitor reads. *)
Definition carries_threshold (cc : config.CertificateConfig) : bool :=
  match config.renewal_threshold_days cc with
  | Absent => false
  | Present _ => true
  end.

(** The status of a certificate that could not be loaded. *)
Definition load_failure (cc : config.CertificateConfig) (T : Z)
  : CertificateStatus :=
  {| name := config.name cc; cert_path := config.cert_path cc;
     is_valid := false; expires_at := None; days_until_expiry := None;
     needs_renewal := true; renewal_threshold_days := T;
     renewal_reason := "error"; is_revoked := false;
     revocation_info := None;
     error_message := Some "Failed to load certificate" |}.

(** The world after [n] readings of the clock. *)
Definition later (n : nat) (w : World) : World :=
  set_ticks (n + ticks w) w.

End monitor_vocabulary.

Section step_vocabulary.
Import step_ca_client.

(** What the CLI does with a command line in a world: what the run
    produced and the files it leaves. *)
Definition cli_run (w : World) (cmd : list string)
  : Completed * gmap string bytes :=
  step_cli w (length (cli_log w)) cmd (files w).

(** The world after that run. *)
Definition after_run (w : World) (cmd : list string) : World :=
  set_cli (snd (cli_run w cmd)) (cli_log w ++ [cmd]) w.

(** The command lines of the client. *)
Definition token_command (self : StepCAClient)
    (cc : config.CertificateConfig) (path : string) : list string :=
  path ::
  ["ca"; "token"; config.subject cc; "--provisioner";
   config.provisioner_name (config self)]
  ++ flat_map (λ san, ["--san"; san]) (config.sans cc)
  ++ (if opt_str_truthy (config.provisioner_password (config self))
      then ["--password-file"; "tmp.pwd"] else []).

Definition certificate_command (path : string)
    (cc : config.CertificateConfig) (c k token : string) : list string :=
  [path; "ca"; "certificate"; config.subject cc; c; k;
   "--token"; token; "--force"].


Definition verify_command (path p roots : string) : list string :=
  [path; "certificate"; "verify"; p; "--roots"; roots].


(** The run succeeded. *)
Definition exit_ok (c : Completed) : bool := returncode c =? 0.



End step_vocabulary.

Section service_vocabulary.
Context `{Lib}.
Import certificate_monitor renewal_service.

(** The probe of the EST adapter. *)
Definition cacerts_request (est : est_client.ESTClient) : HttpRequest :=
  {| req_method := GET;
     req_url := est_client._get_est_url est "cacerts";
     req_verify :=
       merge_environment_settings (est_client.session_verify est) |}.

(** The server answers the next request with status 200. *)
Definition answers_200 (w : World) (rq : HttpRequest) : bool :=
  match http_server w (length (http_log w)) rq with
  | Ok resp => status_code resp =? 200
  | Raise _ => false
  end.

(** The world after a request. *)
Definition after_request (w : World) (rq : HttpRequest) : World :=
  set_http_log (http_log w ++ [rq]) w.

(** The directories [initialize] creates before it bootstraps, and the
    ones it creates after the health probe. *)
Definition service_directories (self : CertificateRenewalService)
  : list string :=
  [config.cert_storage_path (config self);
   dirname (config.log_file (config self))].

Definition certificate_directories (self : CertificateRenewalService)
  : list string :=
  flat_map (λ cc, [dirname (config.cert_path cc);
                   dirname (config.key_path cc)])
           (config.certificates (config self)).

(** [os.makedirs] accepts every one of the directories: none is the
    empty path. *)
Definition creatable (dirs : list string) : bool :=
  forallb str_truthy dirs.

(** The configuration the renewal step picks for a status: the first
    with the name of the status. *)
Definition configured (self : CertificateRenewalService)
    (st : CertificateStatus) : option config.CertificateConfig :=
  List.find (λ cert, bool_decide (config.name cert = name st))
            (config.certificates (config self)).

(** The renewal step has nothing to do for a status. *)
Definition settled (self : CertificateRenewalService)
    (st : CertificateStatus) : Prop :=
  needs_renewal st = false ∨ configured self st = None.

End service_vocabulary.

(** Following the specification: a percentage [p] of the certificate is
    converted to days as p% of (not_after - not_before); else the day
    count of the certificate is used; else the service default. *)
Definition spec_effective_threshold_days (pct : option QArith_base.Q)
    (day_count : option Z) (service_default : Z)
    (not_before not_after : Z) : QArith_base.Q :=
  match pct with
  | Some p =>
      QArith_base.Qmult (QArith_base.Qdiv p (QArith_base.inject_Z 100))
            (QArith_base.Qmake (not_after - not_before) (Z.to_pos us_per_day))
  | None => QArith_base.inject_Z (default service_default day_count)
  end.

(** ** A small concrete library and world, for running the model *)

Module sample.

Definition first_seen (l : list string) : list string := remove_dups l.
Definition last_seen (l : list string) : list string :=
  reverse (remove_dups l).

Definition day (n : Z) : Z := n * us_per_day.

(** Certificate files hold one byte: the number of days after the epoch
    at which the certificate expires is read off a small table. *)
Definition cert_of (not_after : Z) (serial : Z) (cdp : list string)
  : x509.Certificate :=
  {| x509.not_valid_before := 0; x509.not_valid_after := not_after;
     x509.serial_number := serial; x509.crl_distribution_points := cdp |}.

Definition parse_pem_cert (b : bytes) : option x509.Certificate :=
  match b with
  | [Byte.x01] => Some (cert_of (day 105) 7 [])
  | [Byte.x02] => Some (cert_of (day 160) 8 [])
  | [Byte.x03] => Some (cert_of (day 95) 9 [])
  | [Byte.x04] => Some (cert_of (day 160) 7 ["http://ca/b.crl"])
  | [Byte.x05] => Some (cert_of (day 160) 7 [])
  | _ => None
  end.

Definition crl_of (serials : list (Z * option string))
  : x509.CertificateRevocationList :=
  {| x509.issuer := "CN=ca"; x509.last_update_utc := day 99;
     x509.next_update_utc := Some (day 130);
     x509.revoked :=
       (λ p, {| x509.revoked_serial_number := fst p;
                x509.revocation_date_utc := day 98;
                x509.crl_reason := snd p |}) <$> serials |}.

(** CRL bodies hold one byte too. *)
Definition parse_pem_crl (b : bytes)
  : option x509.CertificateRevocationList :=
  match b with
  | [Byte.x10] => Some (crl_of [])
  | [Byte.x11] => Some (crl_of [(7, Some "keyCompromise")])
  | [Byte.x12] => Some (crl_of [(7, None)])
  | _ => None
  end.

Definition lib_with (order : list string → list string) : Lib :=
  {| load_pem_x509_certificate := parse_pem_cert;
     load_der_x509_certificate := λ _, None;
     load_pem_x509_crl := parse_pem_crl;
     load_der_x509_crl := λ _, None;
     crl_file_name := λ u, u +:+ ".crl";
     set_iter := order;
     requests_ca_bundle := None |}.

Definition lib : Lib := lib_with first_seen.
Definition lib_rev : Lib := lib_with last_seen.


Definition failed : Completed :=
  {| returncode := 1; stdout := EmptyString; stderr := "denied" |}.

(** A world at day 100 whose CLI fails. *)
Definition world_net (fs : gmap string bytes)
    (server : nat → HttpRequest → result Response) : World :=
  {| files := fs; unwritable := [];
     clock := λ _, day 100; ticks := 0;
     http_server := server; http_log := [];
     csr_source := λ _, Ok ([Byte.x00], [Byte.xff]); csr_drawn := 0;
     step_cli := λ _ _ f, (failed, f); cli_log := [] |}.

Definition network_down : nat → HttpRequest → result Response :=
  λ _ _, Raise RequestException.

Definition world (fs : gmap string bytes) : World :=
  world_net fs network_down.

(** A server that answers every request for [u] with the body [b]. *)
Definition serving (table : list (string * bytes))
  : nat → HttpRequest → result Response :=
  λ _ rq, match list_find (λ p, fst p = req_url rq) table with
          | Some (_, (_, b)) => Ok {| status_code := 200; content := b |}
          | None => Raise RequestException
          end.

Definition step_cfg_protocol (proto : string) (urls : list string)
  : config.StepCAConfig :=
  {| config.ca_url := "https://ca:9000";
     config.ca_fingerprint := "ab";
     config.provisioner_name := "admin";
     config.provisioner_password := None;
     config.root_cert_path := Some "root.crt";
     config.protocol := proto;
     config.est_ca_bundle := None;
     config.crl_enabled := true;
     config.crl_urls := Some urls;
     config.crl_cache_dir := "crl";
     config.crl_refresh_hours := 24;
     config.crl_timeout_seconds := 30 |}.

Definition step_cfg (urls : list string) : config.StepCAConfig :=
  step_cfg_protocol "JWK" urls.

Definition service_cfg (certs : list config.CertificateConfig)
  : config.ServiceConfig :=
  {| config.check_interval_minutes := 30;
     config.log_file := "logs/cert_renewal.log";
     config.cert_storage_path := "certs";
     config.service_renewal_threshold_percent := QArith_base.Qmake 33 1;
     config.step_ca := step_cfg [];
     config.certificates := certs;
     config.emergency_renewal_threshold_days := None;
     config.warning_threshold_days := None;
     config.default_renewal_threshold_days := None |}.

(** An object carrying the attribute the monitor reads. *)
Definition cert_cfg (n : string) (days : option Z)
  : config.CertificateConfig :=
  {| config.name := n; config.cert_path := n +:+ ".crt";
     config.key_path := n +:+ ".key";
     config.renewal_threshold_percent := None;
     config.subject := n; config.sans := [];
     config.renewal_threshold_days := Present days |}.

Definition monitor_no_crl : certificate_monitor.CertificateMonitor :=
  {| certificate_monitor.service_config := Some (service_cfg []);
     certificate_monitor.monitor_crl_manager := None |}.

Definition manager (urls : list string) : crl_manager.CRLManager :=
  {| crl_manager.config := step_cfg urls;
     crl_manager.session_verify := VerifyDisabled;
     crl_manager._crl_cache := ∅;
     crl_manager._crl_info_cache := ∅;
     crl_manager._last_download_time := ∅ |}.

Definition monitor_crl (urls : list string)
  : certificate_monitor.CertificateMonitor :=
  {| certificate_monitor.service_config := Some (service_cfg []);
     certificate_monitor.monitor_crl_manager := Some (manager urls) |}.

(** The status an evaluation returned, if it returned one. *)
Definition status_of {S : Type}
    (r : result (certificate_monitor.CertificateStatus * S) * World)
  : option certificate_monitor.CertificateStatus :=
  match r with
  | (Ok (st, _), _) => Some st
  | _ => None
  end.

End sample.

Module sample_renewal.

Definition ok_run (out : string) : Completed :=
  {| returncode := 0; stdout := out; stderr := EmptyString |}.

(** A CLI whose every run succeeds; "ca renew" and "ca certificate"
    write a new certificate. *)
Definition renewing_cli (n : nat) (cmd : list string)
    (fs : gmap string bytes) : Completed * gmap string bytes :=
  match cmd with
  | _ :: "ca" :: "renew" :: c :: _ => (ok_run "renewed", <[c := [Byte.x02]]> fs)
  | _ :: "ca" :: "certificate" :: _ :: c :: _ =>
      (ok_run "issued", <[c := [Byte.x02]]> fs)
  | _ => (ok_run "token", fs)
  end.

(** A CLI whose every run fails; "ca renew" truncates the certificate
    and the key before it fails. *)
Definition clobbering_cli (n : nat) (cmd : list string)
    (fs : gmap string bytes) : Completed * gmap string bytes :=
  match cmd with
  | _ :: "ca" :: "renew" :: c :: k :: _ =>
      (sample.failed, <[c := []]> (<[k := []]> fs))
  | _ => (sample.failed, fs)
  end.

Definition with_cli
    (cli : nat → list string → gmap string bytes →
           Completed * gmap string bytes) (w : World) : World :=
  {| files := files w; unwritable := unwritable w; clock := clock w;
     ticks := ticks w; http_server := http_server w;
     http_log := http_log w; csr_source := csr_source w;
     csr_drawn := csr_drawn w; step_cli := cli; cli_log := cli_log w |}.

Definition with_unwritable (l : list string) (w : World) : World :=
  {| files := files w; unwritable := l; clock := clock w;
     ticks := ticks w; http_server := http_server w;
     http_log := http_log w; csr_source := csr_source w;
     csr_drawn := csr_drawn w; step_cli := step_cli w;
     cli_log := cli_log w |}.

Definition web : config.CertificateConfig :=
  sample.cert_cfg "web" (Some 30).

Definition web_files (cert : bytes) : gmap string bytes :=
  {[ "web.crt" := cert; "web.key" := [Byte.xee] ]}.

Definition jwk_client : step_ca_client.StepCAClient :=
  {| step_ca_client.config := sample.step_cfg [];
     step_ca_client.est_client := None;
     step_ca_client._step_cli_path := Some "step" |}.

Definition est : est_client.ESTClient :=
  {| est_client.config := sample.step_cfg [];
     est_client.session_verify := VerifyBundle "root.crt" |}.

(** An EST server that accepts every re-enrollment. *)
Definition est_server : nat → HttpRequest → result Response :=
  sample.serving
    [("https://ca:8443/.well-known/est/simplereenroll", [Byte.x02])].

Definition service (client : step_ca_client.StepCAClient)
  : renewal_service.CertificateRenewalService :=
  {| renewal_service.config := sample.service_cfg [web];
     renewal_service.monitor := sample.monitor_no_crl;
     renewal_service.step_client := client |}.

(** The same service for a certificate kept in a directory. *)
Definition housed_service (client : step_ca_client.StepCAClient)
  : renewal_service.CertificateRenewalService :=
  {| renewal_service.config :=
       sample.service_cfg [sample.cert_cfg "certs/web" (Some 30)];
     renewal_service.monitor := sample.monitor_no_crl;
     renewal_service.step_client := client |}.

(** What a pass reports for each certificate: reason, renewal flag and
    error message. *)
Definition report {S : Type}
    (r : result (list certificate_monitor.CertificateStatus * S) * World)
  : option (list (string * bool * option string)) :=
  match fst r with
  | Ok (sts, _) =>
      Some ((λ st, (certificate_monitor.renewal_reason st,
                    certificate_monitor.needs_renewal st,
                    certificate_monitor.error_message st)) <$> sts)
  | Raise _ => None
  end.

Definition two_sources : nat → HttpRequest → result Response :=
  sample.serving [("http://ca/a.crl", [Byte.x11]);
                  ("http://ca/b.crl", [Byte.x12])].

(** The source and reason a check reported, and the URLs it asked. *)
Definition verdict
    (r : result (crl_manager.RevocationStatus * crl_manager.CRLManager)
         * World)
  : option (option string * option string) * list string :=
  (match fst r with
   | Ok (st, _) =>
       Some (crl_manager.crl_source st, crl_manager.revocation_reason st)
   | Raise _ => None
   end, req_url <$> http_log (snd r)).

Definition a_crl : string := "http://ca/a.crl".
Definition b_crl : string := "http://ca/b.crl".

(** A world whose server answers requests for [a_crl] with [body], and
    whose cache file for [a_crl] holds an empty CRL. *)
Definition serving_a (body : bytes) : World :=
  sample.world_net {[ "crl/http://ca/a.crl.crl" := [Byte.x10] ]}
    (sample.serving [(a_crl, body)]).

(** The client and the service the start-up builds for the protocol
    "est". *)
Definition est_cfg : config.StepCAConfig :=
  sample.step_cfg_protocol "est" [].

Definition est_built : step_ca_client.StepCAClient :=
  {| step_ca_client.config := est_cfg;
     step_ca_client.est_client := Some (est_client.__init__ est_cfg);
     step_ca_client._step_cli_path := None |}.

(** A server that answers the probe of the EST adapter. *)
Definition cacerts_server : nat → HttpRequest → result Response :=
  sample.serving
    [("https://ca:8443/.well-known/est/cacerts", [Byte.x00])].

(** A status that asks for nothing, and one of a certificate that is not
    configured. *)
Definition quiet_statuses : list certificate_monitor.CertificateStatus :=
  [renewal_service.set_needs_renewal false (load_failure web 30);
   load_failure (sample.cert_cfg "other" None) 30].

(** The day the clock of a world shows. *)
Definition at_day (n : Z) (w : World) : World :=
  {| files := files w; unwritable := unwritable w;
     clock := λ _, sample.day n; ticks := ticks w;
     http_server := http_server w; http_log := http_log w;
     csr_source := csr_source w; csr_drawn := csr_drawn w;
     step_cli := step_cli w; cli_log := cli_log w |}.

End sample_renewal.

(** * Properties *)

(** ** Running monadic code *)

Lemma bind_inv {A B : Type} (m : M A) (f : A → M B) w r w' :
  (m ≫= f) w = (r, w') →
  (∃ a w1, m w = (Ok a, w1) ∧ f a w1 = (r, w')) ∨
  (∃ e, m w = (Raise e, w') ∧ r = Raise e).
Proof.
  unfold mbind, M_bind. destruct (m w) as [[a|e] w1]; intros Heq.
  - left. eauto.
  - right. inversion Heq; subst. eauto.
Qed.

Lemma bind_Ok_inv {A B : Type} (m : M A) (f : A → M B) w b w' :
  (m ≫= f) w = (Ok b, w') →
  ∃ a w1, m w = (Ok a, w1) ∧ f a w1 = (Ok b, w').
Proof.
  intros Heq. destruct (bind_inv _ _ _ _ _ Heq) as [?|[e [_ ?]]];
    [done | discriminate].
Qed.

Lemma try_except_inv {A : Type} (body : M A) (h : exn → M A) w r w' :
  try_except body h w = (r, w') →
  (∃ a, body w = (Ok a, w') ∧ r = Ok a) ∨
  (∃ e w1, body w = (Raise e, w1) ∧ h e w1 = (r, w')).
Proof.
  unfold try_except. destruct (body w) as [[a|e] w1]; intros Heq.
  - left. inversion Heq; subst. eauto.
  - right. eauto.
Qed.

(** ** The two set orders of the sample library are set orders *)

Lemma first_seen_NoDup l : NoDup (sample.first_seen l).
Proof. apply NoDup_remove_dups. Qed.

Lemma first_seen_elem l x : x ∈ sample.first_seen l ↔ x ∈ l.
Proof. apply elem_of_remove_dups. Qed.

Lemma last_seen_NoDup l : NoDup (sample.last_seen l).
Proof.
  unfold sample.last_seen. rewrite reverse_Permutation.
  apply NoDup_remove_dups.
Qed.

Lemma last_seen_elem l x : x ∈ sample.last_seen l ↔ x ∈ l.
Proof.
  unfold sample.last_seen. rewrite elem_of_reverse. apply elem_of_remove_dups.
Qed.

(** ** certificate_monitor: what an evaluation returns *)

Section monitor_facts.
Context `{Lib}.
Import certificate_monitor.

Lemma error_status_inv self cc msg w st w' :
  error_status self cc msg w = (Ok st, w') →
  w' = w ∧
  get_effective_renewal_threshold self cc = Ok (renewal_threshold_days st) ∧
  days_until_expiry st = None ∧ needs_renewal st = true ∧
  renewal_reason st = "error" ∧ is_revoked st = false ∧
  error_message st = Some msg.
Proof.
  unfold error_status. intros Heq.
  apply bind_Ok_inv in Heq as (t & w1 & Ht & Heq).
  unfold liftR in Ht. inv Ht. inv Heq. simpl. done.
Qed.

Lemma evaluate_loaded_inv self cc cert w st self' w' :
  evaluate_loaded self cc cert w = (Ok (st, self'), w') →
  ∃ T, get_effective_renewal_threshold self cc = Ok T ∧
    let d := timedelta_days (x509.not_valid_after cert - clock w (ticks w)) in
    renewal_threshold_days st = T ∧
    days_until_expiry st = Some d ∧
    needs_renewal st = is_revoked st || (d <=? T) ∧
    renewal_reason st = urgency (service_config self) d (d <=? T) ∧
    error_message st = None.
Proof.
  unfold evaluate_loaded. intros Heq.
  apply bind_Ok_inv in Heq as (T & w1 & HT & Heq).
  unfold liftR in HT. inv HT. exists T. split; [done|].
  apply bind_Ok_inv in Heq as ([[[ea d] nr] rr] & w2 & Hexp & Heq).
  unfold check_certificate_expiry in Hexp.
  apply bind_Ok_inv in Hexp as (now & w3 & Hnow & Hexp).
  unfold datetime_now in Hnow. inv Hnow. inv Hexp.
  apply bind_Ok_inv in Heq as (now2 & w4 & _ & Heq).
  apply bind_Ok_inv in Heq as ([[[rv info] nr'] s2] & w5 & Hrev & Heq).
  inv Heq. simpl.
  destruct (monitor_crl_manager self) as [mgr|].
  - destruct (_ && _).
    + apply bind_Ok_inv in Hrev as ([i m'] & w6 & _ & Hrev).
      inv Hrev. destruct (crl_manager.is_revoked i); simpl; done.
    + inv Hrev. done.
  - inv Hrev. done.
Qed.

End monitor_facts.

(** ** C-Eval: the status an evaluation returns *)

Section monitor_claims.
Context `{Lib}.
Import certificate_monitor.

(** Every status [check_certificate_status] returns comes from one of
    its two shapes: the error status, or the status of the [try]
    block. *)
Lemma check_certificate_status_inv self cc w st self' w' :
  check_certificate_status self cc w = (Ok (st, self'), w') →
  (∃ msg w1, error_status self cc msg w1 = (Ok st, w') ∧
             str_truthy msg = true) ∨
  (∃ cert w1, evaluate_loaded self cc cert w1 = (Ok (st, self'), w')).
Proof.
  unfold check_certificate_status. intros Heq.
  apply bind_Ok_inv in Heq as ([cert|] & w1 & _ & Heq).
  - apply try_except_inv in Heq as [(a & Hbody & Ha)|(e & w2 & _ & Hh)].
    + inv Ha. right. eauto.
    + apply bind_Ok_inv in Hh as (st1 & w3 & Hst & Hh). inv Hh.
      left. eexists _, _. split; [exact Hst | done].
  - apply bind_Ok_inv in Heq as (st1 & w3 & Hst & Hh). inv Hh.
    left. eexists _, _. split; [exact Hst | done].
Qed.

(** C1. For every status returned by [check_certificate_status]: the
    threshold it reports is the effective renewal threshold, and when
    the certificate was loaded (a day count is present) the status needs
    renewal exactly when it is revoked or its days until expiry are at
    most that threshold; an evaluation error (no day count) always
    needs renewal. *)
Theorem needs_renewal_iff_revoked_or_due self cc w st self' w' :
  check_certificate_status self cc w = (Ok (st, self'), w') →
  get_effective_renewal_threshold self cc
    = Ok (renewal_threshold_days st) ∧
  match days_until_expiry st with
  | Some d =>
      needs_renewal st = true ↔
      is_revoked st = true ∨ d ≤ renewal_threshold_days st
  | None => renewal_reason st = "error" ∧ needs_renewal st = true
  end.
Proof.
  intros Heq.
  apply check_certificate_status_inv in Heq
    as [(msg & w1 & Herr & _)|(cert & w1 & Hev)].
  - apply error_status_inv in Herr as (_ & HT & Hd & Hn & Hr & _).
    rewrite Hd. done.
  - apply evaluate_loaded_inv in Hev as (T & HT & HTs & Hd & Hn & _).
    rewrite Hd, Hn, HTs. split; [done|].
    rewrite orb_true_iff, Z.leb_le. done.
Qed.

(** The day count against the threshold, in instants: the floor makes
    the certificate due from one day, less a microsecond, before
    [not_after - threshold]. *)
Lemma due_in_instants (not_after now T : Z) :
  timedelta_days (not_after - now) ≤ T ↔
  not_after - now < (T + 1) * us_per_day.
Proof.
  unfold timedelta_days.
  assert (Hpos : 0 < us_per_day) by done.
  split; intros Hd.
  - pose proof (Z.mul_succ_div_gt (not_after - now) us_per_day Hpos). nia.
  - apply Z.lt_succ_r, Z.div_lt_upper_bound; lia.
Qed.

(** The ladder never produces the reason of the error status. *)
Lemma urgency_not_error sc d b : urgency sc d b ≠ "error".
Proof.
  unfold urgency. destruct sc as [sc|];
    repeat (destruct (_ <=? _)); destruct b; discriminate.
Qed.

(** C2, as the code has it. For every successfully loaded certificate
    the renewal reason comes from days until expiry alone, by the first
    matching rung: at most the emergency threshold (default 7) gives
    emergency; at most the warning threshold (default 14) gives warning
    when the days are within the renewal threshold and approaching
    otherwise; beyond both, normal when within the renewal threshold and
    valid otherwise; a monitor without service configuration only has
    the last rung.  There is no rung for a revoked or an expired
    certificate. *)
Theorem renewal_reason_ladder self cc w st self' w' d :
  check_certificate_status self cc w = (Ok (st, self'), w') →
  days_until_expiry st = Some d →
  let T := renewal_threshold_days st in
  match service_config self with
  | Some sc =>
      let E := default 7 (config.emergency_renewal_threshold_days sc) in
      let W := default 14 (config.warning_threshold_days sc) in
      (d ≤ E → renewal_reason st = "emergency") ∧
      (E < d ≤ W → d ≤ T → renewal_reason st = "warning") ∧
      (E < d ≤ W → T < d → renewal_reason st = "approaching") ∧
      (E < d → W < d → d ≤ T → renewal_reason st = "normal") ∧
      (E < d → W < d → T < d → renewal_reason st = "valid")
  | None =>
      (d ≤ T → renewal_reason st = "normal") ∧
      (T < d → renewal_reason st = "valid")
  end.
Proof.
  intros Heq Hd.
  apply check_certificate_status_inv in Heq
    as [(msg & w1 & Herr & _)|(cert & w1 & Hev)].
  - apply error_status_inv in Herr as (_ & _ & Hd' & _). congruence.
  - apply evaluate_loaded_inv in Hev as (T & _ & HTs & Hd' & _ & Hr & _).
    rewrite Hd' in Hd. inv Hd. simpl. rewrite Hr. unfold urgency.
    destruct (service_config self) as [sc|].
    + repeat split; intros;
        repeat (match goal with
                | |- context [?a <=? ?b] =>
                    destruct (Z.leb_spec a b); try lia
                end); done.
    + split; intros;
        repeat (match goal with
                | |- context [?a <=? ?b] =>
                    destruct (Z.leb_spec a b); try lia
                end); done.
Qed.

(** C9, for the statuses of an evaluation. A status returned by
    [check_certificate_status] carries a non-empty error message exactly
    when its renewal reason is error, and every error status needs
    renewal. *)
Lemma evaluated_error_message_iff self cc w st self' w' :
  check_certificate_status self cc w = (Ok (st, self'), w') →
  (opt_str_truthy (error_message st) = true ↔ renewal_reason st = "error") ∧
  (renewal_reason st = "error" → needs_renewal st = true).
Proof.
  intros Heq.
  apply check_certificate_status_inv in Heq
    as [(msg & w1 & Herr & Hmsg)|(cert & w1 & Hev)].
  - apply error_status_inv in Herr as (_ & _ & _ & Hn & Hr & _ & Hm).
    rewrite Hm, Hr, Hn. simpl. done.
  - apply evaluate_loaded_inv in Hev as (T & _ & _ & _ & _ & Hr & Hm).
    rewrite Hm, Hr. simpl. split; [split|]; intros Hx;
      [discriminate | by apply urgency_not_error in Hx
                    | by apply urgency_not_error in Hx].
Qed.

End monitor_claims.

(** ** C-CRL: what one call does *)

Section crl_facts.
Context `{Lib}.
Import crl_manager.

(** [download_crl] sends exactly one request, through the session. *)
Lemma download_crl_run self u w :
  download_crl self u w =
  (Ok (download_result
         (http_server w (length (http_log w)) (crl_request self u))),
   set_http_log (http_log w ++ [crl_request self u]) w).
Proof.
  unfold download_crl, try_except, session_request, mbind, M_bind,
    crl_request, download_result.
  destruct (http_server w _ _) as [resp|e]; [|done].
  unfold raise_for_status.
  destruct ((400 <=? status_code resp) && (status_code resp <? 600));
    [done|].
  unfold mret, M_ret. by destruct (content resp).
Qed.

Lemma load_crl_from_file_run p w :
  load_crl_from_file p w = (Ok (file_crl w p), w).
Proof.
  unfold load_crl_from_file, try_except, os_path_exists, read_file,
    mbind, M_bind, mret, M_ret, file_crl.
  destruct (files w !! p) as [b|] eqn:Hb.
  - rewrite bool_decide_eq_true_2 by eauto. by rewrite Hb.
  - rewrite bool_decide_eq_false_2; [done|]. by intros [? ?].
Qed.

Lemma save_crl_to_file_run data p w :
  save_crl_to_file data p w =
  if str_truthy (dirname p) then
    if bool_decide (p ∈ unwritable w) then (Ok false, w)
    else (Ok true, set_files (<[p := data]> (files w)) w)
  else (Ok false, w).
Proof.
  unfold save_crl_to_file, try_except, os_makedirs, write_file, os_chmod,
    mbind, M_bind, mret, M_ret.
  destruct (str_truthy (dirname p)); [|done].
  destruct (bool_decide (p ∈ unwritable w)); [done|].
  simpl. by rewrite lookup_insert_eq.
Qed.

(** A path with a slash has a directory part. *)
Lemma up_to_last_slash_app d n :
  str_truthy (up_to_last_slash (d +:+ "/" +:+ n)) = true.
Proof.
  induction d as [|c d IH]; simpl.
  - destruct (up_to_last_slash _); reflexivity.
  - by destruct (up_to_last_slash _).
Qed.

Lemma dirname_app d n : str_truthy (dirname (d +:+ "/" +:+ n)) = true.
Proof.
  unfold dirname. pose proof (up_to_last_slash_app d n) as Hh.
  destruct (rstrip_slash _) eqn:Hr; [exact Hh | done].
Qed.

Lemma dirname_crl_file_path self u :
  str_truthy (dirname (_get_crl_file_path self u)) = true.
Proof. apply dirname_app. Qed.

Lemma save_crl_to_file_world data self u w :
  snd (save_crl_to_file data (_get_crl_file_path self u) w)
    = saved data (_get_crl_file_path self u) w ∧
  ∃ b, fst (save_crl_to_file data (_get_crl_file_path self u) w) = Ok b.
Proof.
  rewrite save_crl_to_file_run, dirname_crl_file_path. unfold saved.
  destruct (bool_decide _); simpl; eauto.
Qed.

Lemma fallback_to_file_run self u w :
  fallback_to_file self u w =
  match file_crl w (_get_crl_file_path self u) with
  | Some c =>
      if x509.crl_truthy c
      then (Ok (Some c, set_crl_cache (<[u := c]> (_crl_cache self)) self), w)
      else (Ok (None, self), w)
  | None => (Ok (None, self), w)
  end.
Proof.
  unfold fallback_to_file, mbind, M_bind. rewrite load_crl_from_file_run.
  destruct (file_crl w _) as [c|]; [|done]. by destruct (x509.crl_truthy c).
Qed.

(** [refresh_crl], branch by branch.  [w0] is the world once the clock
    has been read, [w1] the world once the request has been sent. *)
Lemma refresh_crl_run self u w :
  let now := clock w (ticks w) in
  let w0 := set_ticks (S (ticks w)) w in
  let w1 := set_http_log (http_log w0 ++ [crl_request self u]) w0 in
  refresh_crl self u w =
  match recently_downloaded self now u with
  | Some c => (Ok (Some c, self), w0)
  | None =>
      match download_result
              (http_server w (length (http_log w)) (crl_request self u)) with
      | None =>
          match _crl_cache self !! u with
          | Some c => (Ok (Some c, self), w1)
          | None => fallback_to_file self u w1
          end
      | Some data =>
          let self1 :=
            set_last_download_time
              (<[u := now]> (_last_download_time self)) self in
          let w2 := saved data (_get_crl_file_path self u) w1 in
          match parse_crl data with
          | Some c =>
              let self2 :=
                set_crl_cache (<[u := c]> (_crl_cache self1)) self1 in
              match get_crl_info self2 c u w2 with
              | (Ok info, w3) =>
                  (Ok (Some c,
                       set_crl_info_cache
                         (<[u := info]> (_crl_info_cache self2)) self2), w3)
              | (Raise e, w3) => (Raise e, w3)
              end
          | None => fallback_to_file self1 u w2
          end
      end
  end.
Proof.
  intros now w0 w1. unfold refresh_crl.
  unfold mbind at 1, M_bind at 1, datetime_now. fold now w0.
  destruct (recently_downloaded self now u) as [c|]; [done|].
  unfold mbind at 1, M_bind at 1. rewrite download_crl_run.
  change (http_server w0) with (http_server w).
  change (http_log w0) with (http_log w).
  change (set_http_log (http_log w ++ [crl_request self u]) w0) with w1.
  destruct (download_result _) as [data|];
    [|by destruct (_crl_cache self !! u)].
  unfold mbind at 1, M_bind at 1.
  destruct (save_crl_to_file_world data self u w1)
    as [Hw [b Hb]].
  destruct (save_crl_to_file data _ w1) as [r w2]. simpl in Hw, Hb.
  subst r w2.
  destruct (parse_crl data) as [c|]; [|done].
  unfold mbind at 1, M_bind at 1.
  by destruct (get_crl_info _ _ _ _) as [[?|?] ?].
Qed.

Lemma get_crl_info_run self c u w :
  ∃ info, get_crl_info self c u w = (Ok info, set_ticks (S (ticks w)) w).
Proof. unfold get_crl_info, mbind, M_bind, datetime_now. eauto. Qed.

Lemma sent_refl P w : sent P w w.
Proof.
  repeat split; [lia|]. exists []. by rewrite app_nil_r.
Qed.

Lemma sent_trans P w1 w2 w3 : sent P w1 w2 → sent P w2 w3 → sent P w1 w3.
Proof.
  intros (Hc1 & Ht1 & n1 & Hl1 & Hf1) (Hc2 & Ht2 & n2 & Hl2 & Hf2).
  repeat split; [congruence | lia |].
  exists (n1 ++ n2). rewrite Hl2, Hl1, app_assoc.
  split; [done | by apply Forall_app].
Qed.

Lemma sent_mono (P Q : HttpRequest → Prop) w w' :
  (∀ rq, P rq → Q rq) → sent P w w' → sent Q w w'.
Proof.
  intros HPQ (Hc & Ht & n & Hl & Hf). repeat split; [done..|].
  exists n. split; [done|]. eapply Forall_impl; eauto.
Qed.

Lemma sent_tick P w : sent P w (set_ticks (S (ticks w)) w).
Proof.
  repeat split; simpl; [lia|]. exists []. by rewrite app_nil_r.
Qed.

Lemma sent_saved P data p w : sent P w (saved data p w).
Proof.
  unfold saved. destruct (bool_decide _); [apply sent_refl|].
  repeat split; simpl; [lia|]. exists []. by rewrite app_nil_r.
Qed.

Lemma sent_request (P : HttpRequest → Prop) rq w :
  P rq → sent P w (set_http_log (http_log w ++ [rq]) w).
Proof.
  intros HP. repeat split; simpl; [lia|]. exists [rq].
  split; [done|]. by apply Forall_singleton.
Qed.

Lemma same_but_refl u self : same_but u self self.
Proof. by repeat split. Qed.

Lemma same_but_trans u s1 s2 s3 :
  same_but u s1 s2 → same_but u s2 s3 → same_but u s1 s3.
Proof.
  intros (Hc1 & Hv1 & Hk1) (Hc2 & Hv2 & Hk2).
  repeat split; try congruence;
    destruct (Hk1 v) as [? ?]; destruct (Hk2 v) as [? ?]; congruence.
Qed.

Lemma fallback_to_file_effect self u w r w' :
  fallback_to_file self u w = (r, w') →
  w' = w ∧ ∃ oc self', r = Ok (oc, self') ∧ same_but u self self' ∧
    _last_download_time self' = _last_download_time self ∧
    (∀ c, oc = Some c → _crl_cache self' !! u = Some c).
Proof.
  rewrite fallback_to_file_run. intros Heq.
  destruct (file_crl w _) as [c|]; [destruct (x509.crl_truthy c)|];
    inv Heq; (split; [done|]); eexists _, _; (split; [done|]).
  - split; [|split; [done|]].
    + repeat split; simpl; by rewrite ?lookup_insert_ne.
    + intros c' [= <-]. simpl. by rewrite lookup_insert_eq.
  - split; [apply same_but_refl | done].
  - split; [apply same_but_refl | done].
Qed.

(** [refresh_crl] never raises; it only sends requests for its own URL,
    through the manager's session. *)
Lemma refresh_crl_effect self u w r w' :
  refresh_crl self u w = (r, w') →
  sent (λ rq, rq = crl_request self u) w w' ∧
  ∃ oc self', r = Ok (oc, self') ∧ same_but u self self'.
Proof.
  rewrite refresh_crl_run. simpl.
  set (w0 := set_ticks (S (ticks w)) w).
  set (w1 := set_http_log (http_log w ++ [crl_request self u]) w0).
  assert (Hw0 : sent (λ rq, rq = crl_request self u) w w0)
    by apply sent_tick.
  assert (Hw1 : sent (λ rq, rq = crl_request self u) w w1).
  { eapply sent_trans; [exact Hw0|]. by apply (sent_request _ _ w0). }
  destruct (recently_downloaded self _ u) as [c|].
  { intros [= <- <-]. split; [done|]. eexists _, _.
    split; [done | apply same_but_refl]. }
  destruct (download_result _) as [data|].
  - set (self1 := set_last_download_time _ self).
    assert (Hs1 : same_but u self self1).
    { repeat split; simpl; by rewrite ?lookup_insert_ne. }
    set (w2 := saved data _ w1).
    assert (Hw2 : sent (λ rq, rq = crl_request self u) w w2).
    { eapply sent_trans; [exact Hw1 | apply sent_saved]. }
    destruct (parse_crl data) as [c|].
    + intros [= <- <-]. split.
      * eapply sent_trans; [exact Hw2 | apply sent_tick].
      * eexists _, _. split; [done|].
        repeat split; simpl; by rewrite ?lookup_insert_ne.
    + intros Heq. apply fallback_to_file_effect in Heq
        as (-> & oc & self' & -> & Hs2 & _).
      split; [done|]. eexists _, _. split; [done|].
      by apply (same_but_trans _ _ self1).
  - destruct (_crl_cache self !! u) as [c|].
    + intros [= <- <-]. split; [done|]. eexists _, _.
      split; [done | apply same_but_refl].
    + intros Heq. apply fallback_to_file_effect in Heq
        as (-> & oc & self' & -> & Hs & _).
      split; [done|]. eauto.
Qed.




Lemma find_revoked_falsy c serial :
  x509.crl_truthy c = false → find_revoked c serial = None.
Proof.
  unfold x509.crl_truthy, find_revoked.
  by destruct (x509.revoked c).
Qed.

Lemma check_one_crl_run self cert u w :
  ∃ oc self1 w1,
    refresh_crl self u w = (Ok (oc, self1), w1) ∧
    check_one_crl self cert u w =
    match listed oc (x509.serial_number cert) with
    | Some rc =>
        (Ok (Some (revoked_status rc u (clock w1 (ticks w1))), self1),
         set_ticks (S (ticks w1)) w1)
    | None => (Ok (None, self1), w1)
    end.
Proof.
  destruct (refresh_crl self u w) as [r w1] eqn:Hr.
  destruct (refresh_crl_effect _ _ _ _ _ Hr) as (_ & oc & self1 & -> & _).
  exists oc, self1, w1. split; [done|].
  unfold check_one_crl, mbind at 1, M_bind at 1. rewrite Hr.
  destruct oc as [c|]; simpl; [|done].
  destruct (x509.crl_truthy c) eqn:Ht.
  - by destruct (find_revoked c _).
  - by rewrite find_revoked_falsy.
Qed.

Lemma tried_without_match_app cert us vs s1 s2 s3 :
  tried_without_match cert us s1 s2 →
  tried_without_match cert vs s2 s3 →
  tried_without_match cert (us ++ vs) s1 s3.
Proof.
  induction 1; simpl; [done|]. intros Hvs. econstructor; eauto.
Qed.

(** [check_crls] never raises, and its run splits into the URLs tried
    without a match followed either by the URL whose CRL lists the
    serial number, after which nothing more is done, or by the final
    "not revoked" status. *)
Lemma check_crls_run self cert urls w :
  ∃ st self' w', check_crls self cert urls w = (Ok (st, self'), w') ∧
  ((∃ tried u rest s0 w0 c rc w1,
      urls = tried ++ u :: rest ∧
      tried_without_match cert tried (self, w) (s0, w0) ∧
      refresh_crl s0 u w0 = (Ok (Some c, self'), w1) ∧
      find_revoked c (x509.serial_number cert) = Some rc ∧
      st = revoked_status rc u (clock w1 (ticks w1)) ∧
      w' = set_ticks (S (ticks w1)) w1)
   ∨
   (∃ w0, tried_without_match cert urls (self, w) (self', w0) ∧
      st = clean_status (clock w0 (ticks w0)) ∧
      w' = set_ticks (S (ticks w0)) w0)).
Proof.
  revert self w. induction urls as [|u urls IH]; intros self w.
  - eexists _, _, _. split; [done|]. right. exists w.
    split; [constructor | done].
  - destruct (check_one_crl_run self cert u w)
      as (oc & self1 & w1 & Hr & Hone).
    simpl. unfold mbind at 1, M_bind at 1, try_except. rewrite Hone.
    destruct (listed oc _) as [rc|] eqn:Hl.
    + eexists _, _, _. split; [done|]. left.
      destruct oc as [c|]; [|done]. simpl in Hl.
      exists [], u, urls, self, w, c, rc, w1.
      repeat split; [constructor | done..].
    + destruct (IH self1 w1) as (st & self' & w' & Hrun & Hcases).
      exists st, self', w'. split; [done|].
      destruct Hcases
        as [(tried & v & rest & s0 & w0 & c & rc & w2 & -> & Ht & ?)
           |(w0 & Ht & ?)].
      * left. exists (u :: tried), v, rest, s0, w0, c, rc, w2.
        split; [done|]. split; [|done]. econstructor; eauto.
      * right. exists w0. split; [|done]. econstructor; eauto.
Qed.

(** The requests of the URLs tried without a match. *)
Lemma tried_without_match_effect cert us s s' :
  tried_without_match cert us s s' →
  sent (λ rq, req_method rq = GET ∧ req_url rq ∈ us ∧
              req_verify rq =
                merge_environment_settings (session_verify (fst s)))
       (snd s) (snd s') ∧
  config (fst s') = config (fst s) ∧
  session_verify (fst s') = session_verify (fst s).
Proof.
  induction 1 as [s|u us self w oc self1 w1 s' Hr Hl Ht IH]; simpl.
  - split; [apply sent_refl | done].
  - apply refresh_crl_effect in Hr
      as (Hs & oc' & self1' & [= <- <-] & Hc & Hv & _).
    simpl in IH. destruct IH as (Hs' & Hc' & Hv').
    split; [|split; congruence].
    eapply sent_trans.
    + eapply sent_mono; [|exact Hs]. intros rq ->. simpl.
      repeat split. by left.
    + eapply sent_mono; [|exact Hs']. intros rq (? & ? & ?).
      repeat split; [done | by right | congruence].
Qed.

(** [check_crls] keeps the configuration and the session of the manager
    and only sends GET requests for the URLs it is given, through that
    session. *)
Lemma check_crls_effect self cert urls w st self' w' :
  check_crls self cert urls w = (Ok (st, self'), w') →
  sent (λ rq, req_method rq = GET ∧ req_url rq ∈ urls ∧
              req_verify rq =
                merge_environment_settings (session_verify self)) w w' ∧
  config self' = config self ∧
  session_verify self' = session_verify self.
Proof.
  intros Hrun.
  destruct (check_crls_run self cert urls w)
    as (st0 & self0 & w0 & Hrun0 & Hcases).
  rewrite Hrun in Hrun0. inv Hrun0.
  destruct Hcases
    as [(tried & u & rest & s1 & w1 & c & rc & w2 & -> & Ht & Hr & _ & _ & ->)
       |(w1 & Ht & _ & ->)].
  - apply tried_without_match_effect in Ht as (Hs & Hc & Hv).
    simpl in Hs, Hc, Hv.
    apply refresh_crl_effect in Hr
      as (Hs' & oc' & self1' & [= <- <-] & Hc' & Hv' & _).
    split; [|split; congruence].
    eapply sent_trans; [|eapply sent_trans; [|apply sent_tick]].
    + eapply sent_mono; [|exact Hs]. intros rq (? & ? & ?).
      repeat split; [done | | done]. apply elem_of_app. by left.
    + eapply sent_mono; [|exact Hs']. intros rq ->. simpl.
      repeat split; [|congruence]. apply elem_of_app. right. by left.
  - apply tried_without_match_effect in Ht as (Hs & Hc & Hv).
    simpl in Hs, Hc, Hv. split; [|done].
    eapply sent_trans; [exact Hs | apply sent_tick].
Qed.

Lemma check_certificate_revocation_eq self cert w :
  config.crl_enabled (config self) = true →
  check_certificate_revocation self cert w =
  check_crls self cert (set_iter (crl_url_insertions self cert)) w.
Proof.
  intros Hen. unfold check_certificate_revocation. rewrite Hen. simpl.
  by destruct (set_iter _).
Qed.

Lemma check_certificate_revocation_effect self cert w r w' :
  check_certificate_revocation self cert w = (r, w') →
  sent (λ rq, req_method rq = GET ∧
              req_verify rq =
                merge_environment_settings (session_verify self))
       w w' ∧
  ∃ st self', r = Ok (st, self') ∧ config self' = config self ∧
              session_verify self' = session_verify self.
Proof.
  destruct (config.crl_enabled (config self)) eqn:Hen.
  - rewrite check_certificate_revocation_eq by done.
    destruct (check_crls_run self cert
                (set_iter (crl_url_insertions self cert)) w)
      as (st & self' & w0 & Hrun & _).
    rewrite Hrun. intros [= <- <-].
    apply check_crls_effect in Hrun as (Hs & Hc & Hv).
    split; [|by eauto]. eapply sent_mono; [|exact Hs].
    by intros rq (? & _ & ?).
  - unfold check_certificate_revocation. rewrite Hen. simpl.
    intros [= <- <-]. split; [apply sent_tick | by eauto].
Qed.





End crl_facts.

(** ** C-CRL: the claims *)

Section crl_claims.
Context `{Lib}.
Import crl_manager.

(** Iterating over a set built from the insertions [l] yields each
    inserted string once. *)
Hypothesis set_iter_NoDup : ∀ l, NoDup (set_iter l).
Hypothesis set_iter_elem : ∀ l x, x ∈ set_iter l ↔ x ∈ l.



(** C7, the fall-back of [refresh_crl] when the download fails: the
    in-memory CRL when there is one; otherwise the CRL parsed from the
    cache file, but only when that CRL has at least one entry; otherwise
    nothing. *)
Lemma refresh_crl_download_failed self u w :
  recently_downloaded self (clock w (ticks w)) u = None →
  download_result
    (http_server w (length (http_log w)) (crl_request self u)) = None →
  fst (refresh_crl self u w) =
  match _crl_cache self !! u with
  | Some c => Ok (Some c, self)
  | None =>
      match file_crl w (_get_crl_file_path self u) with
      | Some c =>
          if x509.crl_truthy c
          then Ok (Some c, set_crl_cache (<[u := c]> (_crl_cache self)) self)
          else Ok (None, self)
      | None => Ok (None, self)
      end
  end.
Proof.
  intros Hrec Hdl. rewrite refresh_crl_run. simpl. rewrite Hrec, Hdl.
  destruct (_crl_cache self !! u) as [c|]; [done|].
  rewrite fallback_to_file_run. unfold file_crl. simpl.
  destruct (files w !! _) as [b|]; [|done].
  destruct (parse_crl b) as [c|]; [|done].
  by destruct (x509.crl_truthy c).
Qed.

(** C7, the verdict: a source whose lookup yields no CRL, or a CRL that
    does not list the serial number, is skipped; the check reports a
    revocation only on the strength of a CRL that lists the serial
    number. *)
Lemma revoked_only_on_evidence self cert w st self' w' :
  check_certificate_revocation self cert w = (Ok (st, self'), w') →
  is_revoked st = true →
  ∃ u s0 w0 c rc w1,
    u ∈ crl_url_insertions self cert ∧
    refresh_crl s0 u w0 = (Ok (Some c, self'), w1) ∧
    find_revoked c (x509.serial_number cert) = Some rc ∧
    crl_source st = Some u.
Proof.
  destruct (config.crl_enabled (config self)) eqn:Hen.
  - rewrite check_certificate_revocation_eq by done. intros Hrun Hrev.
    destruct (check_crls_run self cert
                (set_iter (crl_url_insertions self cert)) w)
      as (st0 & self0 & w0 & Hrun0 & Hcases).
    rewrite Hrun in Hrun0. inv Hrun0.
    destruct Hcases
      as [(tried & u & rest & s1 & w1 & c & rc & w2 & Hu & _ & Hr & Hf & -> & _)
         |(w1 & _ & -> & _)]; [|done].
    exists u, s1, w1, c, rc, w2. split; [|done].
    apply set_iter_elem. rewrite Hu. apply elem_of_app. right. by left.
  - unfold check_certificate_revocation. rewrite Hen. simpl.
    by intros [= <- <- <-].
Qed.

(** C8, as the code has it. The URLs of a revocation check are the
    configured CRL URLs together with the distribution points of the
    certificate, each once, in the iteration order of the set they were
    put in.  The check looks them up in that order: every URL before the
    first whose CRL lists the serial number is tried without a match,
    that first URL is reported as the source, and no request is sent for
    any URL after it.  When no CRL lists the serial number all URLs are
    tried and the certificate is reported as not revoked. *)
Theorem first_listing_crl_in_set_order_wins self cert w :
  config.crl_enabled (config self) = true →
  let urls := set_iter (crl_url_insertions self cert) in
  NoDup urls ∧
  (∀ u, u ∈ urls ↔
        u ∈ default [] (config.crl_urls (config self)) ∨
        u ∈ x509.crl_distribution_points cert) ∧
  ∃ st self' w',
    check_certificate_revocation self cert w = (Ok (st, self'), w') ∧
    ((∃ tried u rest s0 w0 c rc w1,
        urls = tried ++ u :: rest ∧
        tried_without_match cert tried (self, w) (s0, w0) ∧
        refresh_crl s0 u w0 = (Ok (Some c, self'), w1) ∧
        find_revoked c (x509.serial_number cert) = Some rc ∧
        st = revoked_status rc u (clock w1 (ticks w1)) ∧
        sent (λ rq, req_url rq ∉ rest) w w')
     ∨
     (∃ w0, tried_without_match cert urls (self, w) (self', w0) ∧
        st = clean_status (clock w0 (ticks w0)))).
Proof.
  intros Hen urls. split; [apply set_iter_NoDup|]. split.
  - intros u. unfold urls. rewrite set_iter_elem.
    unfold crl_url_insertions, get_certificate_distribution_points.
    rewrite elem_of_app.
    destruct (config.crl_urls (config self)) as [[|v vs]|]; simpl; done.
  - rewrite check_certificate_revocation_eq by done. fold urls.
    destruct (check_crls_run self cert urls w)
      as (st & self' & w' & Hrun & Hcases).
    exists st, self', w'. split; [done|].
    destruct Hcases
      as [(tried & u & rest & s0 & w0 & c & rc & w1 & Hu & Ht & Hr & Hf & -> & ->)
         |(w0 & Ht & -> & _)]; [left|right; by eauto].
    exists tried, u, rest, s0, w0, c, rc, w1.
    do 5 (split; [done|]).
    pose proof (set_iter_NoDup (crl_url_insertions self cert)) as Hnd.
    fold urls in Hnd. rewrite Hu in Hnd.
    apply NoDup_app in Hnd as (_ & Hdis & Hnd).
    apply NoDup_cons in Hnd as [Hnu _].
    apply tried_without_match_effect in Ht as (Hs & _ & _).
    simpl in Hs.
    pose proof Hr as Hr'.
    apply refresh_crl_effect in Hr' as (Hs' & _).
    eapply sent_trans; [|eapply sent_trans; [|apply sent_tick]].
    + eapply sent_mono; [|exact Hs]. intros rq (_ & Hin & _) Hrest.
      apply (Hdis _ Hin). by right.
    + eapply sent_mono; [|exact Hs']. intros rq -> Hrest. by simpl in Hrest.
Qed.




End crl_claims.


(** ** The claims on concrete runs *)

Section runs.
Import certificate_monitor.

(** C1 at work: a certificate 5 days from expiry, threshold 30 days. *)
Lemma needs_renewal_iff_revoked_or_due_witness :
  ∃ st m w',
    @check_certificate_status sample.lib sample.monitor_no_crl
      (sample.cert_cfg "web" (Some 30))
      (sample.world {[ "web.crt" := [Byte.x01] ]}) = (Ok (st, m), w') ∧
    days_until_expiry st = Some 5 ∧
    (needs_renewal st = true ↔
     is_revoked st = true ∨ 5 ≤ renewal_threshold_days st).
Proof.
  destruct (@check_certificate_status sample.lib sample.monitor_no_crl
              (sample.cert_cfg "web" (Some 30))
              (sample.world {[ "web.crt" := [Byte.x01] ]}))
    as [[[st m]|e] w'] eqn:Hrun; [|vm_compute in Hrun; discriminate].
  exists st, m, w'. split; [reflexivity|].
  pose proof (@needs_renewal_iff_revoked_or_due sample.lib
                _ _ _ _ _ _ Hrun) as [_ Hm].
  vm_compute in Hrun. inversion Hrun; subst; clear Hrun.
  split; [reflexivity | exact Hm].
Defined.

(** C2 as stated fails: a revoked certificate 60 days from expiry is
    given the reason valid (the CRL entry names its reason, the status
    of the check says Unspecified), and a certificate expired for 5 days
    the reason emergency. *)
Lemma renewal_reason_counterexample :
  sample.status_of
    (@check_certificate_status sample.lib
       (sample.monitor_crl ["http://ca/a.crl"])
       (sample.cert_cfg "web" (Some 30))
       (sample.world_net {[ "web.crt" := [Byte.x05] ]}
          (sample.serving [("http://ca/a.crl", [Byte.x11])])))
  = Some {| name := "web"; cert_path := "web.crt"; is_valid := false;
            expires_at := Some (sample.day 160);
            days_until_expiry := Some 60;
            needs_renewal := true; renewal_threshold_days := 30;
            renewal_reason := "valid"; is_revoked := true;
            revocation_info :=
              Some {| crl_manager.is_revoked := true;
                      crl_manager.revocation_date := Some (sample.day 98);
                      crl_manager.revocation_reason := Some "Unspecified";
                      crl_manager.crl_source := Some "http://ca/a.crl";
                      crl_manager.check_time := sample.day 100 |};
            error_message := None |}
  ∧
  sample.status_of
    (@check_certificate_status sample.lib sample.monitor_no_crl
       (sample.cert_cfg "web" (Some 30))
       (sample.world {[ "web.crt" := [Byte.x03] ]}))
  = Some {| name := "web"; cert_path := "web.crt"; is_valid := false;
            expires_at := Some (sample.day 95);
            days_until_expiry := Some (-5);
            needs_renewal := true; renewal_threshold_days := 30;
            renewal_reason := "emergency"; is_revoked := false;
            revocation_info := None; error_message := None |}.
Proof. split; vm_compute; reflexivity. Qed.

(** C2 as the code has it, at work: 5 days left is an emergency. *)
Lemma renewal_reason_ladder_witness :
  ∃ st m w',
    @check_certificate_status sample.lib sample.monitor_no_crl
      (sample.cert_cfg "web" (Some 30))
      (sample.world {[ "web.crt" := [Byte.x01] ]}) = (Ok (st, m), w') ∧
    days_until_expiry st = Some 5 ∧
    renewal_reason st = "emergency".
Proof.
  destruct (@check_certificate_status sample.lib sample.monitor_no_crl
              (sample.cert_cfg "web" (Some 30))
              (sample.world {[ "web.crt" := [Byte.x01] ]}))
    as [[[st m]|e] w'] eqn:Hrun; [|vm_compute in Hrun; discriminate].
  exists st, m, w'. split; [reflexivity|].
  pose proof (@renewal_reason_ladder sample.lib
                _ _ _ _ _ _ 5 Hrun) as Hm.
  vm_compute in Hrun. inversion Hrun; subst; clear Hrun.
  split; [reflexivity|]. apply Hm; [reflexivity | simpl; lia].
Defined.

End runs.

Section crl_runs.
Import crl_manager sample_renewal.

(** C7 on a cache file that holds a CRL without entries: with the
    network down and nothing in memory, [refresh_crl] reports no CRL
    although the cached copy parses; with one entry it is used. *)
Lemma empty_cached_crl_is_dropped :
  let self := sample.manager ["http://ca/a.crl"] in
  let w0 := sample.world {[ "crl/http://ca/a.crl.crl" := [Byte.x10] ]} in
  let w1 := sample.world {[ "crl/http://ca/a.crl.crl" := [Byte.x11] ]} in
  @file_crl sample.lib w0
    (@_get_crl_file_path sample.lib self "http://ca/a.crl")
  = Some (sample.crl_of []) ∧
  fst (@refresh_crl sample.lib self "http://ca/a.crl" w0)
  = Ok (None, self) ∧
  fst (@refresh_crl sample.lib self "http://ca/a.crl" w1)
  = Ok (Some (sample.crl_of [(7, Some "keyCompromise")]),
        set_crl_cache
          {[ "http://ca/a.crl" := sample.crl_of [(7, Some "keyCompromise")] ]}
          self).
Proof. repeat split; vm_compute; reflexivity. Qed.

(** C8 as stated fails: the configured URL a.crl and the distribution
    point b.crl both list the certificate.  Under a set order that
    yields b.crl first, b.crl is the only URL asked and is reported as
    the source; under the order of insertion it is a.crl. *)
Lemma configured_url_first_counterexample :
  let self := sample.manager ["http://ca/a.crl"] in
  let cert := sample.cert_of (sample.day 160) 7 ["http://ca/b.crl"] in
  let w := sample.world_net ∅ two_sources in
  @crl_url_insertions self cert = ["http://ca/a.crl"; "http://ca/b.crl"] ∧
  verdict (@check_certificate_revocation sample.lib_rev self cert w)
  = (Some (Some "http://ca/b.crl", Some "Unspecified"),
     ["http://ca/b.crl"]) ∧
  verdict (@check_certificate_revocation sample.lib self cert w)
  = (Some (Some "http://ca/a.crl", Some "Unspecified"),
     ["http://ca/a.crl"]).
Proof. repeat split; vm_compute; reflexivity. Qed.

(** C8 as the code has it, at work on the same input. *)
Lemma first_listing_crl_in_set_order_wins_witness :
  let self := sample.manager ["http://ca/a.crl"] in
  let cert := sample.cert_of (sample.day 160) 7 ["http://ca/b.crl"] in
  let w := sample.world_net ∅ two_sources in
  config.crl_enabled (config self) = true ∧
  NoDup (@set_iter sample.lib_rev (crl_url_insertions self cert)) ∧
  ∃ st self' w',
    @check_certificate_revocation sample.lib_rev self cert w
      = (Ok (st, self'), w') ∧
    crl_source st = Some "http://ca/b.crl".
Proof.
  cbv zeta.
  pose proof (@first_listing_crl_in_set_order_wins sample.lib_rev
                last_seen_NoDup last_seen_elem
                (sample.manager ["http://ca/a.crl"])
                (sample.cert_of (sample.day 160) 7 ["http://ca/b.crl"])
                (sample.world_net ∅ two_sources) eq_refl)
    as (Hnd & _ & st & self' & w' & Hrun & _).
  split; [reflexivity|]. split; [exact Hnd|].
  exists st, self', w'. split; [exact Hrun|].
  vm_compute in Hrun. by inversion Hrun.
Defined.



(** With the root certificate in place the session is pinned to it. *)
Lemma pinned_when_root_exists :
  let w := sample.world {[ "root.crt" := [Byte.x00] ]} in
  (session_verify <$>
     match fst (__init__ (sample.step_cfg []) w) with
     | Ok m => Some m
     | Raise _ => None
     end) = Some (VerifyBundle "root.crt").
Proof. vm_compute; reflexivity. Qed.

End crl_runs.

(** ** C-Enroll: artifacts on disk around a renewal *)

Section enrollment_facts.
Context `{Lib}.

Ltac run_est :=
  unfold est_client.renew_certificate, est_client.enroll_certificate,
    est_client._generate_csr, generate_csr, try_except, mbind, M_bind,
    mret, M_ret, os_path_exists, read_file, session_request, write_file,
    os_chmod, os_makedirs.

Lemma try_except_const_snd {A : Type} (body : M A) (x : A) w :
  snd (try_except body (λ _, mret x) w) = snd (body w).
Proof. unfold try_except. by destruct (body w) as [[?|?] ?]. Qed.

(** An EST enrollment that the server does not accept writes nothing. *)
Lemma est_enroll_not_accepted est cc c k w :
  not_accepted w (est_request est "simpleenroll") →
  files (snd (est_client.enroll_certificate est cc c k w)) = files w.
Proof.
  intros Hna. unfold est_client.enroll_certificate.
  rewrite try_except_const_snd. run_est. simpl.
  destruct (csr_source w (csr_drawn w)) as [[csr key]|e]; [|done].
  simpl. unfold not_accepted, est_request in Hna.
  destruct (http_server w _ _) as [resp|e] eqn:Hsrv; [|done].
  simpl. destruct (Z.eqb_spec (status_code resp) 200) as [H200|_];
    [by destruct (Hna resp)|done].
Qed.

(** An EST renewal that the server does not accept writes nothing. *)
Lemma est_renew_not_accepted est cc w :
  not_accepted w (est_request est "simpleenroll") →
  not_accepted w (est_request est "simplereenroll") →
  files (snd (est_client.renew_certificate est cc w)) = files w.
Proof.
  intros Hna1 Hna2. unfold est_client.renew_certificate.
  rewrite try_except_const_snd.
  unfold mbind at 1, M_bind at 1, os_path_exists.
  destruct (negb _); [by apply est_enroll_not_accepted|].
  run_est. simpl.
  destruct (files w !! _) as [cur|]; [|done].
  destruct (csr_source w (csr_drawn w)) as [[csr key]|e]; [|done].
  simpl. unfold not_accepted, est_request in Hna2.
  destruct (http_server w _ _) as [resp|e] eqn:Hsrv; [|done].
  simpl. destruct (Z.eqb_spec (status_code resp) 200) as [H200|_];
    [by destruct (Hna2 resp)|done].
Qed.

Lemma length_append (a b : string) :
  String.length (a +:+ b) = (String.length a + String.length b)%nat.
Proof. induction a as [|c a IH]; simpl; [done | by rewrite IH]. Qed.

Lemma backup_path_ne (p : string) : backup_path p ≠ p.
Proof.
  unfold backup_path. intros Heq.
  apply (f_equal String.length) in Heq. rewrite length_append in Heq.
  simpl in Heq. lia.
Qed.

(** A successful EST renewal of an existing certificate leaves the
    bytes it replaced in the backup file. *)
Lemma est_renew_keeps_backup est cc w w' old :
  files w !! config.cert_path cc = Some old →
  config.key_path cc ≠ backup_path (config.cert_path cc) →
  est_client.renew_certificate est cc w = (Ok true, w') →
  files w' !! backup_path (config.cert_path cc) = Some old.
Proof.
  intros Hold Hne. pose proof (backup_path_ne (config.cert_path cc)).
  unfold est_client.renew_certificate, try_except.
  unfold mbind at 1, M_bind at 1, os_path_exists.
  rewrite Hold, bool_decide_eq_true_2 by eauto. simpl.
  run_est. rewrite Hold. simpl.
  destruct (csr_source w (csr_drawn w)) as [[csr key]|e];
    [|by intros [= ?]].
  simpl. destruct (http_server w _ _) as [resp|e]; [|by intros [= ?]].
  simpl. destruct (status_code resp =? 200); [|by intros [= ?]].
  simpl. repeat (case_match; simplify_eq/=; try done).
  intros [= <-]. simpl.
  rewrite !lookup_insert_ne by done. by rewrite lookup_insert_eq.
Qed.

(** When every path can be written, an EST renewal that reports failure
    has written nothing. *)
Lemma est_failed_renewal_without_write_faults est cc w w' :
  unwritable w = [] →
  est_client.renew_certificate est cc w = (Ok false, w') →
  files w' = files w.
Proof.
  intros Hw. destruct cc as [n cp kp pct subj alt rtd].
  unfold est_client.renew_certificate, try_except. simpl.
  unfold mbind at 1, M_bind at 1, os_path_exists.
  destruct (negb _).
  - run_est. unfold raise. simpl.
    destruct (csr_source w (csr_drawn w)) as [[csr key]|e];
      [|by intros [= <-]].
    simpl. destruct (http_server w _ _) as [resp|e]; [|by intros [= <-]].
    simpl. destruct (status_code resp =? 200); [|by intros [= <-]].
    destruct (str_truthy (dirname cp)); simpl; [|by intros [= <-]].
    destruct (str_truthy (dirname kp)); simpl; [|by intros [= <-]].
    repeat (progress (rewrite ?Hw; simpl)).
    rewrite ?lookup_insert.
    repeat (case_decide; simplify_eq/=; try done);
      by rewrite ?lookup_insert_eq.
  - run_est. simpl.
    destruct (files w !! _) as [cur|]; [|by intros [= <-]].
    destruct (csr_source w (csr_drawn w)) as [[csr key]|e];
      [|by intros [= <-]].
    simpl. destruct (http_server w _ _) as [resp|e]; [|by intros [= <-]].
    simpl. destruct (status_code resp =? 200); [|by intros [= <-]].
    repeat (progress (rewrite ?Hw; simpl)).
    rewrite ?lookup_insert.
    repeat (case_decide; simplify_eq/=; try done);
      by rewrite ?lookup_insert_eq.
Qed.

Lemma try_pass_run (body : M unit) w :
  try_pass body w = (Ok tt, snd (body w)).
Proof.
  unfold try_pass, try_except. by destruct (body w) as [[[]|?] ?].
Qed.

Lemma copy2_cli_log src dst w :
  cli_log (snd (copy2 src dst w)) = cli_log w.
Proof.
  unfold copy2, mbind, M_bind, read_file, write_file.
  destruct (files w !! src); [|done]. by destruct (bool_decide _).
Qed.

Lemma copy2_pair_cli_log a b c d w :
  cli_log (snd ((copy2 a b;; copy2 c d) w)) = cli_log w.
Proof.
  unfold mbind at 1, M_bind at 1.
  pose proof (copy2_cli_log a b w) as H1.
  destruct (copy2 a b w) as [[[]|e] w1]; simpl in *; [|done].
  by rewrite copy2_cli_log.
Qed.

(** After the removal of the two backups the certificate backup is gone,
    whether or not it was there. *)
Lemma remove_pair_effect a b w :
  let w' := snd ((os_remove a;; os_remove b) w) in
  cli_log w' = cli_log w ∧ files w' !! a = None.
Proof.
  unfold mbind, M_bind, os_remove.
  destruct (files w !! a) as [x|] eqn:Ha; simpl; [|done].
  rewrite lookup_delete.
  destruct (decide (a = b)) as [->|Hne]; simpl.
  - by rewrite lookup_delete_eq.
  - destruct (files w !! b); simpl; [|by rewrite lookup_delete_eq].
    by rewrite lookup_delete_ne, lookup_delete_eq.
Qed.

(** A run of the step command adds one entry to the CLI log, or, for a
    client without CLI path, fails without running anything. *)
Lemma run_step_command_effect self args w :
  ∃ r w', step_ca_client._run_step_command self args w = (Ok r, w') ∧
    match step_ca_client._step_cli_path self with
    | Some _ => length (cli_log w') = S (length (cli_log w))
    | None => w' = w ∧ step_ca_client.success r = false
    end.
Proof.
  unfold step_ca_client._run_step_command.
  destruct (step_ca_client._step_cli_path self) as [p|].
  - unfold mbind, M_bind, subprocess_run.
    destruct (step_cli w _ _ _) as [c f]. eexists _, _.
    split; [done|]. simpl. rewrite length_app. simpl. lia.
  - eexists _, _. by split.
Qed.

Lemma get_provisioner_token_effect self subj alt w :
  ∃ t w', step_ca_client.get_provisioner_token self subj alt w = (Ok t, w') ∧
    match step_ca_client._step_cli_path self with
    | Some _ => length (cli_log w') = S (length (cli_log w))
    | None => w' = w ∧ t = None
    end.
Proof.
  unfold step_ca_client.get_provisioner_token. cbv zeta.
  unfold mbind, M_bind.
  match goal with
  | |- context [step_ca_client._run_step_command self ?a w] =>
      destruct (run_step_command_effect self a w)
        as (r1 & w1 & -> & Hcase)
  end.
  eexists _, _. split; [done|].
  destruct (step_ca_client._step_cli_path self); [done|].
  destruct Hcase as [-> Hfail]. by rewrite Hfail.
Qed.

(** A fresh request through the token adapter runs the CLI at least
    once, or, for a client without CLI path, fails without running
    anything. *)
Lemma request_jwk_effect self cc c k w r w' :
  step_ca_client._request_certificate_jwk self cc c k w = (r, w') →
  match step_ca_client._step_cli_path self with
  | Some _ => (length (cli_log w) < length (cli_log w'))%nat
  | None => r = Ok false ∧ w' = w
  end.
Proof.
  unfold step_ca_client._request_certificate_jwk.
  unfold mbind at 1, M_bind at 1.
  destruct (get_provisioner_token_effect self (config.subject cc)
              (config.sans cc) w) as (t & w1 & -> & Hcase).
  destruct (opt_str_truthy t) eqn:Ht.
  - unfold mbind, M_bind.
    match goal with
    | |- context [step_ca_client._run_step_command self ?a w1] =>
        destruct (run_step_command_effect self a w1)
          as (r2 & w2 & -> & Hcase2)
    end.
    intros [= <- <-].
    destruct (step_ca_client._step_cli_path self); [lia|].
    by destruct Hcase as [_ ->].
  - intros [= <- <-].
    destruct (step_ca_client._step_cli_path self); [lia|].
    by destruct Hcase as [-> _].
Qed.

(** A successful renewal through the token adapter that ran the CLI
    once (the in-place renewal succeeded) has removed the certificate
    backup. *)
Lemma jwk_renew_removes_backup self cc w w' :
  step_ca_client.is_EST self = false →
  step_ca_client._renew_certificate_jwk self cc w = (Ok true, w') →
  length (cli_log w') = S (length (cli_log w)) →
  files w' !! backup_path (config.cert_path cc) = None.
Proof.
  intros Hest. unfold step_ca_client._renew_certificate_jwk.
  unfold mbind at 1, M_bind at 1, os_path_exists.
  destruct (negb _); [by intros [= ?]|].
  unfold mbind at 1, M_bind at 1.
  destruct (negb _); [by intros [= ?]|].
  unfold mbind at 1, M_bind at 1. rewrite try_pass_run.
  pose proof (copy2_pair_cli_log (config.cert_path cc)
                (backup_path (config.cert_path cc))
                (config.key_path cc)
                (backup_path (config.key_path cc)) w) as Hlog1.
  set (w1 := snd (_ w)) in *.
  unfold mbind at 1, M_bind at 1.
  match goal with
  | |- context [step_ca_client._run_step_command self ?a w1] =>
      destruct (run_step_command_effect self a w1)
        as (r & w2 & -> & Hcase)
  end.
  destruct (step_ca_client.success r) eqn:Hsucc.
  - unfold mbind at 1, M_bind at 1. rewrite try_pass_run.
    destruct (remove_pair_effect (backup_path (config.cert_path cc))
                (backup_path (config.key_path cc)) w2) as [_ Hgone].
    intros [= <-] _. exact Hgone.
  - unfold mbind at 1, M_bind at 1. rewrite try_pass_run.
    pose proof (copy2_pair_cli_log (backup_path (config.cert_path cc))
                  (config.cert_path cc)
                  (backup_path (config.key_path cc))
                  (config.key_path cc) w2) as Hlog3.
    set (w3 := snd (_ w2)) in *.
    unfold step_ca_client.request_certificate. rewrite Hest.
    intros Hreq Hlen. apply request_jwk_effect in Hreq.
    apply (f_equal length) in Hlog1, Hlog3.
    destruct (step_ca_client._step_cli_path self);
      [lia | by destruct Hreq as [[=] _]].
Qed.

End enrollment_facts.

Section enrollment_claims.
Context `{Lib}.

(** C4, as the code has it.  A successful renewal of an existing
    certificate through the EST adapter leaves the bytes it replaced in
    the backup file (the key file being another file); through the token
    adapter, when the in-place renewal succeeded (the CLI ran once), the
    backup file has been removed.  An EST renewal that the server does
    not accept leaves every file, the backup included, as it was. *)
Theorem backup_after_successful_renewal :
  (∀ self cc w w' old,
     step_ca_client.renew_certificate self cc w = (Ok true, w') →
     files w !! config.cert_path cc = Some old →
     config.key_path cc ≠ backup_path (config.cert_path cc) →
     if step_ca_client.is_EST self
     then files w' !! backup_path (config.cert_path cc) = Some old
     else length (cli_log w') = S (length (cli_log w)) →
          files w' !! backup_path (config.cert_path cc) = None) ∧
  (∀ est cc w,
     not_accepted w (est_request est "simpleenroll") →
     not_accepted w (est_request est "simplereenroll") →
     files (snd (est_client.renew_certificate est cc w)) = files w).
Proof.
  split.
  - intros self cc w w' old Hrun Hold Hne.
    unfold step_ca_client.renew_certificate in Hrun.
    destruct (step_ca_client.is_EST self) eqn:Hest.
    + destruct (step_ca_client.est_client self) as [est|]; [|done].
      by eapply est_renew_keeps_backup.
    + intros Hlen. by eapply jwk_renew_removes_backup.
  - intros est cc w. apply est_renew_not_accepted.
Qed.

End enrollment_claims.

(** ** C-Loop: the statuses of a check pass *)

Section service_claims.
Context `{Lib}.
Import certificate_monitor renewal_service.

(** The renewal step never raises. *)
Lemma renew_if_needed_outcome self st w :
  ∃ st' w', renew_if_needed self st w = (Ok st', w') ∧
            renewal_outcome st st'.
Proof.
  unfold renew_if_needed.
  destruct (needs_renewal st);
    [|eexists _, _; split; [done | constructor]].
  destruct (List.find _ _) as [cc|];
    [|eexists _, _; split; [done | constructor]].
  unfold try_except, mbind at 1, M_bind at 1.
  destruct (step_ca_client.renew_certificate _ _ _) as [[[]|e] w1].
  - unfold mbind, M_bind.
    destruct (step_ca_client.verify_certificate _ _ _) as [[[]|e] w2];
      eexists _, _; (split; [done|]); by constructor.
  - eexists _, _. split; [done|]. by constructor.
  - eexists _, _. split; [done|]. by constructor.
Qed.

(** The renewal step, by what the client answers: nothing is done for
    a status that does not ask for a renewal or whose name no configured
    certificate has; otherwise the certificate is renewed, verified when
    the renewal succeeded, and the status says what happened. *)
Lemma renew_if_needed_run self st w :
  renew_if_needed self st w =
  match (if needs_renewal st then configured self st else None) with
  | None => (Ok st, w)
  | Some cc =>
      match step_ca_client.renew_certificate (step_client self) cc w with
      | (Ok true, w1) =>
          match step_ca_client.verify_certificate (step_client self)
                  (config.cert_path cc) w1 with
          | (Ok true, w2) =>
              (Ok (set_error_message None (set_needs_renewal false st)),
               w2)
          | (Ok false, w2) =>
              (Ok (set_error_message
                     (Some "Certificate verification failed after renewal")
                     st), w2)
          | (Raise e, w2) =>
              (Ok (set_error_message
                     (Some ("Exception during certificate renewal: "
                            +:+ str_exn e)) st), w2)
          end
      | (Ok false, w1) =>
          (Ok (set_error_message (Some "Certificate renewal failed") st),
           w1)
      | (Raise e, w1) =>
          (Ok (set_error_message
                 (Some ("Exception during certificate renewal: "
                        +:+ str_exn e)) st), w1)
      end
  end.
Proof.
  unfold renew_if_needed, configured.
  destruct (needs_renewal st); [|done].
  destruct (List.find _ _) as [cc|]; [|done].
  unfold try_except, mbind at 1, M_bind at 1.
  destruct (step_ca_client.renew_certificate _ _ _) as [[[]|e] w1];
    [|done..].
  unfold mbind, M_bind.
  by destruct (step_ca_client.verify_certificate _ _ _) as [[[]|e] w2].
Qed.

(** C9, as the code has it.  A status returned by
    [check_certificate_status] carries a non-empty error message exactly
    when its renewal reason is error, and every such status needs
    renewal.  The renewal step of a check pass always returns and never
    changes the renewal reason.  It leaves alone a status that does not
    ask for a renewal, or whose name no configured certificate has.
    For the others it renews the configured certificate: after a renewal
    that succeeded and was verified it clears both the renewal flag and
    the message; after a renewal that succeeded but was not verified,
    that failed, or that raised (in the renewal or in the verification),
    it keeps the renewal flag and records a non-empty message that says
    which of these happened. *)
Theorem error_message_of_evaluation_and_renewal :
  (∀ self cc w st self' w',
     check_certificate_status self cc w = (Ok (st, self'), w') →
     (opt_str_truthy (error_message st) = true ↔
      renewal_reason st = "error") ∧
     (renewal_reason st = "error" → needs_renewal st = true)) ∧
  (∀ self st w,
     ∃ st' w', renew_if_needed self st w = (Ok st', w') ∧
       renewal_reason st' = renewal_reason st ∧
       (st' = st ∨
        (needs_renewal st' = false ∧ error_message st' = None) ∨
        (needs_renewal st' = needs_renewal st ∧
         opt_str_truthy (error_message st') = true))) ∧
  (∀ self st w,
     match (if needs_renewal st then configured self st else None) with
     | None => renew_if_needed self st w = (Ok st, w)
     | Some cc =>
         ∃ st' w',
           renew_if_needed self st w = (Ok st', w') ∧
           match step_ca_client.renew_certificate (step_client self) cc w
           with
           | (Ok true, w1) =>
               match step_ca_client.verify_certificate (step_client self)
                       (config.cert_path cc) w1 with
               | (Ok true, w2) =>
                   w' = w2 ∧ needs_renewal st' = false ∧
                   error_message st' = None
               | (Ok false, w2) =>
                   w' = w2 ∧ needs_renewal st' = needs_renewal st ∧
                   error_message st' =
                     Some "Certificate verification failed after renewal"
               | (Raise e, w2) =>
                   w' = w2 ∧ needs_renewal st' = needs_renewal st ∧
                   error_message st' =
                     Some ("Exception during certificate renewal: "
                           +:+ str_exn e)
               end
           | (Ok false, w1) =>
               w' = w1 ∧ needs_renewal st' = needs_renewal st ∧
               error_message st' = Some "Certificate renewal failed"
           | (Raise e, w1) =>
               w' = w1 ∧ needs_renewal st' = needs_renewal st ∧
               error_message st' =
                 Some ("Exception during certificate renewal: "
                       +:+ str_exn e)
           end
     end).
Proof.
  split; [|split].
  - intros self cc w st self' w'. apply evaluated_error_message_iff.
  - intros self st w.
    destruct (renew_if_needed_outcome self st w)
      as (st' & w' & Hrun & Hout).
    exists st', w'. split; [done|].
    destruct Hout as [| |msg Hmsg]; simpl; split; try done.
    + by left.
    + right. by left.
    + right. right. done.
  - intros self st w. rewrite renew_if_needed_run.
    destruct (if needs_renewal st then configured self st else None)
      as [cc|]; [|done].
    destruct (step_ca_client.renew_certificate _ _ _) as [[[]|e] w1].
    + destruct (step_ca_client.verify_certificate _ _ _) as [[[]|e] w2];
        by eexists _, _.
    + by eexists _, _.
    + by eexists _, _.
Qed.

(** C5: what the monitor computes.  On an object built by the
    configuration model the attribute it reads is missing, whatever the
    percentage; on any object the result does not depend on the
    percentage of the object or of the service: it is the day count of
    the object, else the service's [default_renewal_threshold_days],
    else 30. *)
Lemma percent_threshold_is_never_converted self :
  (∀ n c k pct subj alt,
     get_effective_renewal_threshold self
       (config.mkCertificateConfig n c k pct subj alt)
     = Raise (AttributeError "renewal_threshold_days")) ∧
  (∀ cc d, config.renewal_threshold_days cc = Present (Some d) →
           get_effective_renewal_threshold self cc = Ok d) ∧
  (∀ cc, config.renewal_threshold_days cc = Present None →
         get_effective_renewal_threshold self cc =
         Ok (default 30
               (sc ← service_config self;
                config.default_renewal_threshold_days sc))).
Proof.
  repeat split.
  - intros cc d Hd. unfold get_effective_renewal_threshold. by rewrite Hd.
  - intros cc Hd. unfold get_effective_renewal_threshold. rewrite Hd.
    destruct (service_config self) as [sc|]; simpl; [|done].
    by destruct (config.default_renewal_threshold_days sc).
Qed.

(** With the attribute missing the evaluation itself raises: no status
    is returned for an object built by the configuration model. *)
Lemma evaluation_of_configured_certificate_raises self n c k pct subj alt w :
  ∃ w', check_certificate_status self
          (config.mkCertificateConfig n c k pct subj alt) w
        = (Raise (AttributeError "renewal_threshold_days"), w').
Proof.
  unfold check_certificate_status.
  unfold mbind at 1, M_bind at 1.
  destruct (load_certificate _ w) as [[[cert|]|e] w1] eqn:Hload.
  - unfold try_except, evaluate_loaded, error_status, mbind, M_bind, liftR.
    simpl. eauto.
  - unfold error_status, mbind, M_bind, liftR. simpl. eauto.
  - exfalso. revert Hload.
    unfold load_certificate, try_except, mbind, M_bind, os_path_exists,
      read_file, mret, M_ret.
    simpl. destruct (files w !! c) eqn:Hc.
    + rewrite bool_decide_eq_true_2 by eauto. by rewrite Hc.
    + rewrite bool_decide_eq_false_2; [done|]. by intros [? ?].
Qed.

End service_claims.

Section renewal_runs.
Import sample_renewal.

(** C3 fails on the EST adapter: the server accepts the re-enrollment,
    the key file cannot be written; the renewal reports failure, and the
    certificate file holds the new certificate next to the old key. *)
Lemma est_failed_renewal_replaces_certificate :
  let w := with_unwritable ["web.key"]
             (sample.world_net (web_files [Byte.x01]) est_server) in
  let r := @est_client.renew_certificate sample.lib est web w in
  fst r = Ok false ∧
  files w !! "web.crt" = Some [Byte.x01] ∧
  files (snd r) !! "web.crt" = Some [Byte.x02] ∧
  files (snd r) !! "web.key" = Some [Byte.xee] ∧
  files (snd r) !! "web.crt.backup" = Some [Byte.x01].
Proof. repeat split; vm_compute; reflexivity. Qed.

(** The token adapter on the corresponding failure: the in-place
    renewal truncates both files and fails, the fresh request fails
    too; both files are back to what they were. *)
Lemma jwk_failed_renewal_restores_files :
  let w := with_cli clobbering_cli (sample.world (web_files [Byte.x01])) in
  let r := @step_ca_client.renew_certificate sample.lib jwk_client web w in
  fst r = Ok false ∧
  files (snd r) !! "web.crt" = Some [Byte.x01] ∧
  files (snd r) !! "web.key" = Some [Byte.xee] ∧
  cli_log (snd r) =
    [["step"; "ca"; "renew"; "web.crt"; "web.key"; "--force"];
     ["step"; "ca"; "token"; "web"; "--provisioner"; "admin"]].
Proof. repeat split; vm_compute; reflexivity. Qed.

(** C4 as stated fails on the token adapter: after a successful
    renewal the certificate is new and there is no backup file. *)
Lemma jwk_successful_renewal_leaves_no_backup :
  let w := with_cli renewing_cli (sample.world (web_files [Byte.x01])) in
  let r := @step_ca_client.renew_certificate sample.lib jwk_client web w in
  fst r = Ok true ∧
  files w !! "web.crt" = Some [Byte.x01] ∧
  files (snd r) !! "web.crt" = Some [Byte.x02] ∧
  files (snd r) !! "web.crt.backup" = None.
Proof. repeat split; vm_compute; reflexivity. Qed.

(** C4 as the code has it, at work on the EST adapter. *)
Lemma backup_after_successful_renewal_witness :
  let w := sample.world_net (web_files [Byte.x01]) est_server in
  let r := @est_client.renew_certificate sample.lib est web w in
  fst r = Ok true ∧
  files (snd r) !! "web.crt" = Some [Byte.x02] ∧
  files (snd r) !! backup_path (config.cert_path web) = Some [Byte.x01].
Proof.
  cbv zeta. split; [vm_compute; reflexivity|].
  split; [vm_compute; reflexivity|].
  destruct (@est_client.renew_certificate sample.lib est web
              (sample.world_net (web_files [Byte.x01]) est_server))
    as [r w'] eqn:Hrun.
  assert (Hr : r = Ok true).
  { apply (f_equal fst) in Hrun. vm_compute in Hrun. congruence. }
  subst r.
  refine (proj1 (@backup_after_successful_renewal sample.lib)
            {| step_ca_client.config :=
                 sample.step_cfg_protocol "EST" [];
               step_ca_client.est_client := Some est;
               step_ca_client._step_cli_path := None |}
            web _ w' [Byte.x01] Hrun _ _).
  - vm_compute; reflexivity.
  - vm_compute. discriminate.
Defined.

(** C9 as stated fails after the renewal step.  A certificate 5 days
    from expiry whose renewal fails keeps the reason emergency and gets
    an error message; an unreadable certificate whose renewal succeeds
    keeps the reason error and loses its message. *)
Lemma error_message_after_renewal_counterexample :
  report (@renewal_service.check_and_renew_certificates sample.lib
            (service jwk_client)
            (sample.world (web_files [Byte.x01])))
  = Some [("emergency", true, Some "Certificate renewal failed")] ∧
  report (@renewal_service.check_and_renew_certificates sample.lib
            (service jwk_client)
            (with_cli renewing_cli (sample.world (web_files [Byte.x99]))))
  = Some [("error", false, None)].
Proof. split; vm_compute; reflexivity. Qed.

End renewal_runs.

(** ** C5: the threshold in the words of the specification *)

Section spec_threshold.

(** A certificate valid for 160 days with a 50 percent threshold: the
    specification's 80 days against the monitor, which raises on the
    configuration object and answers 30 on an object that carries no day
    count. *)
Lemma percent_threshold_divergence :
  QArith_base.Qeq
    (spec_effective_threshold_days (Some (QArith_base.inject_Z 50)) None 30
       0 (sample.day 160)) (QArith_base.inject_Z 80) ∧
  certificate_monitor.get_effective_renewal_threshold sample.monitor_no_crl
    (config.mkCertificateConfig "web" "web.crt" "web.key"
       (Some (QArith_base.inject_Z 50)) "web" [])
  = Raise (AttributeError "renewal_threshold_days") ∧
  certificate_monitor.get_effective_renewal_threshold sample.monitor_no_crl
    {| config.name := "web"; config.cert_path := "web.crt";
       config.key_path := "web.key";
       config.renewal_threshold_percent := Some (QArith_base.inject_Z 50);
       config.subject := "web"; config.sans := [];
       config.renewal_threshold_days := Present None |}
  = Ok 30.
Proof. repeat split. Qed.

End spec_threshold.

(** * Further properties of the code *)

(** ** crl_manager.py *)

Section crl_more.
Context `{Lib}.
Import crl_manager.

Hypothesis set_iter_NoDup : ∀ l, NoDup (set_iter l).
Hypothesis set_iter_elem : ∀ l x, x ∈ set_iter l ↔ x ∈ l.

(** X1. [download_crl] never raises and sends exactly one GET request,
    through the session; it returns a body exactly when the server
    answered with a status outside 400..599 and a body that is not
    empty, and that body is the one returned. *)
Theorem download_crl_outcome self u w :
  ∃ body,
    download_crl self u w =
      (Ok body, set_http_log (http_log w ++ [crl_request self u]) w) ∧
    ∀ data, body = Some data ↔
      ∃ resp, http_server w (length (http_log w)) (crl_request self u)
                = Ok resp ∧
              ¬ (400 ≤ status_code resp < 600) ∧
              content resp = data ∧ data ≠ [].
Proof.
  eexists. split; [apply download_crl_run|].
  intros data. unfold download_result.
  destruct (http_server w _ _) as [resp|e].
  - destruct (Z.leb_spec 400 (status_code resp));
      destruct (Z.ltb_spec (status_code resp) 600); simpl.
    1: { split; [done|]. intros (r & [= <-] & Hn & _). lia. }
    all: destruct (content resp) as [|b bs] eqn:Hc; split;
      try done; try (intros (r & [= <-] & _ & Hd & Hne); congruence).
    all: intros [= <-]; exists resp; repeat split; try done; lia.
  - split; [done|]. by intros (r & [=] & _).
Qed.




Lemma grows_refl self : grows self self.
Proof. by intros v. Qed.

Lemma grows_trans s1 s2 s3 : grows s1 s2 → grows s2 s3 → grows s1 s3.
Proof.
  intros H12 H23 v. destruct (H12 v) as (? & ? & ?).
  destruct (H23 v) as (? & ? & ?). repeat split; auto.
Qed.

Lemma grows_set_crl_cache self u c :
  grows self (set_crl_cache (<[u := c]> (_crl_cache self)) self).
Proof.
  intros v. repeat split; simpl; try done.
  intros Hv. rewrite lookup_insert_is_Some. destruct (decide (u = v)); eauto.
Qed.

Lemma grows_set_last_download_time self u t :
  grows self
    (set_last_download_time (<[u := t]> (_last_download_time self)) self).
Proof.
  intros v. repeat split; simpl; try done.
  intros Hv. rewrite lookup_insert_is_Some. destruct (decide (u = v)); eauto.
Qed.

Lemma grows_set_crl_info_cache self u i :
  grows self (set_crl_info_cache (<[u := i]> (_crl_info_cache self)) self).
Proof.
  intros v. repeat split; simpl; try done.
  intros Hv. rewrite lookup_insert_is_Some. destruct (decide (u = v)); eauto.
Qed.

Lemma fallback_to_file_kept self u w oc self' w' :
  fallback_to_file self u w = (Ok (oc, self'), w') →
  grows self self' ∧ _crl_info_cache self' = _crl_info_cache self.
Proof.
  rewrite fallback_to_file_run.
  destruct (file_crl w _) as [c|]; [destruct (x509.crl_truthy c)|];
    intros [= <- <- <-]; (split; [|done]);
    [apply grows_set_crl_cache | apply grows_refl..].
Qed.

(** One call of [refresh_crl]: no cache loses an entry, and cached
    information stays filed under its URL. *)
Lemma refresh_crl_kept self u w oc self' w' :
  refresh_crl self u w = (Ok (oc, self'), w') →
  grows self self' ∧ (info_filed self → info_filed self').
Proof.
  rewrite refresh_crl_run. simpl.
  destruct (recently_downloaded self _ u) as [c|].
  { intros [= <- <- <-]. split; [apply grows_refl | done]. }
  destruct (download_result _) as [data|].
  - pose proof (grows_set_last_download_time self u (clock w (ticks w)))
      as Hg1.
    set (self1 := set_last_download_time _ self) in *.
    destruct (parse_crl data) as [c|].
    + intros [= <- <- <-]. split.
      * eapply grows_trans; [exact Hg1|].
        eapply grows_trans; [apply (grows_set_crl_cache self1 u c)|].
        apply (grows_set_crl_info_cache
                 (set_crl_cache (<[u:=c]> (_crl_cache self1)) self1)).
      * intros Hf v i. simpl. rewrite lookup_insert.
        case_decide; [by intros [= <-]; subst | apply Hf].
    + intros Heq. apply fallback_to_file_kept in Heq as [Hg Hi].
      split; [by eapply grows_trans|].
      intros Hf v i. rewrite Hi. apply Hf.
  - destruct (_crl_cache self !! u) as [c|].
    + intros [= <- <- <-]. split; [apply grows_refl | done].
    + intros Heq. apply fallback_to_file_kept in Heq as [Hg Hi].
      split; [done|]. intros Hf v i. rewrite Hi. apply Hf.
Qed.

Lemma tried_without_match_kept cert us s s' :
  tried_without_match cert us s s' →
  grows (fst s) (fst s') ∧ (info_filed (fst s) → info_filed (fst s')).
Proof.
  induction 1 as [s|u us self w oc self1 w1 s' Hr Hl Ht IH]; simpl.
  - split; [apply grows_refl | done].
  - apply refresh_crl_kept in Hr as [Hg Hf]. destruct IH as [Hg' Hf'].
    split; [by eapply grows_trans | auto].
Qed.

Lemma check_certificate_revocation_kept self cert w st self' w' :
  check_certificate_revocation self cert w = (Ok (st, self'), w') →
  grows self self' ∧ (info_filed self → info_filed self').
Proof.
  destruct (config.crl_enabled (config self)) eqn:Hen.
  - rewrite check_certificate_revocation_eq by done. intros Hrun.
    destruct (check_crls_run self cert
                (set_iter (crl_url_insertions self cert)) w)
      as (st0 & self0 & w0 & Hrun0 & Hcases).
    rewrite Hrun in Hrun0. inv Hrun0.
    destruct Hcases
      as [(tried & v & rest & s1 & w1 & c1 & rc & w2 & _ & Ht & Hr & _)
         |(w1 & Ht & _)].
    + apply tried_without_match_kept in Ht as [Hg Hf].
      apply refresh_crl_kept in Hr as [Hg' Hf']. simpl in *.
      split; [by eapply grows_trans | auto].
    + by apply tried_without_match_kept in Ht.
  - unfold check_certificate_revocation. rewrite Hen. simpl.
    intros [= <- <- <-]. split; [apply grows_refl | done].
Qed.

(** X3. The caches of a CRL manager are additive: whatever calls of
    [refresh_crl] and [check_certificate_revocation] are made, in
    whatever worlds, a URL that has an in-memory CRL, a cached
    information or a download time keeps one. *)
Theorem caches_only_grow m m' :
  reachable m m' → grows m m'.
Proof.
  induction 1 as [|m1 u w oc m2 w' _ IH Hr|m1 cert w st m2 w' _ IH Hc].
  - apply grows_refl.
  - apply refresh_crl_kept in Hr as [Hg _]. by eapply grows_trans.
  - apply check_certificate_revocation_kept in Hc as [Hg _].
    by eapply grows_trans.
Qed.

(** X4. A download that succeeds but whose bytes neither parser accepts
    makes [refresh_crl] return no CRL, whatever is in memory for the
    URL: the bytes have already replaced the cache file (when it can be
    written), so the file gives nothing to fall back to.  The in-memory
    CRLs are left as they were and the time of the download is
    recorded. *)
Theorem unparsable_download_replaces_cache_file self u w data :
  recently_downloaded self (clock w (ticks w)) u = None →
  download_result
    (http_server w (length (http_log w)) (crl_request self u))
    = Some data →
  parse_crl data = None →
  cache_file self u ∉ unwritable w →
  ∃ self' w',
    refresh_crl self u w = (Ok (None, self'), w') ∧
    files w' !! cache_file self u = Some data ∧
    _crl_cache self' = _crl_cache self ∧
    _last_download_time self' !! u = Some (clock w (ticks w)).
Proof.
  intros Hrec Hdl Hparse Hw. rewrite refresh_crl_run. simpl.
  rewrite Hrec, Hdl, Hparse. rewrite fallback_to_file_run.
  unfold file_crl, saved, cache_file in *. simpl.
  rewrite bool_decide_eq_false_2 by done. simpl.
  rewrite lookup_insert_eq, Hparse.
  eexists _, _. split; [done|]. simpl.
  by rewrite !lookup_insert_eq.
Qed.

(** X5. A download whose bytes parse makes [refresh_crl] return the
    parsed CRL, keep it in memory, record the time of the download and
    file the information of the CRL (its URL, its cache path, its number
    of entries) under the URL; the bytes are in the cache file when the
    file can be written, and a cache file that cannot be written does
    not keep the CRL from being used. *)
Theorem parsed_download_is_cached self u w data c :
  recently_downloaded self (clock w (ticks w)) u = None →
  download_result
    (http_server w (length (http_log w)) (crl_request self u))
    = Some data →
  parse_crl data = Some c →
  ∃ self' w' info,
    refresh_crl self u w = (Ok (Some c, self'), w') ∧
    _crl_cache self' !! u = Some c ∧
    _last_download_time self' !! u = Some (clock w (ticks w)) ∧
    _crl_info_cache self' !! u = Some info ∧
    url info = u ∧ file_path info = cache_file self u ∧
    revoked_count info = length (x509.revoked c) ∧
    (cache_file self u ∉ unwritable w →
     files w' !! cache_file self u = Some data) ∧
    (cache_file self u ∈ unwritable w → files w' = files w).
Proof.
  intros Hrec Hdl Hparse. rewrite refresh_crl_run. simpl.
  rewrite Hrec, Hdl, Hparse. eexists _, _, _. split; [done|]. simpl.
  rewrite !lookup_insert_eq. repeat split.
  - intros Hw. unfold saved, cache_file in *.
    rewrite bool_decide_eq_false_2 by done. simpl.
    by rewrite lookup_insert_eq.
  - intros Hw. unfold saved, cache_file in *.
    by rewrite bool_decide_eq_true_2.
Qed.





Lemma fallback_to_file_returns_cached self u w c self' w' :
  fallback_to_file self u w = (Ok (Some c, self'), w') →
  _crl_cache self' !! u = Some c.
Proof.
  rewrite fallback_to_file_run.
  destruct (file_crl _ _) as [c0|]; [destruct (x509.crl_truthy c0)|];
    intros [= <- <- <-]. simpl. by rewrite lookup_insert_eq.
Qed.

Lemma refresh_crl_returns_cached self u w c self' w' :
  refresh_crl self u w = (Ok (Some c, self'), w') →
  _crl_cache self' !! u = Some c.
Proof.
  rewrite refresh_crl_run. simpl.
  destruct (recently_downloaded self _ u) as [c0|] eqn:Hrec.
  { intros [= <- <- <-]. unfold recently_downloaded in Hrec.
    destruct (_last_download_time self !! u); [|done].
    by destruct (_ <? _). }
  destruct (download_result _) as [data|].
  - destruct (parse_crl data).
    + intros [= <- <- <-]. simpl. by rewrite lookup_insert_eq.
    + apply fallback_to_file_returns_cached.
  - destruct (_crl_cache self !! u) eqn:Hc.
    + by intros [= <- <- <-].
    + apply fallback_to_file_returns_cached.
Qed.

(** X7. The status of a revocation check is one of two shapes.  "Not
    revoked" carries no date, no reason and no source.  "Revoked" names
    as its source one of the URLs of the check; the CRL kept in memory
    for that URL after the check has an entry with the serial number of
    the certificate, and the date of the status is that of the entry.
    The reason of the status is "Unspecified" whatever reason the entry
    carries: the look-up of the reason reads an attribute that the class
    [ExtensionOID] does not have, and the error is passed over. *)
Theorem revocation_status_shape self cert w st self' w' :
  check_certificate_revocation self cert w = (Ok (st, self'), w') →
  (is_revoked st = false ∧ revocation_date st = None ∧
   revocation_reason st = None ∧ crl_source st = None) ∨
  (is_revoked st = true ∧
   ∃ u c rc,
     crl_source st = Some u ∧
     u ∈ crl_url_insertions self cert ∧
     _crl_cache self' !! u = Some c ∧
     rc ∈ x509.revoked c ∧
     x509.revoked_serial_number rc = x509.serial_number cert ∧
     revocation_date st = Some (x509.revocation_date_utc rc) ∧
     revocation_reason st = Some "Unspecified").
Proof.
  destruct (config.crl_enabled (config self)) eqn:Hen.
  - rewrite check_certificate_revocation_eq by done. intros Hrun.
    destruct (check_crls_run self cert
                (set_iter (crl_url_insertions self cert)) w)
      as (st0 & self0 & w0 & Hrun0 & Hcases).
    rewrite Hrun in Hrun0. inv Hrun0.
    destruct Hcases
      as [(tried & u & rest & s1 & w1 & c & rc & w2 & Hu & _ & Hr & Hf
            & -> & _)
         |(w1 & _ & -> & _)]; [right|by left].
    split; [done|]. exists u, c, rc. split; [done|].
    split. { apply set_iter_elem. rewrite Hu, elem_of_app. right. left. }
    split; [by eapply refresh_crl_returns_cached|].
    apply find_some in Hf as [Hin Heq].
    split; [by apply list_elem_of_In|].
    split; [by apply Z.eqb_eq|].
    split; [done|]. simpl. unfold reason_name.
    by destruct (x509.crl_reason rc).
  - unfold check_certificate_revocation. rewrite Hen. simpl.
    intros [= <- <- <-]. by left.
Qed.

Lemma reachable_info_filed m m' :
  info_filed m → reachable m m' → info_filed m'.
Proof.
  intros Hf. induction 1 as [|m1 u w oc m2 w' _ IH Hr|m1 c w st m2 w' _ IH Hc].
  - done.
  - apply refresh_crl_kept in Hr as [_ Hk]. auto.
  - apply check_certificate_revocation_kept in Hc as [_ Hk]. auto.
Qed.

Lemma init_info_cache cfg w m w0 :
  __init__ cfg w = (Ok m, w0) → _crl_info_cache m = ∅.
Proof.
  unfold __init__, mbind, M_bind, os_makedirs, os_path_exists, mret, M_ret,
    raise.
  destruct (str_truthy (config.crl_cache_dir cfg));
    destruct (config.root_cert_path cfg) as [p|];
    try destruct (str_truthy p); simpl; by intros [= <- <-].
Qed.

(** X8. The CRL status report of a manager, however it was used since
    its construction, has one entry for each configured CRL URL, each
    URL once, in the iteration order of the set they are collected in:
    the cached information of the URL, filed under that URL, when a CRL
    was downloaded and parsed for it, and the mark "not loaded"
    otherwise.  A CRL that is known only through the distribution point
    of a certificate has no entry. *)
Theorem crl_status_report_entries cfg w m w0 self :
  __init__ cfg w = (Ok m, w0) →
  reachable m self →
  let urls := default [] (config.crl_urls (config self)) in
  let entries := crls (get_crl_status_report self) in
  entry_url <$> entries = set_iter urls ∧
  NoDup (entry_url <$> entries) ∧
  (∀ u, u ∈ entry_url <$> entries ↔ u ∈ urls) ∧
  ∀ e, e ∈ entries →
    match e with
    | Loaded i => _crl_info_cache self !! url i = Some i
    | NotLoaded u => _crl_info_cache self !! u = None
    end.
Proof.
  intros Hinit Hreach urls entries.
  assert (Hf : info_filed self).
  { eapply reachable_info_filed; [|exact Hreach].
    intros v i. by rewrite (init_info_cache _ _ _ _ Hinit), lookup_empty. }
  assert (Hurls : entry_url <$> entries = set_iter urls).
  { subst entries. unfold get_crl_status_report. simpl.
    fold urls. rewrite <- list_fmap_compose.
    rewrite <- (list_fmap_id (set_iter urls)) at 2.
    apply list_fmap_ext. intros _ u _. simpl.
    destruct (_crl_info_cache self !! u) as [i|] eqn:Hi; [|done].
    simpl. by apply Hf. }
  split; [done|]. rewrite Hurls.
  split; [apply set_iter_NoDup|]. split; [apply set_iter_elem|].
  intros e He. subst entries. unfold get_crl_status_report in He.
  simpl in He. apply list_elem_of_fmap in He as (u & -> & _).
  destruct (_crl_info_cache self !! u) as [i|] eqn:Hi; [|done].
  by rewrite (Hf _ _ Hi).
Qed.

End crl_more.

Section crl_more_runs.
Import crl_manager sample_renewal.

Lemma caches_only_grow_witness :
  ∃ c m1 w1 st m2 w2,
    @refresh_crl sample.lib (sample.manager [a_crl]) a_crl
      (serving_a [Byte.x11]) = (Ok (Some c, m1), w1) ∧
    @check_certificate_revocation sample.lib m1
      (sample.cert_of (sample.day 160) 8 [b_crl]) (sample.world ∅)
      = (Ok (st, m2), w2) ∧
    grows m1 m2.
Proof.
  eexists _, _, _, _, _, _.
  split; [vm_compute; reflexivity|].
  split; [vm_compute; reflexivity|].
  apply (@caches_only_grow sample.lib).
  eapply (@reach_check sample.lib _ _
            (sample.cert_of (sample.day 160) 8 [b_crl]) (sample.world ∅));
    [apply reach_here | vm_compute; reflexivity].
Defined.

Lemma unparsable_download_replaces_cache_file_witness :
  let self := sample.manager [a_crl] in
  let w := serving_a [Byte.x77] in
  ∃ self' w',
    @refresh_crl sample.lib self a_crl w = (Ok (None, self'), w') ∧
    files w' !! @cache_file sample.lib self a_crl = Some [Byte.x77] ∧
    _crl_cache self' = _crl_cache self ∧
    _last_download_time self' !! a_crl = Some (clock w (ticks w)).
Proof.
  apply (@unparsable_download_replaces_cache_file sample.lib
           (sample.manager [a_crl]) a_crl (serving_a [Byte.x77])
           [Byte.x77]);
    [vm_compute; reflexivity.. | by intros Hx%elem_of_nil].
Defined.

Lemma parsed_download_is_cached_witness :
  let self := sample.manager [a_crl] in
  let w := serving_a [Byte.x11] in
  let c := sample.crl_of [(7, Some "keyCompromise")] in
  ∃ self' w' info,
    @refresh_crl sample.lib self a_crl w = (Ok (Some c, self'), w') ∧
    _crl_cache self' !! a_crl = Some c ∧
    _last_download_time self' !! a_crl = Some (clock w (ticks w)) ∧
    _crl_info_cache self' !! a_crl = Some info ∧
    url info = a_crl ∧
    file_path info = @cache_file sample.lib self a_crl ∧
    revoked_count info = length (x509.revoked c) ∧
    (@cache_file sample.lib self a_crl ∉ unwritable w →
     files w' !! @cache_file sample.lib self a_crl = Some [Byte.x11]) ∧
    (@cache_file sample.lib self a_crl ∈ unwritable w →
     files w' = files w).
Proof.
  apply (@parsed_download_is_cached sample.lib
           (sample.manager [a_crl]) a_crl (serving_a [Byte.x11])
           [Byte.x11] (sample.crl_of [(7, Some "keyCompromise")]));
    vm_compute; reflexivity.
Defined.


Lemma revocation_status_shape_witness :
  let self := sample.manager [a_crl] in
  let cert := sample.cert_of (sample.day 160) 7 [] in
  ∃ st self' w',
    @check_certificate_revocation sample.lib self cert
      (serving_a [Byte.x11]) = (Ok (st, self'), w') ∧
    ((is_revoked st = false ∧ revocation_date st = None ∧
      revocation_reason st = None ∧ crl_source st = None) ∨
     (is_revoked st = true ∧
      ∃ u c rc,
        crl_source st = Some u ∧
        u ∈ crl_url_insertions self cert ∧
        _crl_cache self' !! u = Some c ∧
        rc ∈ x509.revoked c ∧
        x509.revoked_serial_number rc = x509.serial_number cert ∧
        revocation_date st = Some (x509.revocation_date_utc rc) ∧
        revocation_reason st = Some "Unspecified")).
Proof.
  cbv zeta.
  destruct (@check_certificate_revocation sample.lib
              (sample.manager [a_crl])
              (sample.cert_of (sample.day 160) 7 [])
              (serving_a [Byte.x11])) as [[[st self']|e] w'] eqn:Hrun.
  - exists st, self', w'. split; [done|].
    exact (@revocation_status_shape sample.lib first_seen_elem
             _ _ _ _ _ _ Hrun).
  - vm_compute in Hrun. inversion Hrun.
Defined.

Lemma crl_status_report_entries_witness :
  ∃ m w0 c self w1,
    __init__ (sample.step_cfg [b_crl; a_crl; b_crl]) (sample.world ∅)
      = (Ok m, w0) ∧
    @refresh_crl sample.lib m a_crl (serving_a [Byte.x11])
      = (Ok (Some c, self), w1) ∧
    let urls := default [] (config.crl_urls (config self)) in
    let entries := crls (@get_crl_status_report sample.lib self) in
    entry_url <$> entries = @set_iter sample.lib urls ∧
    NoDup (entry_url <$> entries) ∧
    (∀ u, u ∈ entry_url <$> entries ↔ u ∈ urls) ∧
    ∀ e, e ∈ entries →
      match e with
      | Loaded i => _crl_info_cache self !! url i = Some i
      | NotLoaded u => _crl_info_cache self !! u = None
      end.
Proof.
  eexists _, _, _, _, _.
  split; [vm_compute; reflexivity|].
  split; [vm_compute; reflexivity|].
  eapply (@crl_status_report_entries sample.lib
            first_seen_NoDup first_seen_elem
            (sample.step_cfg [b_crl; a_crl; b_crl]) (sample.world ∅)).
  - vm_compute; reflexivity.
  - eapply (@reach_refresh sample.lib _ _ a_crl (serving_a [Byte.x11]));
      [apply reach_here | vm_compute; reflexivity].
Defined.

End crl_more_runs.

Section monitor_more.
Context `{Lib}.
Import certificate_monitor.

Lemma load_certificate_run p w :
  load_certificate p w = (Ok (file_cert w p), w).
Proof.
  unfold load_certificate, file_cert, try_except, mbind, M_bind,
    os_path_exists, read_file, mret, M_ret.
  destruct (files w !! p) as [b|] eqn:Hp.
  - rewrite bool_decide_eq_true_2 by eauto. by rewrite Hp.
  - rewrite bool_decide_eq_false_2; [done|]. by intros [? ?].
Qed.

Lemma threshold_total self cc :
  carries_threshold cc = true →
  ∃ T, get_effective_renewal_threshold self cc = Ok T.
Proof.
  unfold carries_threshold, get_effective_renewal_threshold.
  destruct (config.renewal_threshold_days cc) as [|[d|]]; [done|eauto|].
  intros _. destruct (service_config self) as [sc|]; [|eauto].
  destruct (config.default_renewal_threshold_days sc); eauto.
Qed.

Lemma threshold_absent self cc :
  carries_threshold cc = false →
  get_effective_renewal_threshold self cc =
    Raise (AttributeError "renewal_threshold_days").
Proof.
  unfold carries_threshold, get_effective_renewal_threshold.
  by destruct (config.renewal_threshold_days cc).
Qed.

(** The evaluation of a certificate that loads, when the threshold can
    be read: two readings of the clock, then the revocation check when
    there is a manager and the second reading is inside the validity
    period. *)
Lemma check_loaded_cases self cc cert w T :
  file_cert w (config.cert_path cc) = Some cert →
  get_effective_renewal_threshold self cc = Ok T →
  let now1 := clock w (ticks w) in
  let now2 := clock w (S (ticks w)) in
  let d := timedelta_days (x509.not_valid_after cert - now1) in
  let tv := (x509.not_valid_before cert <=? now2) &&
            (now2 <=? x509.not_valid_after cert) in
  ∃ rv info self' w',
    check_certificate_status self cc w =
      (Ok ({| name := config.name cc; cert_path := config.cert_path cc;
              is_valid := tv && negb rv;
              expires_at := Some (x509.not_valid_after cert);
              days_until_expiry := Some d;
              needs_renewal := if rv then true else d <=? T;
              renewal_threshold_days := T;
              renewal_reason := urgency (service_config self) d (d <=? T);
              is_revoked := rv; revocation_info := info;
              error_message := None |}, self'), w') ∧
    (((monitor_crl_manager self = None ∨ tv = false) ∧
      rv = false ∧ info = None ∧ self' = self ∧ w' = later 2 w)
     ∨
     (∃ mgr i mgr',
        monitor_crl_manager self = Some mgr ∧ tv = true ∧
        crl_manager.check_certificate_revocation mgr cert (later 2 w)
          = (Ok (i, mgr'), w') ∧
        rv = crl_manager.is_revoked i ∧ info = Some i ∧
        self' = {| service_config := service_config self;
                   monitor_crl_manager := Some mgr' |})).
Proof.
  intros Hfile HT now1 now2 d tv.
  unfold check_certificate_status. unfold mbind at 1, M_bind at 1.
  rewrite load_certificate_run, Hfile.
  unfold try_except, evaluate_loaded.
  unfold mbind at 1, M_bind at 1, liftR. rewrite HT.
  unfold check_certificate_expiry, mbind, M_bind, datetime_now, mret, M_ret.
  simpl. fold now1 now2 d tv.
  change (set_ticks (S (S (ticks w))) (set_ticks (S (ticks w)) w))
    with (later 2 w).
  destruct (monitor_crl_manager self) as [mgr|] eqn:Hm.
  - destruct tv eqn:Htv.
    + destruct (crl_manager.check_certificate_revocation mgr cert (later 2 w))
        as [r w3] eqn:Hc.
      destruct (check_certificate_revocation_effect _ _ _ _ _ Hc)
        as (_ & i & mgr' & -> & _).
      simpl.
      exists (crl_manager.is_revoked i), (Some i),
        {| service_config := service_config self;
           monitor_crl_manager := Some mgr' |}, w3.
      split; [reflexivity|]. right. exists mgr, i, mgr'. done.
    + exists false, None, self, (later 2 w).
      split; [reflexivity|]. left. split; [by right | done].
  - exists false, None, self, (later 2 w).
    split; [reflexivity|]. left. split; [by left | done].
Qed.

(** X9. A certificate file that is missing, or that parses neither as
    PEM nor as DER, never reaches the evaluation.  When the renewal
    threshold of the configuration can be read, the failure is reported,
    not raised: the status is the error status with the message "Failed
    to load certificate", and it asks for a renewal.  When reading the
    threshold raises, as it does with [AttributeError] on an object of
    the [CertificateConfig] class of config.py, that exception leaves
    [check_certificate_status].  Either way neither the clock, the files
    nor the network were touched. *)
Theorem unloadable_certificate_is_reported self cc w :
  file_cert w (config.cert_path cc) = None →
  check_certificate_status self cc w =
    match get_effective_renewal_threshold self cc with
    | Ok T => (Ok (load_failure cc T, self), w)
    | Raise e => (Raise e, w)
    end.
Proof.
  intros Hfile. unfold check_certificate_status.
  unfold mbind at 1, M_bind at 1. rewrite load_certificate_run, Hfile.
  unfold error_status, mbind, M_bind, liftR.
  by destruct (get_effective_renewal_threshold self cc).
Qed.

(** X10. A certificate that loads, under a configuration whose renewal
    threshold can be read, is always given a status without an error: it
    carries the name and the path of the configuration, the end of
    validity of the certificate, the whole days left at the first
    reading of the clock, and it is valid exactly when the second
    reading of the clock lies inside the validity period and the
    certificate is not revoked.  When reading the threshold raises, as
    it does with [AttributeError] on an object of the
    [CertificateConfig] class of config.py, that exception leaves
    [check_certificate_status] before the clock is read. *)
Theorem loaded_certificate_status self cc cert w :
  file_cert w (config.cert_path cc) = Some cert →
  match get_effective_renewal_threshold self cc with
  | Ok T =>
      ∃ st self' w',
        check_certificate_status self cc w = (Ok (st, self'), w') ∧
        name st = config.name cc ∧ cert_path st = config.cert_path cc ∧
        expires_at st = Some (x509.not_valid_after cert) ∧
        days_until_expiry st =
          Some (timedelta_days
                  (x509.not_valid_after cert - clock w (ticks w))) ∧
        renewal_threshold_days st = T ∧
        error_message st = None ∧
        (is_valid st = true ↔
         time_valid cert (clock w (S (ticks w))) ∧
         is_revoked st = false) ∧
        service_config self' = service_config self
  | Raise e => check_certificate_status self cc w = (Raise e, w)
  end.
Proof.
  intros Hfile.
  destruct (get_effective_renewal_threshold self cc) as [T|e] eqn:HT.
  - destruct (check_loaded_cases self cc cert w T Hfile HT)
      as (rv & info & self' & w' & Hrun & Hcases).
    eexists _, _, _. split; [exact Hrun|]. simpl.
    do 6 (split; [done|]). split.
    + unfold time_valid.
      rewrite andb_true_iff, andb_true_iff, !Z.leb_le, negb_true_iff.
      done.
    + destruct Hcases
        as [(_ & _ & _ & -> & _)|(? & ? & ? & _ & _ & _ & _ & _ & ->)];
        done.
  - unfold check_certificate_status.
    unfold mbind at 1, M_bind at 1. rewrite load_certificate_run, Hfile.
    unfold try_except, evaluate_loaded, error_status, mbind, M_bind, liftR.
    by rewrite HT.
Qed.

(** X11. The revocation of a certificate is looked up exactly when the
    monitor has a CRL manager and the certificate is inside its validity
    period: otherwise the status says "not revoked" without revocation
    information, and the evaluation has only read the clock twice;
    in that case the status carries the answer of the manager. *)
Theorem revocation_looked_up_when_time_valid self cc cert w T st self' w' :
  file_cert w (config.cert_path cc) = Some cert →
  get_effective_renewal_threshold self cc = Ok T →
  check_certificate_status self cc w = (Ok (st, self'), w') →
  (monitor_crl_manager self = None ∨
   ¬ time_valid cert (clock w (S (ticks w))) →
   is_revoked st = false ∧ revocation_info st = None ∧
   self' = self ∧ w' = later 2 w) ∧
  (∀ mgr, monitor_crl_manager self = Some mgr →
     time_valid cert (clock w (S (ticks w))) →
     ∃ info mgr',
       crl_manager.check_certificate_revocation mgr cert (later 2 w)
         = (Ok (info, mgr'), w') ∧
       revocation_info st = Some info ∧
       is_revoked st = crl_manager.is_revoked info ∧
       needs_renewal st =
         crl_manager.is_revoked info ||
         (timedelta_days (x509.not_valid_after cert - clock w (ticks w))
            <=? T) ∧
       monitor_crl_manager self' = Some mgr').
Proof.
  intros Hfile HT Hrun.
  destruct (check_loaded_cases self cc cert w T Hfile HT)
    as (rv & info & self1 & w1 & Hrun1 & Hcases).
  rewrite Hrun in Hrun1. inv Hrun1. simpl.
  assert (Htv : ∀ b, ((x509.not_valid_before cert <=? clock w (S (ticks w)))
                  && (clock w (S (ticks w)) <=? x509.not_valid_after cert))
                 = b →
                 (b = true ↔ time_valid cert (clock w (S (ticks w))))).
  { intros b <-. unfold time_valid.
    by rewrite andb_true_iff, !Z.leb_le. }
  destruct Hcases
    as [(Hno & -> & -> & -> & ->)
       |(mgr & i & mgr' & Hm & Ht & Hc & -> & -> & ->)].
  - split; [done|]. intros mgr Hm Hv.
    destruct Hno as [Hno|Hno]; [congruence|].
    apply (Htv _ Hno) in Hv. done.
  - split.
    + intros [Hno|Hno]; [congruence|].
      destruct Hno. by apply (Htv _ Ht).
    + intros mgr0 Hm0 _. assert (mgr0 = mgr) as -> by congruence.
      exists i, mgr'. split; [done|]. split; [done|]. split; [done|].
      split; [|done]. by destruct (crl_manager.is_revoked i).
Qed.

Lemma check_without_threshold self cc w :
  carries_threshold cc = false →
  check_certificate_status self cc w =
    (Raise (AttributeError "renewal_threshold_days"), w).
Proof.
  intros Habs. unfold check_certificate_status.
  unfold mbind at 1, M_bind at 1. rewrite load_certificate_run.
  destruct (file_cert w _) as [cert|].
  - unfold try_except, evaluate_loaded, error_status, mbind, M_bind, liftR.
    by rewrite (threshold_absent self cc Habs).
  - unfold error_status, mbind, M_bind, liftR.
    by rewrite (threshold_absent self cc Habs).
Qed.

Lemma check_with_threshold self cc w :
  carries_threshold cc = true →
  ∃ st self' w',
    check_certificate_status self cc w = (Ok (st, self'), w') ∧
    name st = config.name cc ∧ cert_path st = config.cert_path cc ∧
    service_config self' = service_config self.
Proof.
  intros Hc. destruct (threshold_total self cc Hc) as [T HT].
  destruct (file_cert w (config.cert_path cc)) as [cert|] eqn:Hfile.
  - destruct (check_loaded_cases self cc cert w T Hfile HT)
      as (rv & info & self' & w' & Hrun & Hcases).
    eexists _, _, _. split; [exact Hrun|]. simpl.
    split; [done|]. split; [done|].
    by destruct Hcases
      as [(_ & _ & _ & -> & _)|(? & ? & ? & _ & _ & _ & _ & _ & ->)].
  - exists (load_failure cc T), self, w. split; [|done].
    unfold check_certificate_status.
    unfold mbind at 1, M_bind at 1. rewrite load_certificate_run, Hfile.
    unfold error_status, mbind, M_bind, liftR. by rewrite HT.
Qed.

(** X12. [check_all_certificates] evaluates the configurations in
    order.  When every one of them has the attribute
    [renewal_threshold_days] it returns one status for each, in that
    order, under the name and the path of its configuration; when one of
    them lacks the attribute the whole call raises [AttributeError] and
    no status is returned, also for the certificates evaluated before
    it. *)
Theorem check_all_certificates_in_order ccs :
  (forallb carries_threshold ccs = true →
   ∀ self w, ∃ sts self' w',
     check_all_certificates self ccs w = (Ok (sts, self'), w') ∧
     name <$> sts = config.name <$> ccs ∧
     cert_path <$> sts = config.cert_path <$> ccs ∧
     service_config self' = service_config self) ∧
  (forallb carries_threshold ccs = false →
   ∀ self w, ∃ w',
     check_all_certificates self ccs w =
       (Raise (AttributeError "renewal_threshold_days"), w')).
Proof.
  induction ccs as [|cc ccs [IHok IHraise]]; simpl.
  - split; [|done]. intros _ self w. by exists [], self, w.
  - destruct (carries_threshold cc) eqn:Hc; simpl; split; try done.
    + intros Hall self w.
      destruct (check_with_threshold self cc w Hc)
        as (st & self1 & w1 & Hrun & Hn & Hp & Hs).
      destruct (IHok Hall self1 w1) as (sts & self2 & w2 & Hrest & Hns & Hps & Hs2).
      exists (st :: sts), self2, w2.
      unfold mbind at 1, M_bind at 1. rewrite Hrun. simpl.
      unfold mbind at 1, M_bind at 1. rewrite Hrest. simpl.
      split; [done|]. split; [by f_equal|]. split; [by f_equal|].
      congruence.
    + intros Hall self w.
      destruct (check_with_threshold self cc w Hc)
        as (st & self1 & w1 & Hrun & _).
      destruct (IHraise Hall self1 w1) as (w2 & Hrest).
      exists w2. unfold mbind at 1, M_bind at 1. rewrite Hrun. simpl.
      unfold mbind at 1, M_bind at 1. by rewrite Hrest.
    + intros _ self w. exists w.
      unfold mbind at 1, M_bind at 1.
      by rewrite (check_without_threshold self cc w Hc).
Qed.

Lemma urgency_emergency sc d b :
  urgency sc d b = "emergency" ↔
  ∃ c, sc = Some c ∧
       d ≤ default 7 (config.emergency_renewal_threshold_days c).
Proof.
  unfold urgency. destruct sc as [c|].
  - destruct (d <=? _) eqn:He.
    + apply Z.leb_le in He. split; [eauto|done].
    + apply Z.leb_gt in He. split.
      * by destruct (d <=? _), b.
      * intros (c' & [= <-] & Hle). lia.
  - split; [by destruct b | by intros (? & ? & _)].
Qed.

Lemma urgency_valid sc d b :
  urgency sc d b = "valid" ↔
  b = false ∧
  match sc with
  | Some c => default 14 (config.warning_threshold_days c) < d ∧
              default 7 (config.emergency_renewal_threshold_days c) < d
  | None => True
  end.
Proof.
  unfold urgency. destruct sc as [c|].
  - destruct (d <=? default 7 _) eqn:He;
      [apply Z.leb_le in He | apply Z.leb_gt in He].
    + split; [done | intros (_ & _ & ?); lia].
    + destruct (d <=? default 14 _) eqn:Hw;
        [apply Z.leb_le in Hw | apply Z.leb_gt in Hw].
      * split; [by destruct b | intros (_ & ? & _); lia].
      * destruct b; split; try done; by intros [? _].
  - destruct b; split; try done; by intros [? _].
Qed.

(** X13. The time-based part of the evaluation is monotone in the
    clock: at a later instant the certificate has no more whole days
    left, a certificate that was due is still due, one whose reason was
    "emergency" still has it, and only a certificate whose reason was
    "valid" can have the reason "valid". *)
Theorem due_stays_due self cert T w w' e d b r e' d' b' r' :
  clock w (ticks w) ≤ clock w' (ticks w') →
  fst (check_certificate_expiry self cert T w) = Ok (e, d, b, r) →
  fst (check_certificate_expiry self cert T w') = Ok (e', d', b', r') →
  e' = e ∧ d' ≤ d ∧ (b = true → b' = true) ∧
  (r = "emergency" → r' = "emergency") ∧
  (r' = "valid" → r = "valid").
Proof.
  intros Hle. unfold check_certificate_expiry, mbind, M_bind, datetime_now.
  simpl. intros [= <- <- <- <-] [= <- <- <- <-].
  assert (Hd : timedelta_days (x509.not_valid_after cert - clock w' (ticks w'))
               ≤ timedelta_days (x509.not_valid_after cert - clock w (ticks w))).
  { unfold timedelta_days. apply Z.div_le_mono; [done|lia]. }
  split; [done|]. split; [done|]. split.
  { rewrite !Z.leb_le. lia. }
  split.
  - rewrite !urgency_emergency. intros (c & -> & ?). exists c.
    split; [done|lia].
  - rewrite !urgency_valid. intros [Hb Hsc]. split.
    + apply Z.leb_gt in Hb. apply Z.leb_gt. lia.
    + destruct (service_config self); [lia|done].
Qed.

Lemma check_status_without_manager self cc w r w' :
  monitor_crl_manager self = None →
  check_certificate_status self cc w = (r, w') →
  (∃ n, w' = later n w) ∧
  ∀ st self', r = Ok (st, self') →
    self' = self ∧ is_revoked st = false ∧ revocation_info st = None.
Proof.
  intros Hm. destruct (carries_threshold cc) eqn:Hc.
  - destruct (threshold_total self cc Hc) as [T HT].
    destruct (file_cert w (config.cert_path cc)) as [cert|] eqn:Hfile.
    + destruct (check_loaded_cases self cc cert w T Hfile HT)
        as (rv & info & self1 & w1 & Hrun & Hcases).
      rewrite Hrun. intros [= <- <-].
      destruct Hcases as [(_ & -> & -> & -> & ->)|(? & ? & ? & ? & _)];
        [|congruence].
      split; [by exists 2%nat|]. by intros ? ? [= <- <-].
    + unfold check_certificate_status.
      unfold mbind at 1, M_bind at 1. rewrite load_certificate_run, Hfile.
      unfold error_status, mbind, M_bind, liftR. rewrite HT. simpl.
      intros [= <- <-]. split; [exists 0%nat; by destruct w|].
      by intros ? ? [= <- <-].
  - rewrite (check_without_threshold self cc w Hc). intros [= <- <-].
    split; [exists 0%nat; by destruct w | done].
Qed.

Lemma later_later n m w : later n (later m w) = later (n + m) w.
Proof. unfold later, set_ticks. simpl. f_equal. lia. Qed.

Lemma check_all_without_manager self ccs w r w' :
  monitor_crl_manager self = None →
  check_all_certificates self ccs w = (r, w') →
  (∃ n, w' = later n w) ∧
  ∀ sts self', r = Ok (sts, self') →
    self' = self ∧
    Forall (λ st, is_revoked st = false ∧ revocation_info st = None) sts.
Proof.
  intros Hm. revert w r w'. induction ccs as [|cc ccs IH]; intros w r w'.
  - simpl. intros [= <- <-]. split; [exists 0%nat; by destruct w|].
    by intros ? ? [= <- <-].
  - simpl. unfold mbind at 1, M_bind at 1.
    destruct (check_certificate_status self cc w) as [r1 w1] eqn:H1.
    apply (check_status_without_manager _ _ _ _ _ Hm) in H1
      as [[n ->] Hst].
    destruct r1 as [[st self1]|e].
    + destruct (Hst _ _ eq_refl) as (-> & Hr & Hi). simpl.
      unfold mbind at 1, M_bind at 1.
      destruct (check_all_certificates self ccs (later n w))
        as [r2 w2] eqn:H2.
      apply IH in H2 as [[k ->] Hsts]. rewrite later_later.
      destruct r2 as [[sts self2]|e]; simpl; intros [= <- <-].
      * split; [eauto|]. intros ? ? [= <- <-].
        destruct (Hsts _ _ eq_refl) as [-> Hall]. split; [done|].
        by constructor.
      * split; [eauto|done].
    + intros [= <- <-]. split; [eauto|done].
Qed.

(** X14. A monitor is given a CRL manager exactly when a Step CA
    configuration with CRL checking enabled is passed to it.  A monitor
    built without one works offline: evaluating any certificates only
    reads the clock, so it sends no request, writes no file and runs no
    command, the monitor is unchanged, and no status says "revoked". *)
Theorem monitor_without_crl_is_offline sc svc w0 mon w1 :
  __init__ sc svc w0 = (Ok mon, w1) →
  (is_Some (monitor_crl_manager mon) ↔
   ∃ c, sc = Some c ∧ config.crl_enabled c = true) ∧
  (monitor_crl_manager mon = None →
   ∀ ccs w r w',
     check_all_certificates mon ccs w = (r, w') →
     (∃ n, w' = later n w) ∧
     ∀ sts mon', r = Ok (sts, mon') →
       mon' = mon ∧
       Forall (λ st, is_revoked st = false ∧ revocation_info st = None)
              sts).
Proof.
  intros Hinit. split.
  - unfold __init__ in Hinit. destruct sc as [c|].
    + destruct (config.crl_enabled c) eqn:Hen.
      * apply bind_Ok_inv in Hinit as (m & w2 & _ & Hret). inv Hret.
        simpl. split; eauto.
      * inv Hinit. simpl. split; [by intros [? ?]|].
        intros (c' & [= <-] & ?). congruence.
    + inv Hinit. simpl. split; [by intros [? ?]|]. by intros (? & ? & _).
  - intros Hm ccs w r w'. by apply check_all_without_manager.
Qed.

End monitor_more.

Section monitor_more_runs.
Import certificate_monitor sample_renewal.

Lemma unloadable_certificate_is_reported_witness :
  check_certificate_status (H:=sample.lib) sample.monitor_no_crl web
    (sample.world ∅)
  = (Ok (load_failure web 30, sample.monitor_no_crl), sample.world ∅) ∧
  check_certificate_status (H:=sample.lib) sample.monitor_no_crl
    (config.mkCertificateConfig "web" "web.crt" "web.key" None "web" [])
    (sample.world ∅)
  = (Raise (AttributeError "renewal_threshold_days"), sample.world ∅).
Proof.
  split.
  - apply (unloadable_certificate_is_reported (H:=sample.lib)
             sample.monitor_no_crl web (sample.world ∅)).
    vm_compute; reflexivity.
  - apply (unloadable_certificate_is_reported (H:=sample.lib)
             sample.monitor_no_crl
             (config.mkCertificateConfig "web" "web.crt" "web.key" None
                "web" [])
             (sample.world ∅)).
    vm_compute; reflexivity.
Defined.

Lemma loaded_certificate_status_witness :
  let cert := sample.cert_of (sample.day 105) 7 [] in
  let w := sample.world (web_files [Byte.x01]) in
  (∃ st self' w',
     check_certificate_status (H:=sample.lib) sample.monitor_no_crl web w
       = (Ok (st, self'), w') ∧
     name st = config.name web ∧ cert_path st = config.cert_path web ∧
     expires_at st = Some (x509.not_valid_after cert) ∧
     days_until_expiry st =
       Some (timedelta_days
               (x509.not_valid_after cert - clock w (ticks w))) ∧
     renewal_threshold_days st = 30 ∧
     error_message st = None ∧
     (is_valid st = true ↔
      time_valid cert (clock w (S (ticks w))) ∧ is_revoked st = false) ∧
     service_config self' = service_config sample.monitor_no_crl) ∧
  check_certificate_status (H:=sample.lib) sample.monitor_no_crl
    (config.mkCertificateConfig "web" "web.crt" "web.key" None "web" []) w
  = (Raise (AttributeError "renewal_threshold_days"), w).
Proof.
  split.
  - apply (loaded_certificate_status (H:=sample.lib)
             sample.monitor_no_crl web
             (sample.cert_of (sample.day 105) 7 [])
             (sample.world (web_files [Byte.x01]))).
    vm_compute; reflexivity.
  - apply (loaded_certificate_status (H:=sample.lib)
             sample.monitor_no_crl
             (config.mkCertificateConfig "web" "web.crt" "web.key" None
                "web" [])
             (sample.cert_of (sample.day 105) 7 [])
             (sample.world (web_files [Byte.x01]))).
    vm_compute; reflexivity.
Defined.

Lemma revocation_looked_up_when_time_valid_witness :
  let self := sample.monitor_crl [a_crl] in
  let cert := sample.cert_of (sample.day 105) 7 [] in
  let w := sample.world_net (web_files [Byte.x01])
             (sample.serving [(a_crl, [Byte.x11])]) in
  ∃ st self' w',
    check_certificate_status (H:=sample.lib) self web w
      = (Ok (st, self'), w') ∧
    (monitor_crl_manager self = None ∨
     ¬ time_valid cert (clock w (S (ticks w))) →
     is_revoked st = false ∧ revocation_info st = None ∧
     self' = self ∧ w' = later 2 w) ∧
    (∀ mgr, monitor_crl_manager self = Some mgr →
       time_valid cert (clock w (S (ticks w))) →
       ∃ info mgr',
         crl_manager.check_certificate_revocation (H:=sample.lib)
           mgr cert (later 2 w) = (Ok (info, mgr'), w') ∧
         revocation_info st = Some info ∧
         is_revoked st = crl_manager.is_revoked info ∧
         needs_renewal st =
           crl_manager.is_revoked info ||
           (timedelta_days (x509.not_valid_after cert - clock w (ticks w))
              <=? 30) ∧
         monitor_crl_manager self' = Some mgr').
Proof.
  cbv zeta.
  destruct (check_certificate_status (H:=sample.lib)
              (sample.monitor_crl [a_crl]) web
              (sample.world_net (web_files [Byte.x01])
                 (sample.serving [(a_crl, [Byte.x11])])))
    as [[[st self']|e] w'] eqn:Hrun.
  - exists st, self', w'. split; [done|].
    apply (revocation_looked_up_when_time_valid (H:=sample.lib)
             (sample.monitor_crl [a_crl]) web
             (sample.cert_of (sample.day 105) 7 [])
             (sample.world_net (web_files [Byte.x01])
                (sample.serving [(a_crl, [Byte.x11])])) 30 st self' w');
      [vm_compute; reflexivity | reflexivity | exact Hrun].
  - vm_compute in Hrun. inversion Hrun.
Defined.

Lemma due_stays_due_witness :
  let cert := sample.cert_of (sample.day 105) 7 [] in
  let w := at_day 74 (sample.world ∅) in
  let w' := at_day 99 (sample.world ∅) in
  ∃ e d b r e' d' b' r',
    fst (check_certificate_expiry sample.monitor_no_crl cert 30 w)
      = Ok (e, d, b, r) ∧
    fst (check_certificate_expiry sample.monitor_no_crl cert 30 w')
      = Ok (e', d', b', r') ∧
    e' = e ∧ d' ≤ d ∧ (b = true → b' = true) ∧
    (r = "emergency" → r' = "emergency") ∧
    (r' = "valid" → r = "valid").
Proof.
  cbv zeta. eexists _, _, _, _, _, _, _, _.
  split; [vm_compute; reflexivity|].
  split; [vm_compute; reflexivity|].
  apply (due_stays_due sample.monitor_no_crl
           (sample.cert_of (sample.day 105) 7 []) 30
           (at_day 74 (sample.world ∅)) (at_day 99 (sample.world ∅)));
    [by vm_compute | vm_compute; reflexivity..].
Defined.

Lemma monitor_without_crl_is_offline_witness :
  ∃ mon w1,
    __init__ None (Some (sample.service_cfg [])) (sample.world ∅)
      = (Ok mon, w1) ∧
    (is_Some (monitor_crl_manager mon) ↔
     ∃ c, (None : option config.StepCAConfig) = Some c ∧
          config.crl_enabled c = true) ∧
    (monitor_crl_manager mon = None →
     ∀ ccs w r w',
       check_all_certificates (H:=sample.lib) mon ccs w = (r, w') →
       (∃ n, w' = later n w) ∧
       ∀ sts mon', r = Ok (sts, mon') →
         mon' = mon ∧
         Forall (λ st, is_revoked st = false ∧ revocation_info st = None)
                sts).
Proof.
  eexists _, _. split; [vm_compute; reflexivity|].
  eapply (monitor_without_crl_is_offline (H:=sample.lib)
            None (Some (sample.service_cfg [])) (sample.world ∅)).
  vm_compute; reflexivity.
Defined.

End monitor_more_runs.

Section est_more.
Context `{Lib}.

Ltac run_est_call :=
  unfold est_client.renew_certificate, est_client.enroll_certificate,
    est_client.verify_connectivity, est_client.get_ca_certs,
    est_client._generate_csr, generate_csr, try_except, mbind, M_bind,
    mret, M_ret, os_path_exists, read_file, session_request, write_file,
    os_chmod, os_makedirs.


Lemma try_except_const_Ok {A : Type} (body : M A) (x : A) w :
  ∃ a w', try_except body (λ _, mret x) w = (Ok a, w').
Proof. unfold try_except. destruct (body w) as [[a|e] w']; eauto. Qed.

(** X16. Renewing through EST a certificate whose file does not exist
    is an enrollment into the configured certificate and key paths. *)
Theorem est_renew_of_missing_certificate_enrolls est cc w :
  files w !! config.cert_path cc = None →
  est_client.renew_certificate est cc w =
  est_client.enroll_certificate est cc
    (config.cert_path cc) (config.key_path cc) w.
Proof.
  intros Hnone.
  assert (∃ b w', est_client.enroll_certificate est cc
                    (config.cert_path cc) (config.key_path cc) w
                  = (Ok b, w')) as (b & w' & Hrun)
    by apply try_except_const_Ok.
  unfold est_client.renew_certificate.
  unfold try_except at 1. unfold mbind at 1, M_bind at 1, os_path_exists.
  rewrite Hnone, bool_decide_eq_false_2 by (by intros [? ?]).
  simpl. by rewrite Hrun.
Qed.


(** X18. The EST connectivity probe never raises and sends exactly one
    request, a GET for cacerts through the session of the client; it
    answers True exactly when the server answered that request with
    status 200, in which case [get_ca_certs] returns the body as it
    came, empty or not. *)
Theorem est_connectivity_probe est w :
  let rq := {| req_method := GET;
               req_url := est_client._get_est_url est "cacerts";
               req_verify :=
                 merge_environment_settings
                   (est_client.session_verify est) |} in
  let w' := set_http_log (http_log w ++ [rq]) w in
  ∃ certs,
    est_client.get_ca_certs est w = (Ok certs, w') ∧
    est_client.verify_connectivity est w
      = (Ok (bool_decide (is_Some certs)), w') ∧
    ∀ data, certs = Some data ↔
      ∃ resp, http_server w (length (http_log w)) rq = Ok resp ∧
              status_code resp = 200 ∧ content resp = data.
Proof.
  intros rq w'. subst rq w'. run_est_call. simpl.
  destruct (http_server w _ _) as [resp|e]; simpl.
  - destruct (Z.eqb_spec (status_code resp) 200) as [H200|Hn200]; simpl.
    + exists (Some (content resp)). split; [done|]. split; [done|].
      intros data. split.
      * intros [= <-]. by exists resp.
      * by intros (? & [= <-] & _ & <-).
    + exists None. split; [done|]. split; [done|].
      intros data. split; [done|]. by intros (? & [= <-] & ? & _).
  - exists None. split; [done|]. split; [done|].
    intros data. split; [done|]. by intros (? & ? & _).
Qed.

End est_more.

Section step_more.
Context `{Lib}.
Import step_ca_client.

Ltac run_step_call :=
  unfold _request_certificate_jwk, get_provisioner_token,
    verify_certificate, _run_step_command, subprocess_run, mbind, M_bind,
    mret, M_ret, os_path_exists.

(** X19. Unlike the EST adapter, the token adapter does not enroll when
    there is nothing to renew: with the certificate file or the key file
    missing, the renewal returns False at once; no backup is taken, no
    command is run and no fresh certificate is requested. *)
Theorem jwk_renew_of_missing_files self cc w :
  is_EST self = false →
  files w !! config.cert_path cc = None ∨
  files w !! config.key_path cc = None →
  renew_certificate self cc w = (Ok false, w).
Proof.
  intros Hjwk Hmiss. unfold renew_certificate. rewrite Hjwk.
  unfold _renew_certificate_jwk.
  unfold mbind at 1, M_bind at 1, os_path_exists.
  destruct (files w !! config.cert_path cc) as [a|] eqn:Hc.
  - destruct Hmiss as [|Hk]; [done|].
    rewrite bool_decide_eq_true_2 by eauto. simpl.
    unfold mbind at 1, M_bind at 1.
    by rewrite Hk, bool_decide_eq_false_2 by (by intros [? ?]).
  - by rewrite bool_decide_eq_false_2 by (by intros [? ?]).
Qed.

(** X20. [verify_certificate] never raises.  It answers True exactly
    when the file exists, the client has a CLI path and a root
    certificate path, and the one run of "certificate verify" on the
    file against those roots exits with 0.  For a missing file, or for a
    client without a CLI path (the EST set-up), it answers False without
    running anything. *)
Theorem verify_certificate_outcome self p w :
  ∃ b w',
    verify_certificate self p w = (Ok b, w') ∧
    (b = true ↔
     ∃ path roots,
       is_Some (files w !! p) ∧
       _step_cli_path self = Some path ∧
       config.root_cert_path (config self) = Some roots ∧
       exit_ok (fst (cli_run w (verify_command path p roots))) = true ∧
       w' = after_run w (verify_command path p roots)) ∧
    (files w !! p = None ∨ _step_cli_path self = None →
     b = false ∧ w' = w).
Proof.
  run_step_call. unfold after_run, cli_run, verify_command, exit_ok.
  destruct (files w !! p) as [a|] eqn:Hp.
  - rewrite bool_decide_eq_true_2 by eauto. simpl.
    destruct (config.root_cert_path (config self)) as [roots|] eqn:Hroot.
    + destruct (_step_cli_path self) as [path|] eqn:Hpath; simpl.
      * destruct (step_cli w _ _ _) as [c f] eqn:Hrun. simpl.
        eexists _, _. split; [reflexivity|]. split.
        -- split.
           ++ intros Hb. exists path, roots. rewrite Hrun. simpl.
              split; [eauto|]. done.
           ++ intros (path' & roots' & _ & [= <-] & [= <-] & Hok & _).
              by rewrite Hrun in Hok.
        -- by intros [|].
      * eexists _, _. split; [reflexivity|]. split; [|done].
        split; [done|]. by intros (? & ? & _ & ? & _).
    + eexists _, _. split; [reflexivity|]. split; [|done].
      split; [done|]. by intros (? & ? & _ & _ & ? & _).
  - rewrite bool_decide_eq_false_2 by (by intros [? ?]). simpl.
    eexists _, _. split; [reflexivity|]. split; [|done].
    split; [done|]. by intros (? & ? & [? ?] & _).
Qed.

(** X21. A fresh certificate is requested in two runs.  The first asks
    for a token; when it fails, or prints nothing, the request returns
    False and "ca certificate" is never run.  Otherwise the second run
    is "ca certificate" for the subject and the two output paths, with
    the token as the first run printed it, and the request returns
    whether that run exited with 0. *)
Theorem jwk_request_needs_token self cc c k w path :
  _step_cli_path self = Some path →
  let t := token_command self cc path in
  let token := stdout (fst (cli_run w t)) in
  let w1 := after_run w t in
  if exit_ok (fst (cli_run w t)) && str_truthy token then
    let r := certificate_command path cc c k token in
    _request_certificate_jwk self cc c k w =
      (Ok (exit_ok (fst (cli_run w1 r))), after_run w1 r)
  else
    _request_certificate_jwk self cc c k w = (Ok false, w1).
Proof.
  intros Hpath t token w1. subst t token w1.
  run_step_call. rewrite Hpath.
  unfold after_run, cli_run, token_command, certificate_command, exit_ok.
  simpl.
  destruct (step_cli w _ _ _) as [c1 f1]. simpl.
  destruct (returncode c1 =? 0); simpl; [|done].
  destruct (stdout c1) as [|ch rest] eqn:Hout; simpl; [done|].
  by destruct (step_cli w _ _ f1) as [c2 f2].
Qed.





End step_more.

Section service_more.
Context `{Lib}.
Import certificate_monitor renewal_service.

Lemma verify_without_cli client p w :
  step_ca_client._step_cli_path client = None →
  step_ca_client.verify_certificate client p w = (Ok false, w).
Proof.
  intros Hnone.
  unfold step_ca_client.verify_certificate,
    step_ca_client._run_step_command, mbind, M_bind, os_path_exists.
  rewrite Hnone. simpl.
  destruct (bool_decide _); simpl; [|done].
  by destruct (config.root_cert_path _).
Qed.

Lemma renewal_outcome_name st st' :
  renewal_outcome st st' → name st' = name st.
Proof. by intros [| |]. Qed.

Lemma renew_all_outcome self sts w :
  ∃ sts' w', renew_all self sts w = (Ok sts', w') ∧
             Forall2 renewal_outcome sts sts'.
Proof.
  revert w. induction sts as [|st sts IH]; intros w.
  - by exists [], w.
  - destruct (renew_if_needed_outcome self st w)
      as (st' & w1 & Hrun & Hout).
    destruct (IH w1) as (sts' & w2 & Hrest & Hall).
    exists (st' :: sts'), w2. simpl.
    unfold mbind at 1, M_bind at 1. rewrite Hrun.
    unfold mbind at 1, M_bind at 1. rewrite Hrest.
    split; [done|]. by constructor.
Qed.

Lemma check_all_returns self ccs w :
  forallb carries_threshold ccs = true →
  ∃ sts self' w',
    check_all_certificates self ccs w = (Ok (sts, self'), w') ∧
    name <$> sts = config.name <$> ccs ∧
    service_config self' = service_config self.
Proof.
  revert self w. induction ccs as [|cc ccs IH]; intros self w; simpl.
  - intros _. by exists [], self, w.
  - intros [Hc Hall]%andb_true_iff.
    destruct (check_with_threshold self cc w Hc)
      as (st & self1 & w1 & Hrun & Hn & _ & Hs).
    destruct (IH self1 w1 Hall) as (sts & self2 & w2 & Hrest & Hns & Hs2).
    exists (st :: sts), self2, w2.
    unfold mbind at 1, M_bind at 1. rewrite Hrun. simpl.
    unfold mbind at 1, M_bind at 1. rewrite Hrest. simpl.
    split; [done|]. split; [by f_equal | congruence].
Qed.

Lemma check_all_raises ccs self w :
  forallb carries_threshold ccs = false →
  ∃ w', check_all_certificates self ccs w =
          (Raise (AttributeError "renewal_threshold_days"), w').
Proof.
  revert self w. induction ccs as [|cc ccs IH]; intros self w; simpl;
    [done|].
  destruct (carries_threshold cc) eqn:Hc; simpl.
  - intros Hall.
    destruct (check_with_threshold self cc w Hc)
      as (st & self1 & w1 & Hrun & _).
    destruct (IH self1 w1 Hall) as (w2 & Hrest).
    exists w2. unfold mbind at 1, M_bind at 1. rewrite Hrun. simpl.
    unfold mbind at 1, M_bind at 1. by rewrite Hrest.
  - intros _. exists w. unfold mbind at 1, M_bind at 1.
    by rewrite (check_without_threshold self cc w Hc).
Qed.

(** X24. A service whose client was constructed for the protocol EST
    never confirms a renewal: the verification of a renewed certificate
    goes through the step CLI, which that client does not have.  So a
    pass never clears [needs_renewal], and a renewal that succeeded is
    recorded with the message "Certificate verification failed after
    renewal", the renewed files staying in place. *)
Theorem est_service_never_confirms_renewal cfg w0 w1 self :
  step_ca_client.__init__ cfg w0 = (Ok (Some (step_client self)), w1) →
  upper (config.protocol cfg) = "EST" →
  (∀ sts w sts' w',
     renew_all self sts w = (Ok sts', w') →
     needs_renewal <$> sts' = needs_renewal <$> sts) ∧
  (∀ st cc w w',
     needs_renewal st = true →
     configured self st = Some cc →
     step_ca_client.renew_certificate (step_client self) cc w
       = (Ok true, w') →
     renew_if_needed self st w =
       (Ok (set_error_message
              (Some "Certificate verification failed after renewal") st),
        w')).
Proof.
  intros Hinit Hest.
  assert (Hnone : step_ca_client._step_cli_path (step_client self) = None).
  { unfold step_ca_client.__init__ in Hinit.
    rewrite bool_decide_eq_true_2 in Hinit by done.
    injection Hinit as Hc _. by rewrite <- Hc. }
  assert (Hone : ∀ st w st' w',
            renew_if_needed self st w = (Ok st', w') →
            needs_renewal st' = needs_renewal st).
  { intros st w st' w'. unfold renew_if_needed.
    destruct (needs_renewal st) eqn:Hn; [|by intros [= <- <-]].
    destruct (List.find _ _) as [cc|]; [|by intros [= <- <-]].
    unfold try_except, mbind at 1, M_bind at 1.
    destruct (step_ca_client.renew_certificate _ _ _) as [[[]|e] w2].
    - unfold mbind, M_bind. rewrite (verify_without_cli _ _ _ Hnone).
      by intros [= <- <-].
    - by intros [= <- <-].
    - by intros [= <- <-]. }
  split.
  - intros sts. induction sts as [|st sts IH]; intros w sts' w'; simpl.
    + by intros [= <- <-].
    + intros Hrun.
      apply bind_Ok_inv in Hrun as (st' & w2 & Hst & Hrun).
      apply bind_Ok_inv in Hrun as (rest & w3 & Hrest & Hrun).
      inv Hrun. simpl. f_equal; [by eapply Hone | by eapply IH].
  - intros st cc w w' Hn Hcc Hrenew. unfold renew_if_needed.
    unfold configured in Hcc. rewrite Hn, Hcc.
    unfold try_except, mbind at 1, M_bind at 1. rewrite Hrenew.
    unfold mbind, M_bind. by rewrite (verify_without_cli _ _ _ Hnone).
Qed.

(** X25. When every configured certificate has the attribute the
    monitor reads, a pass of [check_and_renew_certificates] does not
    raise, whatever the renewals do: it returns one status for each
    configured certificate, in the order of the configuration, and the
    service keeps its configuration and its client. *)
Theorem pass_returns_statuses_in_order self w :
  forallb carries_threshold (config.certificates (config self)) = true →
  ∃ sts self' w',
    check_and_renew_certificates self w = (Ok (sts, self'), w') ∧
    name <$> sts = config.name <$> config.certificates (config self) ∧
    config self' = config self ∧
    step_client self' = step_client self ∧
    service_config (monitor self') = service_config (monitor self).
Proof.
  intros Hall.
  destruct (check_all_returns (monitor self) _ w Hall)
    as (sts & mon' & w1 & Hcheck & Hnames & Hsc).
  destruct (renew_all_outcome self sts w1) as (sts' & w2 & Hrenew & Hout).
  eexists sts', _, w2. unfold check_and_renew_certificates.
  unfold mbind at 1, M_bind at 1. rewrite Hcheck. simpl.
  unfold mbind at 1, M_bind at 1. rewrite Hrenew. simpl.
  split; [reflexivity|]. simpl. split; [|done].
  rewrite <- Hnames. clear -Hout.
  induction Hout as [|st st' sts sts' Ho _ IH]; [done|].
  rewrite !fmap_cons. f_equal; [by apply renewal_outcome_name | done].
Qed.

(** X26. The renewal step leaves alone every status that does not ask
    for a renewal, and every status whose name no configured
    certificate has: for a list of such statuses it returns the list as
    it is, and nothing is read, written, sent or run. *)
Theorem settled_statuses_are_left_alone self sts w :
  Forall (settled self) sts →
  renew_all self sts w = (Ok sts, w).
Proof.
  induction 1 as [|st sts Hst _ IH]; [done|]. simpl.
  assert (Hone : renew_if_needed self st w = (Ok st, w)).
  { unfold renew_if_needed. destruct Hst as [Hn|Hc].
    - by rewrite Hn.
    - unfold configured in Hc. rewrite Hc. by destruct (needs_renewal st). }
  unfold mbind at 1, M_bind at 1. rewrite Hone.
  unfold mbind at 1, M_bind at 1. by rewrite IH.
Qed.

(** X27. [status_report] only works for a service without
    certificates, where it gives the empty report.  As soon as one
    certificate is configured it raises [AttributeError]: for the
    attribute [renewal_threshold_days] of a configuration that lacks it,
    else for the attribute [renewal_threshold_percent] that the report
    reads from the first status. *)
Theorem status_report_of_configured_certificates self w :
  (config.certificates (config self) = [] →
   ∃ r,
     status_report self w = (Ok (r, self), later 1 w) ∧
     total_certificates r = 0%nat ∧ report_certificates_list r = [] ∧
     summary r = {| valid_certificates := 0;
                    certificates_needing_renewal := 0;
                    certificates_with_errors := 0;
                    revoked_certificates := 0 |} ∧
     crl_status r = crl_manager.get_crl_status_report
                      <$> monitor_crl_manager (monitor self)) ∧
  (config.certificates (config self) ≠ [] →
   ∃ w',
     status_report self w =
       (Raise (AttributeError
                 (if forallb carries_threshold
                       (config.certificates (config self))
                  then "renewal_threshold_percent"
                  else "renewal_threshold_days")), w')).
Proof.
  unfold status_report. split.
  - intros ->. simpl. destruct self as [cfg mon client]. simpl.
    eexists. split; [reflexivity|]. done.
  - intros Hne.
    destruct (forallb carries_threshold _) eqn:Hall.
    + destruct (check_all_returns (monitor self) _ w Hall)
        as (sts & mon' & w1 & Hcheck & Hnames & _).
      unfold mbind at 1, M_bind at 1. rewrite Hcheck. simpl.
      destruct sts as [|st sts].
      { destruct (config.certificates (config self)); done. }
      unfold mbind, M_bind, datetime_now. simpl. eauto.
    + destruct (check_all_raises _ (monitor self) w Hall) as (w' & Hraise).
      unfold mbind at 1, M_bind at 1. rewrite Hraise. eauto.
Qed.

Lemma ensure_certificate_directories_run ccs w :
  ensure_certificate_directories ccs w =
  if creatable (flat_map (λ cc, [dirname (config.cert_path cc);
                                 dirname (config.key_path cc)]) ccs)
  then (Ok tt, w) else (Raise (OSError EmptyString), w).
Proof.
  induction ccs as [|cc ccs IH]; [done|]. simpl.
  unfold mbind, M_bind, os_makedirs, raise, mret, M_ret.
  destruct (dirname (config.cert_path cc)); simpl; [done|].
  destruct (dirname (config.key_path cc)); simpl; [done|].
  exact IH.
Qed.

Lemma service_directories_run {A : Type} self (rest : M A) w :
  (os_makedirs (config.cert_storage_path (config self));;
   os_makedirs (dirname (config.log_file (config self)));; rest) w =
  if creatable (service_directories self) then rest w
  else (Raise (OSError EmptyString), w).
Proof.
  unfold service_directories, creatable, mbind, M_bind, os_makedirs,
    raise, mret, M_ret. simpl.
  destruct (config.cert_storage_path (config self)); simpl; [done|].
  by destruct (dirname (config.log_file (config self))).
Qed.

(** X28. [initialize] with an EST client.  When the storage directory
    of the configuration or the directory of its log file is the empty
    path, it raises before anything is sent.  Otherwise the first probe
    decides: when the server does not answer the GET for cacerts with
    status 200 it returns False after that one request; when it does,
    the health check sends the same request again and its answer does
    not matter: the initialisation returns True, unless a configured
    certificate or key path is a bare file name, in which case creating
    its directory raises after the two requests. *)
Theorem est_initialize_is_first_probe json_ok self est w :
  step_ca_client.is_EST (step_client self) = true →
  step_ca_client.est_client (step_client self) = Some est →
  let rq := cacerts_request est in
  initialize json_ok self w =
    if negb (creatable (service_directories self))
    then (Raise (OSError EmptyString), w)
    else if answers_200 w rq then
      let w2 := after_request (after_request w rq) rq in
      if creatable (certificate_directories self)
      then (Ok true, w2)
      else (Raise (OSError EmptyString), w2)
    else (Ok false, after_request w rq).
Proof.
  intros Hest Hc rq. subst rq.
  unfold initialize. rewrite service_directories_run.
  destruct (creatable (service_directories self)); simpl; [|done].
  unfold step_ca_client.bootstrap_ca, step_ca_client.get_ca_info.
  rewrite Hest, Hc.
  unfold answers_200, after_request, cacerts_request,
    est_client.verify_connectivity, est_client.get_ca_certs, try_except,
    session_request.
  unfold mbind at 1, M_bind at 1. unfold mbind at 1, M_bind at 1.
  unfold mbind at 1, M_bind at 1. simpl.
  destruct (http_server w _ _) as [resp|e]; simpl; [|done].
  destruct (status_code resp =? 200); simpl; [|done].
  unfold mbind at 1, M_bind at 1. unfold mbind at 1, M_bind at 1.
  unfold mbind at 1, M_bind at 1. unfold mbind at 1, M_bind at 1. simpl.
  unfold certificate_directories.
  destruct (http_server w _ _) as [resp2|e2]; simpl;
    [destruct (status_code resp2 =? 200); simpl|];
    unfold mbind, M_bind; rewrite ensure_certificate_directories_run;
    by destruct (creatable _).
Qed.


(** X30. [run_once] never raises, and it returns True exactly when
    every configured certificate has the attribute
    [renewal_threshold_days].  An object of the [CertificateConfig]
    class of config.py lacks it: when the first configured certificate
    is such an object the cycle returns False at once, before anything
    is read, sent, written or run, so no certificate is evaluated or
    renewed. *)
Theorem run_once_outcome self w :
  (∃ w', run_once self w =
           (Ok (forallb carries_threshold
                  (config.certificates (config self))), w')) ∧
  (∀ cc rest,
     config.certificates (config self) = cc :: rest →
     carries_threshold cc = false →
     run_once self w = (Ok false, w)) ∧
  (∀ n c k pct subj alt,
     carries_threshold (config.mkCertificateConfig n c k pct subj alt)
       = false).
Proof.
  split; [|split].
  - unfold run_once, try_except, mbind at 1, M_bind at 1.
    destruct (forallb carries_threshold _) eqn:Hall.
    + unfold check_and_renew_certificates.
      destruct (check_all_returns (monitor self) _ w Hall)
        as (sts & mon' & w1 & Hcheck & _).
      destruct (renew_all_outcome self sts w1) as (sts' & w2 & Hrenew & _).
      unfold mbind at 1, M_bind at 1. rewrite Hcheck. simpl.
      unfold mbind at 1, M_bind at 1. rewrite Hrenew. simpl. eauto.
    + unfold check_and_renew_certificates.
      destruct (check_all_raises _ (monitor self) w Hall) as (w' & Hraise).
      unfold mbind at 1, M_bind at 1. rewrite Hraise. simpl. eauto.
  - intros cc rest Hcerts Hc.
    unfold run_once, try_except, mbind at 1, M_bind at 1.
    unfold check_and_renew_certificates.
    unfold mbind at 1, M_bind at 1. rewrite Hcerts. simpl.
    unfold mbind at 1, M_bind at 1.
    by rewrite (check_without_threshold _ cc w Hc).
  - done.
Qed.

End service_more.

Section more_runs.
Import certificate_monitor renewal_service sample_renewal.

(** Spellings of the protocol that select the EST adapter, and one that
    does not. *)
Lemma est_protocol_spellings :
  upper "est" = "EST" ∧ upper "Est" = "EST" ∧ upper "eſt" = "EST" ∧
  upper "Eﬆ" = "EST" ∧ upper "eﬅ" = "EST" ∧ upper "jwk" = "JWK" ∧
  step_ca_client.__init__ (sample.step_cfg_protocol "eſt" [])
    (sample.world ∅)
  = (Ok (Some {| step_ca_client.config :=
                   sample.step_cfg_protocol "eſt" [];
                 step_ca_client.est_client :=
                   Some (est_client.__init__
                           (sample.step_cfg_protocol "eſt" []));
                 step_ca_client._step_cli_path := None |}),
     sample.world ∅).
Proof. repeat split; vm_compute; reflexivity. Qed.

Lemma est_renew_of_missing_certificate_enrolls_witness :
  est_client.renew_certificate (H:=sample.lib) est web
    (sample.world_net ∅ est_server) =
  est_client.enroll_certificate (H:=sample.lib) est web
    (config.cert_path web) (config.key_path web)
    (sample.world_net ∅ est_server).
Proof.
  apply (est_renew_of_missing_certificate_enrolls (H:=sample.lib)).
  vm_compute; reflexivity.
Defined.


Lemma jwk_renew_of_missing_files_witness :
  step_ca_client.renew_certificate (H:=sample.lib) jwk_client web
    (sample.world ∅) = (Ok false, sample.world ∅).
Proof.
  apply (jwk_renew_of_missing_files (H:=sample.lib));
    [vm_compute; reflexivity | left; vm_compute; reflexivity].
Defined.

Lemma jwk_request_needs_token_witness :
  let w := with_cli renewing_cli (sample.world ∅) in
  let t := token_command jwk_client web "step" in
  let token := stdout (fst (cli_run w t)) in
  let w1 := after_run w t in
  if exit_ok (fst (cli_run w t)) && str_truthy token then
    let r := certificate_command "step" web "web.crt" "web.key" token in
    step_ca_client._request_certificate_jwk jwk_client web
      "web.crt" "web.key" w =
      (Ok (exit_ok (fst (cli_run w1 r))), after_run w1 r)
  else
    step_ca_client._request_certificate_jwk jwk_client web
      "web.crt" "web.key" w = (Ok false, w1).
Proof.
  apply (jwk_request_needs_token jwk_client web "web.crt" "web.key"
           (with_cli renewing_cli (sample.world ∅)) "step").
  reflexivity.
Defined.


Lemma est_service_never_confirms_renewal_witness :
  let self := service est_built in
  (∀ sts w sts' w',
     renew_all (H:=sample.lib) self sts w = (Ok sts', w') →
     needs_renewal <$> sts' = needs_renewal <$> sts) ∧
  (∀ st cc w w',
     needs_renewal st = true →
     configured self st = Some cc →
     step_ca_client.renew_certificate (H:=sample.lib)
       (step_client self) cc w = (Ok true, w') →
     renew_if_needed (H:=sample.lib) self st w =
       (Ok (set_error_message
              (Some "Certificate verification failed after renewal") st),
        w')).
Proof.
  apply (est_service_never_confirms_renewal (H:=sample.lib)
           est_cfg (sample.world ∅) (sample.world ∅) (service est_built));
    vm_compute; reflexivity.
Defined.

Lemma pass_returns_statuses_in_order_witness :
  let self := service jwk_client in
  let w := with_cli renewing_cli (sample.world (web_files [Byte.x01])) in
  ∃ sts self' w',
    check_and_renew_certificates (H:=sample.lib) self w
      = (Ok (sts, self'), w') ∧
    name <$> sts = config.name <$> config.certificates (config self) ∧
    config self' = config self ∧
    step_client self' = step_client self ∧
    service_config (monitor self') = service_config (monitor self).
Proof.
  apply (pass_returns_statuses_in_order (H:=sample.lib)
           (service jwk_client)
           (with_cli renewing_cli (sample.world (web_files [Byte.x01])))).
  reflexivity.
Defined.

Lemma settled_statuses_are_left_alone_witness :
  renew_all (H:=sample.lib) (service jwk_client) quiet_statuses
    (sample.world ∅) = (Ok quiet_statuses, sample.world ∅).
Proof.
  apply (settled_statuses_are_left_alone (H:=sample.lib)).
  constructor; [left; vm_compute; reflexivity|].
  constructor; [right; vm_compute; reflexivity | constructor].
Defined.

Lemma est_initialize_is_first_probe_witness :
  let w := sample.world_net ∅ cacerts_server in
  let rq := cacerts_request (H:=sample.lib) (est_client.__init__ est_cfg) in
  let w2 := after_request (after_request w rq) rq in
  initialize (H:=sample.lib) (λ _, true) (housed_service est_built) w
    = (Ok true, w2) ∧
  initialize (H:=sample.lib) (λ _, true) (service est_built) w
    = (Raise (OSError EmptyString), w2).
Proof.
  split.
  - apply (est_initialize_is_first_probe (H:=sample.lib) (λ _, true)
             (housed_service est_built) (est_client.__init__ est_cfg)
             (sample.world_net ∅ cacerts_server));
      vm_compute; reflexivity.
  - apply (est_initialize_is_first_probe (H:=sample.lib) (λ _, true)
             (service est_built) (est_client.__init__ est_cfg)
             (sample.world_net ∅ cacerts_server));
      vm_compute; reflexivity.
Defined.


End more_runs.
